(** * Milvus2 retriever: search-mode dispatch and result conversion

    A shallow embedding of [components/retriever/milvus2/retriever.go],
    [search_mode/hybrid.go] and [search_mode/scalar.go].  Go values are
    modelled as follows:

    - [float64] is Rocq's primitive binary64 [float]; [float32] is a
      [spec_float] rounded to binary32;
    - [map[string]any] is a [gmap string any];
    - a Go [(T, error)] result is a [result T], an error being its message;
    - interface values that may be [nil] are [option]s;
    - the callbacks and the [context.Context] carry no data of the
      retrieval and are left out. *)

From Stdlib Require Import ZArith List Bool Lia.
From Corelib Require Import PrimFloat SpecFloat FloatOps FloatAxioms.
From stdpp Require Import base gmap strings list pretty.

Set Warnings "-inexact-float,-register-all".
Open Scope Z_scope.

(** ** Go results and errors *)

Inductive result (A : Type) : Type :=
| Ok (a : A)
| Err (msg : string).
Arguments Ok {A} a.
Arguments Err {A} msg.

Definition isErr {A} (r : result A) : bool :=
  match r with Ok _ => false | Err _ => true end.

Definition bind {A B} (r : result A) (k : A -> result B) : result B :=
  match r with
  | Ok a => k a
  | Err msg => Err msg
  end.

(** [fmt.Errorf(prefix + ": %w", err)] on the error branch of a call. *)
Definition wrapErr {A} (prefix : string) (r : result A) : result A :=
  match r with
  | Ok a => Ok a
  | Err msg => Err (prefix +:+ ": " +:+ msg)
  end.

Notation "'do' x <- c ; k" := (bind c (fun x => k))
  (at level 10, x name, c at level 100, k at level 200).

(** ** Numbers *)

Definition float64 := float.
Definition float32 := spec_float.

(** The conversion [float32(v)] of a [float64]: round to nearest even on
    24 bits of precision, overflowing to an infinity. *)
Definition float32_of_float64 (v : float64) : float32 :=
  match Prim2SF v with
  | S754_finite s m e => binary_round 24 128 s m e
  | other => other
  end.

(** The conversion [float64(s)] of a [float32], which is exact. *)
Definition float64_of_float32 (s : float32) : float64 := SF2Prim s.

(** The conversion [uint32(k)] of an [int]. *)
Definition uint32_of_int (k : Z) : Z := k mod 2 ^ 32.

(** ** Dynamic values

    The values a column cell or a decoded JSON entry can hold. *)
Inductive any : Type :=
| ANil
| AString (s : string)
| ABytes (b : list Byte.byte)
| AInt64 (z : Z)
| ABool (b : bool)
| AFloat32 (f : float32)
| AFloat64 (f : float64)
| AArray (l : list any)
| AObject (m : list (string * any)).

Definition isNil (v : any) : bool :=
  match v with ANil => true | _ => false end.

(** ** Documents ([schema.Document]) *)

Record Document : Type := {
  ID : string;
  Content : string;
  MetaData : gmap string any
}.

(** [Document.WithScore] keeps the score under the reserved metadata key
    of the schema package, which is not the key ["score"]. *)
Definition docMetaDataKeyScore : string := "_score".

Definition WithScore (score : float64) (d : Document) : Document :=
  {| ID := ID d;
     Content := Content d;
     MetaData := <[docMetaDataKeyScore := AFloat64 score]> (MetaData d) |}.

(** ** Engine result sets ([column.Column], [milvusclient.ResultSet]) *)

(** A column is known through its interface: its name and the two
    accessors, each returning a value together with an optional error. *)
Record Column : Type := {
  Name : string;
  Get : nat -> any * option string;
  GetAsString : nat -> result string
}.

Record ResultSet : Type := {
  ResultCount : Z;
  Scores : list float32;
  Fields : list Column
}.

Definition GetColumn (rs : ResultSet) (fieldName : string) : option Column :=
  List.find (fun c => String.eqb (Name c) fieldName) (Fields rs).

(** Modelled from the spec: the reserved names of the primary-key,
    content and metadata fields (the constants of [consts.go]), at the
    values the result sets of the tests use. *)
Definition defaultIDField : string := "id".
Definition defaultContentField : string := "content".
Definition defaultMetadataField : string := "metadata".

(** ** External functions

    The formatting verb [%v], the JSON decoder and the constructor of a
    sparse embedding belong to other packages; the retriever is
    parametric in them. *)

Record sliceSparseEmbedding : Type := {
  positions : list Z;
  values : list float32
}.

Class Externals : Type := {
  Sprintf_v : any -> string;
  Unmarshal : list Byte.byte -> result (gmap string any);
  NewSliceSparseEmbedding : list Z -> list float32 -> result sliceSparseEmbedding
}.

(** The loop [for k, v := range m { meta[k] = v }]. *)
Definition mergeInto (m meta : gmap string any) : gmap string any :=
  map_fold (fun k v acc => <[k := v]> acc) meta m.

(** The rows [0 .. n-1] of a loop [for i := 0; i < n; i++]. *)
Definition rows (n : Z) : list nat := seq 0 (Z.to_nat n).

Section Converters.
Context `{Externals}.

(** *** [queryResultSetToDocuments] *)

Definition getField (resultSet : ResultSet) (fieldName : string) (idx : nat)
  : any * bool :=
  match GetColumn resultSet fieldName with
  | None => (ANil, false)
  | Some col =>
      let '(val, err) := Get col idx in
      (val, match err with None => true | Some _ => false end)
  end.

(** The metadata map of row [i]: the decoded JSON blob, when there is
    one and it decodes. *)
Definition queryRowMeta (resultSet : ResultSet) (i : nat) : gmap string any :=
  let meta : gmap string any := ∅ in
  match getField resultSet defaultMetadataField i with
  | (ABytes fieldBytes, true) =>
      match Unmarshal fieldBytes with
      | Ok m => mergeInto m meta
      | Err _ => meta
      end
  | _ => meta
  end.

(** The document of row [i], whose id field holds [idVal]. *)
Definition queryRowDoc (resultSet : ResultSet) (i : nat) (idVal : any) : Document :=
  let idStr := Sprintf_v idVal in
  let contentVal := fst (getField resultSet defaultContentField i) in
  let contentStr := if isNil contentVal then "" else Sprintf_v contentVal in
  {| ID := idStr;
     Content := contentStr;
     MetaData := queryRowMeta resultSet i |}.

(** One turn of the loop over the rows: [docs] after row [i]; a row
    without an id is passed over by [continue]. *)
Definition queryRowStep (resultSet : ResultSet) (docs : list Document) (i : nat)
  : list Document :=
  match getField resultSet defaultIDField i with
  | (_, false) => docs
  | (idVal, true) => docs ++ [queryRowDoc resultSet i idVal]
  end.

Definition queryResultSetToDocuments (resultSet : ResultSet)
  : result (list Document) :=
  Ok (fold_left (queryRowStep resultSet) (rows (ResultCount resultSet)) []).

(** *** [defaultDocumentConverter] *)

(** The body of the loop over [result.Fields] for row [i]. *)
Definition convertField (i : nat) (doc : Document) (field : Column) : Document :=
  match Get field i with
  | (_, Some _) => doc
  | (val, None) =>
      if String.eqb (Name field) "id" then
        match val with
        | AString id =>
            {| ID := id; Content := Content doc; MetaData := MetaData doc |}
        | _ =>
            match GetAsString field i with
            | Ok idStr =>
                {| ID := idStr; Content := Content doc; MetaData := MetaData doc |}
            | Err _ => doc
            end
        end
      else if String.eqb (Name field) defaultContentField then
        match val with
        | AString content =>
            {| ID := ID doc; Content := content; MetaData := MetaData doc |}
        | _ =>
            match GetAsString field i with
            | Ok contentStr =>
                {| ID := ID doc; Content := contentStr; MetaData := MetaData doc |}
            | Err _ => doc
            end
        end
      else if String.eqb (Name field) defaultMetadataField then
        match val with
        | ABytes metaBytes =>
            match Unmarshal metaBytes with
            | Ok meta =>
                {| ID := ID doc; Content := Content doc;
                   MetaData := mergeInto meta (MetaData doc) |}
            | Err _ => doc
            end
        | _ => doc
        end
      else
        {| ID := ID doc; Content := Content doc;
           MetaData := <[Name field := val]> (MetaData doc) |}
  end.

(** The document of row [i]. *)
Definition convertRow (resultSet : ResultSet) (i : nat) : Document :=
  let doc := {| ID := ""; Content := ""; MetaData := ∅ |} in
  let doc :=
    match nth_error (Scores resultSet) i with
    | Some s =>
        WithScore (float64_of_float32 s)
          {| ID := ID doc; Content := Content doc;
             MetaData := <["score" := AFloat64 (float64_of_float32 s)]> (MetaData doc) |}
    | None => doc
    end in
  fold_left (convertField i) (Fields resultSet) doc.

Definition defaultDocumentConverter (resultSet : ResultSet)
  : result (list Document) :=
  Ok (fold_left (fun docs i => docs ++ [convertRow resultSet i])
        (rows (ResultCount resultSet)) []).

End Converters.

(** ** Score threshold ([Retriever.applyScoreThreshold]) *)

(** The test of the loop body: [doc.MetaData["score"].(float64)] succeeds
    and the score is at least the threshold. *)
Definition passesThreshold (threshold : float64) (doc : Document) : bool :=
  match MetaData doc !! "score" with
  | Some (AFloat64 score) => PrimFloat.leb threshold score
  | _ => false
  end.

Fixpoint thresholdLoop (threshold : float64) (docs filtered : list Document)
  : list Document :=
  match docs with
  | [] => filtered
  | doc :: rest =>
      if passesThreshold threshold doc
      then thresholdLoop threshold rest (filtered ++ [doc])
      else thresholdLoop threshold rest filtered
  end.

Definition applyScoreThreshold (docs : list Document) (threshold : option float64)
  : list Document :=
  match threshold with
  | None => docs
  | Some t => thresholdLoop t docs []
  end.

(** ** Embedding providers *)

(** [embedding.Embedder.EmbedStrings] and [SparseEmbedder.EmbedStrings]:
    one vector per input text. *)
Definition Embedder : Type := list string -> result (list (list float64)).
Definition SparseEmbedder : Type := list string -> result (list (gmap Z float64)).

(** ** Call options (package [retriever] of the framework) *)

Module retriever.

Record Options : Type := {
  Index : option string;
  SubIndex : option string;
  TopK : option Z;
  ScoreThreshold : option float64;
  Embedding : option Embedder
}.

(** An option either updates the common [Options] or carries a function
    on the options of one implementation, of type [T] here; the options
    of other implementations are ignored by both readers below. *)
Inductive Option (T : Type) : Type :=
| WithIndex (indexName : string)
| WithSubIndex (subIndex : string)
| WithTopK (topK : Z)
| WithScoreThreshold (threshold : float64)
| WithEmbedding (emb : option Embedder)
| WrapImplSpecificOptFn (optFn : T -> T)
| ForeignImplSpecificOpt.
Arguments WithIndex {T} indexName.
Arguments WithSubIndex {T} subIndex.
Arguments WithTopK {T} topK.
Arguments WithScoreThreshold {T} threshold.
Arguments WithEmbedding {T} emb.
Arguments WrapImplSpecificOptFn {T} optFn.
Arguments ForeignImplSpecificOpt {T}.

Definition apply {T} (base : Options) (opt : Option T) : Options :=
  match opt with
  | WithIndex indexName =>
      {| Index := Some indexName; SubIndex := SubIndex base; TopK := TopK base;
         ScoreThreshold := ScoreThreshold base; Embedding := Embedding base |}
  | WithSubIndex subIndex =>
      {| Index := Index base; SubIndex := Some subIndex; TopK := TopK base;
         ScoreThreshold := ScoreThreshold base; Embedding := Embedding base |}
  | WithTopK topK =>
      {| Index := Index base; SubIndex := SubIndex base; TopK := Some topK;
         ScoreThreshold := ScoreThreshold base; Embedding := Embedding base |}
  | WithScoreThreshold threshold =>
      {| Index := Index base; SubIndex := SubIndex base; TopK := TopK base;
         ScoreThreshold := Some threshold; Embedding := Embedding base |}
  | WithEmbedding emb =>
      {| Index := Index base; SubIndex := SubIndex base; TopK := TopK base;
         ScoreThreshold := ScoreThreshold base; Embedding := emb |}
  | WrapImplSpecificOptFn _ | ForeignImplSpecificOpt => base
  end.

(** [GetCommonOptions(base, opts...)]: every common option is applied
    to [base], in order. *)
Definition GetCommonOptions {T} (base : Options) (opts : list (Option T)) : Options :=
  fold_left apply opts base.

(** [GetImplSpecificOptions(base, opts...)]. *)
Definition GetImplSpecificOptions {T} (base : T) (opts : list (Option T)) : T :=
  fold_left (fun b opt =>
               match opt with
               | WrapImplSpecificOptFn optFn => optFn b
               | _ => b
               end) opts base.

End retriever.

(** Modelled from the spec: the options of this implementation
    ([ImplOptions], [WithFilter], [WithGrouping] of [options.go]), the
    per-call filter expression and the grouping of results by a field
    with a group size and a strictness flag. *)
Record GroupingConfig : Type := {
  GroupByField : string;
  GroupSize : Z;
  StrictGroupSize : bool
}.

Record ImplOptions : Type := {
  Filter : string;
  Grouping : option GroupingConfig
}.

Definition emptyImplOptions : ImplOptions := {| Filter := ""; Grouping := None |}.

Abbreviation Option := (retriever.Option ImplOptions).

Definition WithFilter (filter : string) : Option :=
  retriever.WrapImplSpecificOptFn
    (fun o => {| Filter := filter; Grouping := Grouping o |}).

Definition WithGrouping (groupByField : string) (groupSize : Z) (strict : bool) : Option :=
  retriever.WrapImplSpecificOptFn
    (fun o => {| Filter := Filter o;
                 Grouping := Some {| GroupByField := groupByField;
                                     GroupSize := groupSize;
                                     StrictGroupSize := strict |} |}).

(** ** Requests of the engine client (package [milvusclient]) *)

Inductive Vector : Type :=
| FloatVector (v : list float32)
| SparseVectorOf (e : sliceSparseEmbedding).

Module milvusclient.

Inductive Reranker : Type :=
| RRFReranker
| WeightedReranker (weights : list float64).

Record annRequest : Type := {
  ann_field : string;
  ann_limit : Z;
  ann_vectors : list Vector;
  ann_searchParam : gmap string string;
  ann_filter : string;
  ann_groupByField : string;
  ann_groupSize : Z;
  ann_strictGroupSize : bool
}.

Definition NewAnnRequest (annField : string) (limit : Z) (vectors : list Vector)
  : annRequest :=
  {| ann_field := annField; ann_limit := limit; ann_vectors := vectors;
     ann_searchParam := ∅; ann_filter := ""; ann_groupByField := "";
     ann_groupSize := 0; ann_strictGroupSize := false |}.

Definition ann_WithSearchParam (key value : string) (r : annRequest) : annRequest :=
  {| ann_field := ann_field r; ann_limit := ann_limit r; ann_vectors := ann_vectors r;
     ann_searchParam := <[key := value]> (ann_searchParam r);
     ann_filter := ann_filter r; ann_groupByField := ann_groupByField r;
     ann_groupSize := ann_groupSize r; ann_strictGroupSize := ann_strictGroupSize r |}.

Definition ann_WithFilter (expr : string) (r : annRequest) : annRequest :=
  {| ann_field := ann_field r; ann_limit := ann_limit r; ann_vectors := ann_vectors r;
     ann_searchParam := ann_searchParam r;
     ann_filter := expr; ann_groupByField := ann_groupByField r;
     ann_groupSize := ann_groupSize r; ann_strictGroupSize := ann_strictGroupSize r |}.

Definition ann_WithGroupByField (f : string) (r : annRequest) : annRequest :=
  {| ann_field := ann_field r; ann_limit := ann_limit r; ann_vectors := ann_vectors r;
     ann_searchParam := ann_searchParam r;
     ann_filter := ann_filter r; ann_groupByField := f;
     ann_groupSize := ann_groupSize r; ann_strictGroupSize := ann_strictGroupSize r |}.

Definition ann_WithGroupSize (n : Z) (r : annRequest) : annRequest :=
  {| ann_field := ann_field r; ann_limit := ann_limit r; ann_vectors := ann_vectors r;
     ann_searchParam := ann_searchParam r;
     ann_filter := ann_filter r; ann_groupByField := ann_groupByField r;
     ann_groupSize := n; ann_strictGroupSize := ann_strictGroupSize r |}.

Definition ann_WithStrictGroupSize (b : bool) (r : annRequest) : annRequest :=
  {| ann_field := ann_field r; ann_limit := ann_limit r; ann_vectors := ann_vectors r;
     ann_searchParam := ann_searchParam r;
     ann_filter := ann_filter r; ann_groupByField := ann_groupByField r;
     ann_groupSize := ann_groupSize r; ann_strictGroupSize := b |}.

Record hybridSearchOption : Type := {
  hs_collection : string;
  hs_limit : Z;
  hs_reqs : list annRequest;
  hs_reranker : option Reranker;
  hs_outputFields : list string;
  hs_partitions : list string
}.

Definition NewHybridSearchOption (collectionName : string) (limit : Z)
    (annRequests : list annRequest) : hybridSearchOption :=
  {| hs_collection := collectionName; hs_limit := limit; hs_reqs := annRequests;
     hs_reranker := None; hs_outputFields := []; hs_partitions := [] |}.

Definition hs_WithReranker (rr : option Reranker) (o : hybridSearchOption)
  : hybridSearchOption :=
  {| hs_collection := hs_collection o; hs_limit := hs_limit o; hs_reqs := hs_reqs o;
     hs_reranker := rr; hs_outputFields := hs_outputFields o;
     hs_partitions := hs_partitions o |}.

Definition hs_WithOutputFields (fs : list string) (o : hybridSearchOption)
  : hybridSearchOption :=
  {| hs_collection := hs_collection o; hs_limit := hs_limit o; hs_reqs := hs_reqs o;
     hs_reranker := hs_reranker o; hs_outputFields := fs;
     hs_partitions := hs_partitions o |}.

Definition hs_WithPartitions (ps : list string) (o : hybridSearchOption)
  : hybridSearchOption :=
  {| hs_collection := hs_collection o; hs_limit := hs_limit o; hs_reqs := hs_reqs o;
     hs_reranker := hs_reranker o; hs_outputFields := hs_outputFields o;
     hs_partitions := ps |}.

Record queryOption : Type := {
  q_collection : string;
  q_expr : string;
  q_outputFields : list string;
  q_limit : Z;
  q_partitions : list string;
  q_consistencyLevel : option Z
}.

Definition NewQueryOption (collectionName : string) : queryOption :=
  {| q_collection := collectionName; q_expr := ""; q_outputFields := [];
     q_limit := 0; q_partitions := []; q_consistencyLevel := None |}.

Definition q_WithFilter (expr : string) (o : queryOption) : queryOption :=
  {| q_collection := q_collection o; q_expr := expr;
     q_outputFields := q_outputFields o; q_limit := q_limit o;
     q_partitions := q_partitions o; q_consistencyLevel := q_consistencyLevel o |}.

Definition q_WithOutputFields (fs : list string) (o : queryOption) : queryOption :=
  {| q_collection := q_collection o; q_expr := q_expr o;
     q_outputFields := fs; q_limit := q_limit o;
     q_partitions := q_partitions o; q_consistencyLevel := q_consistencyLevel o |}.

Definition q_WithLimit (n : Z) (o : queryOption) : queryOption :=
  {| q_collection := q_collection o; q_expr := q_expr o;
     q_outputFields := q_outputFields o; q_limit := n;
     q_partitions := q_partitions o; q_consistencyLevel := q_consistencyLevel o |}.

Definition q_WithPartitions (ps : list string) (o : queryOption) : queryOption :=
  {| q_collection := q_collection o; q_expr := q_expr o;
     q_outputFields := q_outputFields o; q_limit := q_limit o;
     q_partitions := ps; q_consistencyLevel := q_consistencyLevel o |}.

Definition q_WithConsistencyLevel (cl : Z) (o : queryOption) : queryOption :=
  {| q_collection := q_collection o; q_expr := q_expr o;
     q_outputFields := q_outputFields o; q_limit := q_limit o;
     q_partitions := q_partitions o; q_consistencyLevel := Some cl |}.

(** The one-shot search request and the iterator request are built by
    modes the retriever only knows through their interface; it hands
    them to the client as they are. *)
Record searchOption : Type := {
  so_collection : string;
  so_limit : Z;
  so_vectors : list Vector;
  so_annsField : string;
  so_outputFields : list string;
  so_partitions : list string;
  so_filter : string;
  so_grouping : option GroupingConfig
}.

(** The interface value, which may be [nil]. *)
Definition SearchOption : Type := option searchOption.

Record searchIteratorOption : Type := {
  si_collection : string;
  si_vector : Vector;
  si_batchSize : Z;
  si_annsField : string;
  si_filter : string;
  si_outputFields : list string;
  si_partitions : list string;
  si_searchParam : gmap string string;
  si_grouping : option GroupingConfig
}.

(** A search iterator is its sequence of answers: [it k] is what the
    call number [k] of [Next] returns. *)
Definition SearchIterator : Type := nat -> result ResultSet.

End milvusclient.

(** The engine client, as far as the retriever calls it. *)
Module Client.
Record t : Type := {
  Query : milvusclient.queryOption -> result ResultSet;
  Search : milvusclient.SearchOption -> result (list ResultSet);
  HybridSearch : milvusclient.hybridSearchOption -> result (list ResultSet);
  SearchIterator : milvusclient.searchIteratorOption -> result milvusclient.SearchIterator
}.
End Client.

(** ** Configuration ([types.go], [retriever.go]) *)

Definition MetricType : Type := string.
Definition L2 : MetricType := "L2".
Definition IP : MetricType := "IP".
Definition COSINE : MetricType := "COSINE".

Definition VectorType : Type := string.
Definition DenseVector : VectorType := "dense".
Definition SparseVector : VectorType := "sparse".

Definition ConsistencyLevel : Type := Z.

(** [RetrieverConfig], after [validate]: the document converter is set.
    The field [SearchMode] is kept beside the configuration, in
    [Retriever], since every mode takes the configuration as an argument
    and none of them reads that field. *)
Module RetrieverConfig.
Record t : Type := {
  Collection : string;
  Partitions : list string;
  VectorField : string;
  OutputFields : list string;
  TopK : Z;
  ScoreThreshold : option float64;
  ConsistencyLevel : ConsistencyLevel;
  DocumentConverter : ResultSet -> result (list Document);
  Embedding : option Embedder;
  SparseEmbedding : option SparseEmbedder
}.
End RetrieverConfig.

(** ** Search modes ([search_mode.go])

    [SearchMode] is the base interface; a mode may also implement
    [QuerySearchMode], [HybridSearchMode] or [IteratorSearchMode], which
    the dispatcher finds by type assertion. *)
Module SearchMode.
Record t : Type := {
  BuildSearchOption :
    RetrieverConfig.t -> list float32 -> list Option -> result milvusclient.SearchOption;
  BuildQueryOption :
    option (RetrieverConfig.t -> string -> list Option -> result milvusclient.queryOption);
  BuildHybridSearchOption :
    option (RetrieverConfig.t -> list float32 -> gmap Z float64 -> list Option
            -> result milvusclient.hybridSearchOption);
  BuildSearchIteratorOption :
    option (RetrieverConfig.t -> list float32 -> list Option
            -> result milvusclient.searchIteratorOption)
}.
End SearchMode.

(** *** Scalar ([search_mode/scalar.go]) *)

Module Scalar.

Definition BuildSearchOption (conf : RetrieverConfig.t) (queryVector : list float32)
    (opts : list Option) : result milvusclient.SearchOption :=
  Ok None.

Definition BuildQueryOption (conf : RetrieverConfig.t) (query : string)
    (opts : list Option) : result milvusclient.queryOption :=
  let io := retriever.GetImplSpecificOptions emptyImplOptions opts in
  let co := retriever.GetCommonOptions
              {| retriever.Index := None; retriever.SubIndex := None;
                 retriever.TopK := Some (RetrieverConfig.TopK conf);
                 retriever.ScoreThreshold := None;
                 retriever.Embedding := None |} opts in
  let finalTopK := RetrieverConfig.TopK conf in
  let finalTopK :=
    match retriever.TopK co with
    | Some k => k
    | None => finalTopK
    end in
  let expr := query in
  let expr :=
    if negb (String.eqb (Filter io) "") then
      if negb (String.eqb expr "") then
        "(" +:+ expr +:+ ") and (" +:+ Filter io +:+ ")"
      else Filter io
    else expr in
  let opt :=
    milvusclient.q_WithLimit finalTopK
      (milvusclient.q_WithOutputFields (RetrieverConfig.OutputFields conf)
         (milvusclient.q_WithFilter expr
            (milvusclient.NewQueryOption (RetrieverConfig.Collection conf)))) in
  let opt :=
    if (0 <? Z.of_nat (length (RetrieverConfig.Partitions conf)))
    then milvusclient.q_WithPartitions (RetrieverConfig.Partitions conf) opt
    else opt in
  let opt :=
    if (0 <? RetrieverConfig.ConsistencyLevel conf)
    then milvusclient.q_WithConsistencyLevel (RetrieverConfig.ConsistencyLevel conf) opt
    else opt in
  Ok opt.

Definition mode : SearchMode.t :=
  {| SearchMode.BuildSearchOption := BuildSearchOption;
     SearchMode.BuildQueryOption := Some BuildQueryOption;
     SearchMode.BuildHybridSearchOption := None;
     SearchMode.BuildSearchIteratorOption := None |}.

End Scalar.

(** *** Hybrid ([search_mode/hybrid.go]) *)

Module SubRequest.
Record t : Type := {
  VectorField : string;
  MetricType : MetricType;
  TopK : Z;
  SearchParams : gmap string string;
  VectorType : VectorType
}.
End SubRequest.

Module Hybrid.

Record t : Type := {
  SubRequests : list SubRequest.t;
  Reranker : option milvusclient.Reranker;
  TopK : Z
}.

Definition NewHybrid (reranker : option milvusclient.Reranker) (subRequests : list SubRequest.t) : t :=
  {| SubRequests := subRequests; Reranker := reranker; TopK := 0 |}.

Definition BuildSearchOption (h : t) (conf : RetrieverConfig.t)
    (queryVector : list float32) (opts : list Option)
  : result milvusclient.SearchOption :=
  Err "Hybrid search mode requires BuildHybridSearchOption".

(** The overall top-K of the request: the local [finalTopK]. *)
Definition finalTopK (h : t) (conf : RetrieverConfig.t) (opts : list Option) : Z :=
  let co := retriever.GetCommonOptions
              {| retriever.Index := None; retriever.SubIndex := None;
                 retriever.TopK := Some (RetrieverConfig.TopK conf);
                 retriever.ScoreThreshold := None;
                 retriever.Embedding := None |} opts in
  let finalTopK := RetrieverConfig.TopK conf in
  let finalTopK := if 0 <? TopK h then TopK h else finalTopK in
  let finalTopK :=
    match retriever.TopK co with
    | Some k => k
    | None => finalTopK
    end in
  finalTopK.

(** The slices [indices] and [values] filled from the sparse query
    vector, in the order the map is ranged over. *)
Definition sparseIndices (querySparseVector : gmap Z float64) : list Z :=
  map (fun kv => uint32_of_int (fst kv)) (map_to_list querySparseVector).

Definition sparseValues (querySparseVector : gmap Z float64) : list float32 :=
  map (fun kv => float32_of_float64 (snd kv)) (map_to_list querySparseVector).

Section Build.
Context `{Externals}.

(** The body of the loop over the sub-requests: [Ok None] is [continue],
    [Err] the early return, [Ok (Some annReq)] the request appended. *)
Definition buildAnnRequest (conf : RetrieverConfig.t) (io : ImplOptions)
    (queryVector : list float32) (querySparseVector : gmap Z float64)
    (req : SubRequest.t) : result (option milvusclient.annRequest) :=
  let field := SubRequest.VectorField req in
  let field := if String.eqb field "" then RetrieverConfig.VectorField conf else field in
  let limit := SubRequest.TopK req in
  let limit := if limit <=? 0 then 10 else limit in
  do annReq <-
    (if String.eqb (SubRequest.VectorType req) SparseVector then
       if Nat.eqb (size querySparseVector) 0 then Ok None
       else
         let indices := sparseIndices querySparseVector in
         let values := sparseValues querySparseVector in
         match wrapErr "failed to create sparse embedding"
                 (NewSliceSparseEmbedding indices values) with
         | Err msg => Err msg
         | Ok sparseEmb =>
             Ok (Some (milvusclient.NewAnnRequest field limit [SparseVectorOf sparseEmb]))
         end
     else
       if Nat.eqb (length queryVector) 0 then Ok None
       else Ok (Some (milvusclient.NewAnnRequest field limit [FloatVector queryVector]))) ;
  match annReq with
  | None => Ok None
  | Some annReq =>
      let annReq :=
        map_fold (fun k v r => milvusclient.ann_WithSearchParam k v r)
          annReq (SubRequest.SearchParams req) in
      let annReq :=
        if negb (String.eqb (SubRequest.MetricType req) "")
        then milvusclient.ann_WithSearchParam "metric_type" (SubRequest.MetricType req) annReq
        else annReq in
      let annReq :=
        if negb (String.eqb (Filter io) "")
        then milvusclient.ann_WithFilter (Filter io) annReq
        else annReq in
      let annReq :=
        match Grouping io with
        | Some g =>
            let annReq :=
              milvusclient.ann_WithGroupSize (GroupSize g)
                (milvusclient.ann_WithGroupByField (GroupByField g) annReq) in
            if StrictGroupSize g
            then milvusclient.ann_WithStrictGroupSize true annReq
            else annReq
        | None => annReq
        end in
      Ok (Some annReq)
  end.

(** The loop over [h.SubRequests], [annRequests] being the slice built
    so far. *)
Fixpoint annLoop (conf : RetrieverConfig.t) (io : ImplOptions)
    (queryVector : list float32) (querySparseVector : gmap Z float64)
    (reqs : list SubRequest.t) (annRequests : list milvusclient.annRequest)
  : result (list milvusclient.annRequest) :=
  match reqs with
  | [] => Ok annRequests
  | req :: rest =>
      match buildAnnRequest conf io queryVector querySparseVector req with
      | Err msg => Err msg
      | Ok None => annLoop conf io queryVector querySparseVector rest annRequests
      | Ok (Some annReq) =>
          annLoop conf io queryVector querySparseVector rest (annRequests ++ [annReq])
      end
  end.

Definition BuildHybridSearchOption (h : t) (conf : RetrieverConfig.t)
    (queryVector : list float32) (querySparseVector : gmap Z float64)
    (opts : list Option) : result milvusclient.hybridSearchOption :=
  let io := retriever.GetImplSpecificOptions emptyImplOptions opts in
  let finalTopK := finalTopK h conf opts in
  do annRequests <- annLoop conf io queryVector querySparseVector (SubRequests h) [] ;
  let hybridOpt :=
    milvusclient.hs_WithOutputFields (RetrieverConfig.OutputFields conf)
      (milvusclient.hs_WithReranker (Reranker h)
         (milvusclient.NewHybridSearchOption (RetrieverConfig.Collection conf) finalTopK annRequests)) in
  let hybridOpt :=
    if 0 <? Z.of_nat (length (RetrieverConfig.Partitions conf))
    then milvusclient.hs_WithPartitions (RetrieverConfig.Partitions conf) hybridOpt
    else hybridOpt in
  Ok hybridOpt.

Definition mode (h : t) : SearchMode.t :=
  {| SearchMode.BuildSearchOption := BuildSearchOption h;
     SearchMode.BuildQueryOption := None;
     SearchMode.BuildHybridSearchOption := Some (BuildHybridSearchOption h);
     SearchMode.BuildSearchIteratorOption := None |}.

End Build.
End Hybrid.

(** ** The retriever ([retriever.go]) *)

Record Retriever : Type := {
  client : Client.t;
  config : RetrieverConfig.t;
  searchMode : SearchMode.t
}.

(** The loop [for i, v := range vectors[0] { queryVector[i] = float32(v) }],
    from index [i] on. *)
Fixpoint narrowFrom (i : nat) (vs : list float64) (queryVector : list float32)
  : list float32 :=
  match vs with
  | [] => queryVector
  | v :: rest => narrowFrom (S i) rest (<[i := float32_of_float64 v]> queryVector)
  end.

Definition embedQuery (emb : option Embedder) (query : string)
  : result (list float32) :=
  match emb with
  | None => Err "[Retriever] embedding not provided"
  | Some e =>
      do vectors <- wrapErr "[Retriever] failed to embed query" (e [query]) ;
      if negb (Nat.eqb (length vectors) 1) then
        Err ("[Retriever] invalid embedding result: expected 1, got "
             +:+ pretty (length vectors))
      else
        let v0 := nth 0 vectors [] in
        let queryVector := replicate (length v0) (S754_zero false) in
        Ok (narrowFrom 0 v0 queryVector)
  end.

Definition embedSparseQuery (emb : option SparseEmbedder) (query : string)
  : result (gmap Z float64) :=
  match emb with
  | None => Err "[Retriever] sparse embedding not provided"
  | Some e =>
      do vectors <- wrapErr "[Retriever] failed to embed sparse query" (e [query]) ;
      if negb (Nat.eqb (length vectors) 1) then
        Err ("[Retriever] invalid sparse embedding result: expected 1, got "
             +:+ pretty (length vectors))
      else Ok (nth 0 vectors ∅)
  end.

(** The loop of [retrieveIterator]: [calls] is the number of calls of
    [Next] made so far and [allDocs] the documents accumulated.  The
    loop has no bound of its own; [fuel] bounds the number of turns and
    [None] is returned when it runs out. *)
Fixpoint iteratorLoop (fuel : nat)
    (converter : ResultSet -> result (list Document))
    (iterator : milvusclient.SearchIterator) (calls : nat)
    (allDocs : list Document) : option (result (list Document)) :=
  match fuel with
  | O => None
  | S fuel' =>
      match iterator calls with
      | Err msg =>
          if String.eqb msg "EOF" then Some (Ok allDocs)
          else Some (Err ("[Retriever] iterator next failed: " +:+ msg))
      | Ok res =>
          if ResultCount res =? 0 then Some (Ok allDocs)
          else
            match converter res with
            | Err msg =>
                Some (Err ("[Retriever] failed to convert batch results: " +:+ msg))
            | Ok batchDocs =>
                iteratorLoop fuel' converter iterator (S calls) (allDocs ++ batchDocs)
            end
      end
  end.

Section Retrieve.
Context `{Externals}.

Definition retrieveQuery (r : Retriever)
    (mode : RetrieverConfig.t -> string -> list Option -> result milvusclient.queryOption)
    (query : string) (opts : list Option) : result (list Document) :=
  do queryOpt <- wrapErr "[Retriever] failed to build query option"
                   (mode (config r) query opts) ;
  do resultSet <- wrapErr "[Retriever] failed to execute query"
                    (Client.Query (client r) queryOpt) ;
  queryResultSetToDocuments resultSet.

Definition retrieveHybrid (r : Retriever)
    (mode : RetrieverConfig.t -> list float32 -> gmap Z float64 -> list Option
            -> result milvusclient.hybridSearchOption)
    (co : retriever.Options) (query : string) (opts : list Option)
  : result (list Document) :=
  do queryVector <-
    (match RetrieverConfig.Embedding (config r) with
     | Some _ => embedQuery (retriever.Embedding co) query
     | None => Ok []
     end) ;
  do querySparseVector <-
    (match RetrieverConfig.SparseEmbedding (config r) with
     | Some _ => embedSparseQuery (RetrieverConfig.SparseEmbedding (config r)) query
     | None => Ok ∅
     end) ;
  do searchOpt <- wrapErr "[Retriever] failed to build hybrid search option"
                    (mode (config r) queryVector querySparseVector opts) ;
  do results <- wrapErr "[Retriever] hybrid search failed"
                  (Client.HybridSearch (client r) searchOpt) ;
  match results with
  | [] => Ok []
  | first :: _ => RetrieverConfig.DocumentConverter (config r) first
  end.

Definition retrieveIterator (fuel : nat) (r : Retriever)
    (mode : RetrieverConfig.t -> list float32 -> list Option
            -> result milvusclient.searchIteratorOption)
    (co : retriever.Options) (query : string) (opts : list Option)
  : option (result (list Document)) :=
  match embedQuery (retriever.Embedding co) query with
  | Err msg => Some (Err msg)
  | Ok queryVector =>
      match wrapErr "[Retriever] failed to build search iterator option"
              (mode (config r) queryVector opts) with
      | Err msg => Some (Err msg)
      | Ok iterOpt =>
          match wrapErr "[Retriever] failed to create search iterator"
                  (Client.SearchIterator (client r) iterOpt) with
          | Err msg => Some (Err msg)
          | Ok iterator =>
              iteratorLoop fuel (RetrieverConfig.DocumentConverter (config r))
                iterator 0 []
          end
      end
  end.

Definition retrieveStandard (r : Retriever) (co : retriever.Options)
    (query : string) (opts : list Option) : result (list Document) :=
  do queryVector <- embedQuery (retriever.Embedding co) query ;
  do searchOpt <- wrapErr "[Retriever] failed to build search option"
                    (SearchMode.BuildSearchOption (searchMode r) (config r) queryVector opts) ;
  do results <- wrapErr "[Retriever] search failed"
                  (Client.Search (client r) searchOpt) ;
  match results with
  | [] => Ok []
  | first :: _ => RetrieverConfig.DocumentConverter (config r) first
  end.

(** The options in force for a call: the configuration's values, then
    the call options. *)
Definition commonOptions (r : Retriever) (opts : list Option) : retriever.Options :=
  retriever.GetCommonOptions
    {| retriever.Index := Some (RetrieverConfig.VectorField (config r));
       retriever.SubIndex := None;
       retriever.TopK := Some (RetrieverConfig.TopK (config r));
       retriever.ScoreThreshold := RetrieverConfig.ScoreThreshold (config r);
       retriever.Embedding := RetrieverConfig.Embedding (config r) |} opts.

(** The type switch of [Retrieve] on the search mode. *)
Definition dispatch (fuel : nat) (r : Retriever) (co : retriever.Options)
    (query : string) (opts : list Option) : option (result (list Document)) :=
  match SearchMode.BuildQueryOption (searchMode r) with
  | Some sm => Some (retrieveQuery r sm query opts)
  | None =>
      match SearchMode.BuildHybridSearchOption (searchMode r) with
      | Some sm => Some (retrieveHybrid r sm co query opts)
      | None =>
          match SearchMode.BuildSearchIteratorOption (searchMode r) with
          | Some sm => retrieveIterator fuel r sm co query opts
          | None => Some (retrieveStandard r co query opts)
          end
      end
  end.

Definition Retrieve (fuel : nat) (r : Retriever) (query : string)
    (opts : list Option) : option (result (list Document)) :=
  let co := commonOptions r opts in
  match dispatch fuel r co query opts with
  | None => None
  | Some (Err msg) => Some (Err msg)
  | Some (Ok docs) => Some (Ok (applyScoreThreshold docs (retriever.ScoreThreshold co)))
  end.

End Retrieve.

(** ** Fixtures

    The columns, result sets, iterators and providers the tests of the
    package build, used below to run the retriever on concrete inputs. *)

Module Fixtures.

Definition outOfRange : string := "index out of range".

Definition NewColumnVarChar (name : string) (vals : list string) : Column :=
  {| Name := name;
     Get := fun i =>
       match nth_error vals i with
       | Some s => (AString s, None)
       | None => (ANil, Some outOfRange)
       end;
     GetAsString := fun i =>
       match nth_error vals i with
       | Some s => Ok s
       | None => Err outOfRange
       end |}.

Definition NewColumnJSONBytes (name : string) (vals : list (list Byte.byte)) : Column :=
  {| Name := name;
     Get := fun i =>
       match nth_error vals i with
       | Some b => (ABytes b, None)
       | None => (ANil, Some outOfRange)
       end;
     GetAsString := fun i =>
       match nth_error vals i with
       | Some b => Ok (String.string_of_list_byte b)
       | None => Err outOfRange
       end |}.

(** [createMockResultSet] of the tests. *)
Definition createMockResultSet (ids contents : list string) (scores : list float32)
    (metadatas : list (list Byte.byte)) : ResultSet :=
  let count := if Nat.eqb (length contents) (length ids)
               then Z.of_nat (length ids) else 0 in
  {| ResultCount := count;
     Scores := scores;
     Fields := [ NewColumnVarChar "id" ids;
                 NewColumnVarChar "content" contents;
                 NewColumnJSONBytes "metadata" metadatas ] |}.

Definition createMockQueryResult (ids contents : list string)
    (metadatas : list (list Byte.byte)) : ResultSet :=
  createMockResultSet ids contents [] metadatas.

(** JSON texts: the empty object, and an object with the one key
    ["score"] bound to the number [0.9]. *)
Definition quote : string := String (Ascii.ascii_of_nat 34) EmptyString.
Definition emptyObject : list Byte.byte := String.list_byte_of_string "{}".
Definition scoreObject : list Byte.byte :=
  String.list_byte_of_string ("{" +:+ quote +:+ "score" +:+ quote +:+ ":0.9}").

(** The externals at the values the fixtures use: [%v] of a string is
    the string, of an integer its decimal form; the decoder is given on
    the two JSON texts above and rejects every other text; a sparse
    embedding takes as many positions as values. *)
Definition fixtureExternals : Externals :=
  {| Sprintf_v := fun v =>
       match v with
       | AString s => s
       | AInt64 z => pretty z
       | ABool true => "true"
       | ABool false => "false"
       | ANil => "<nil>"
       | _ => ""
       end;
     Unmarshal := fun b =>
       if String.eqb (String.string_of_list_byte b) (String.string_of_list_byte emptyObject)
       then Ok ∅
       else if String.eqb (String.string_of_list_byte b) (String.string_of_list_byte scoreObject)
       then Ok {[ "score" := AFloat64 0.9%float ]}
       else Err "invalid JSON";
     NewSliceSparseEmbedding := fun ps vs =>
       if Nat.eqb (length ps) (length vs)
       then Ok {| positions := ps; values := vs |}
       else Err "invalid sparse embedding input, positions shall have same number of values" |}.

(** [mockEmbedding] of the tests: [dims] times [0.1] for each text. *)
Definition mockEmbedding (dims : nat) : Embedder :=
  fun texts => Ok (map (fun _ => replicate dims 0.1%float) texts).

(** [mockSearchIterator] of the tests: the batches in turn, then empty
    result sets. *)
Definition mockSearchIterator (results : list ResultSet) : milvusclient.SearchIterator :=
  fun k =>
    match nth_error results k with
    | Some res => Ok res
    | None => Ok {| ResultCount := 0; Scores := []; Fields := [] |}
    end.

(** An iterator that ends with the error [EOF]. *)
Definition eofSearchIterator (results : list ResultSet) : milvusclient.SearchIterator :=
  fun k =>
    match nth_error results k with
    | Some res => Ok res
    | None => Err "EOF"
    end.

Definition notMocked {A} : result A := Err "not mocked".

(** A client whose [Query] returns [resultSet]. *)
Definition queryClient (resultSet : ResultSet) : Client.t :=
  {| Client.Query := fun _ => Ok resultSet;
     Client.Search := fun _ => notMocked;
     Client.HybridSearch := fun _ => notMocked;
     Client.SearchIterator := fun _ => notMocked |}.

(** A client whose [SearchIterator] returns [iterator]. *)
Definition iteratorClient (iterator : milvusclient.SearchIterator) : Client.t :=
  {| Client.Query := fun _ => notMocked;
     Client.Search := fun _ => notMocked;
     Client.HybridSearch := fun _ => notMocked;
     Client.SearchIterator := fun _ => Ok iterator |}.

(** The configuration of the tests of the search modes. *)
Definition testConfig (threshold : option float64) : RetrieverConfig.t :=
  {| RetrieverConfig.Collection := "test_collection";
     RetrieverConfig.Partitions := [];
     RetrieverConfig.VectorField := "vector";
     RetrieverConfig.OutputFields := ["id"; "content"];
     RetrieverConfig.TopK := 10;
     RetrieverConfig.ScoreThreshold := threshold;
     RetrieverConfig.ConsistencyLevel := 0;
     RetrieverConfig.DocumentConverter := @defaultDocumentConverter fixtureExternals;
     RetrieverConfig.Embedding := Some (mockEmbedding 3);
     RetrieverConfig.SparseEmbedding := None |}.

(** [mockIteratorSearchMode] of the tests. *)
Definition mockBuildSearchIteratorOption (conf : RetrieverConfig.t)
    (queryVector : list float32) (opts : list Option)
  : result milvusclient.searchIteratorOption :=
  Ok {| milvusclient.si_collection := RetrieverConfig.Collection conf;
        milvusclient.si_vector := FloatVector queryVector;
        milvusclient.si_batchSize := 3;
        milvusclient.si_annsField := "";
        milvusclient.si_filter := "";
        milvusclient.si_outputFields := [];
        milvusclient.si_partitions := [];
        milvusclient.si_searchParam := ∅;
        milvusclient.si_grouping := None |}.

Definition mockIteratorSearchMode : SearchMode.t :=
  {| SearchMode.BuildSearchOption := fun _ _ _ => Ok None;
     SearchMode.BuildQueryOption := None;
     SearchMode.BuildHybridSearchOption := None;
     SearchMode.BuildSearchIteratorOption := Some mockBuildSearchIteratorOption |}.

(** The two batches of [TestRetriever_RetrieveIterator] and the
    retriever that iterates over them. *)
Definition batch1 : ResultSet :=
  createMockResultSet ["1"] ["doc1"] [float32_of_float64 0.9%float] [].
Definition batch2 : ResultSet :=
  createMockResultSet ["2"] ["doc2"] [float32_of_float64 0.8%float] [].

Definition iteratorRetriever (iterator : milvusclient.SearchIterator) : Retriever :=
  {| client := iteratorClient iterator;
     config := testConfig None;
     searchMode := mockIteratorSearchMode |}.

(** The four scored documents of [TestRetriever_applyScoreThreshold]. *)
Definition scored (id : string) (score : float64) : Document :=
  {| ID := id; Content := ""; MetaData := {[ "score" := AFloat64 score ]} |}.

Definition fourDocs : list Document :=
  [ scored "doc1" 0.9%float; scored "doc2" 0.7%float;
    scored "doc3" 0.5%float; scored "doc4" 0.3%float ].

End Fixtures.

(** * Properties *)

(** ** Facts on lists, maps and floats *)

Lemma thresholdLoop_filter (t : float64) (docs filtered : list Document) :
  thresholdLoop t docs filtered = filtered ++ List.filter (passesThreshold t) docs.
Proof.
  revert filtered.
  induction docs as [|doc rest IH]; intros filtered; simpl.
  - by rewrite app_nil_r.
  - destruct (passesThreshold t doc); rewrite IH.
    + by rewrite <- app_assoc.
    + done.
Qed.

Lemma filter_again {A} (f : A -> bool) (l : list A) :
  List.filter f (List.filter f l) = List.filter f l.
Proof.
  induction l as [|x l IH]; simpl; [done|].
  destruct (f x) eqn:E; simpl; [rewrite E|]; by rewrite ?IH.
Qed.

Lemma filter_none {A} (f : A -> bool) (l : list A) :
  (forall x, In x l -> f x = false) -> List.filter f l = [].
Proof.
  induction l as [|x l IH]; simpl; intros Hall; [done|].
  rewrite (Hall x) by auto. apply IH. auto.
Qed.

Lemma compare_cont_swap (p q : positive) :
  Pos.compare_cont Eq q p = CompOpp (Pos.compare_cont Eq p q).
Proof. symmetry. apply (Pos.compare_cont_antisym p q Eq). Qed.

Lemma SFcompare_Lt_swap (x y : spec_float) :
  SFcompare x y = Some Lt -> SFcompare y x = Some Gt.
Proof.
  destruct x as [sx|sx| |sx mx ex], y as [sy|sy| |sy my ey]; simpl;
    try discriminate; try (destruct sx; discriminate || done);
    try (destruct sy; discriminate || done);
    try (destruct sx, sy; discriminate || done).
  destruct sx, sy; try discriminate; try done;
    rewrite (Z.compare_antisym ex ey);
    destruct (ex ?= ey); simpl; try discriminate; try done;
    rewrite (compare_cont_swap mx my);
    destruct (Pos.compare_cont Eq mx my); simpl; discriminate || done.
Qed.

(** A score strictly below the threshold is not at least the threshold. *)
Lemma below_not_above (t s : float64) :
  PrimFloat.ltb s t = true -> PrimFloat.leb t s = false.
Proof.
  rewrite ltb_spec, leb_spec. unfold SFltb, SFleb.
  destruct (SFcompare (Prim2SF s) (Prim2SF t)) as [[]|] eqn:E; try discriminate.
  intros _. by rewrite (SFcompare_Lt_swap _ _ E).
Qed.

(** ** Score-threshold filtering *)

(** C3. With a threshold [t], [applyScoreThreshold] returns exactly the
    sub-list, in the original order, of the documents whose ["score"]
    metadata entry is a [float64] at least [t]: a document without that
    entry, or with a score strictly below [t], is dropped.  Without a
    threshold the list is returned unchanged.  [Retrieve] applies the
    filter once, to the converted documents of whichever mode the type
    switch ran, and passes errors through.  On the four documents scored
    0.9, 0.7, 0.5 and 0.3 the threshold 0.6 keeps the first two, in
    order. *)
Theorem applyScoreThreshold_filters_once :
  (forall docs t,
     applyScoreThreshold docs (Some t) = List.filter (passesThreshold t) docs)
  /\ (forall t d,
        passesThreshold t d = true <->
        exists s, MetaData d !! "score" = Some (AFloat64 s)
                  /\ PrimFloat.leb t s = true)
  /\ (forall t d, MetaData d !! "score" = None -> passesThreshold t d = false)
  /\ (forall t d s,
        MetaData d !! "score" = Some (AFloat64 s) ->
        PrimFloat.ltb s t = true -> passesThreshold t d = false)
  /\ (forall docs, applyScoreThreshold docs None = docs)
  /\ (forall (E : Externals) fuel r query opts,
        Retrieve fuel r query opts =
        match dispatch fuel r (commonOptions r opts) query opts with
        | Some (Ok docs) =>
            Some (Ok (applyScoreThreshold docs
                        (retriever.ScoreThreshold (commonOptions r opts))))
        | Some (Err msg) => Some (Err msg)
        | None => None
        end)
  /\ applyScoreThreshold Fixtures.fourDocs (Some 0.6%float)
     = [Fixtures.scored "doc1" 0.9%float; Fixtures.scored "doc2" 0.7%float].
Proof.
  split; [|split; [|split; [|split; [|split; [|split]]]]].
  - intros docs t. unfold applyScoreThreshold.
    by rewrite thresholdLoop_filter.
  - intros t d. unfold passesThreshold. split.
    + destruct (MetaData d !! "score") as [[]|]; try discriminate.
      intros Hle. eauto.
    + intros (s & Hs & Hle). by rewrite Hs.
  - intros t d Hnone. unfold passesThreshold. by rewrite Hnone.
  - intros t d s Hs Hlt. unfold passesThreshold. rewrite Hs.
    by apply below_not_above.
  - done.
  - intros E fuel r query opts. unfold Retrieve.
    by destruct (dispatch fuel r (commonOptions r opts) query opts) as [[]|].
  - vm_compute. reflexivity.
Qed.

(** C9. Filtering by a score threshold is idempotent: filtering an
    already filtered list with the same threshold returns it unchanged. *)
Theorem applyScoreThreshold_idempotent :
  forall (docs : list Document) (threshold : option float64),
    applyScoreThreshold (applyScoreThreshold docs threshold) threshold
    = applyScoreThreshold docs threshold.
Proof.
  intros docs [t|]; simpl; [|done].
  rewrite !thresholdLoop_filter. simpl.
  apply filter_again.
Qed.

(** ** Scalar mode: the filter expression *)

Lemma q_expr_of_build (conf : RetrieverConfig.t) (expr : string) (k : Z) :
  milvusclient.q_expr
    (let opt :=
       milvusclient.q_WithLimit k
         (milvusclient.q_WithOutputFields (RetrieverConfig.OutputFields conf)
            (milvusclient.q_WithFilter expr
               (milvusclient.NewQueryOption (RetrieverConfig.Collection conf)))) in
     let opt :=
       if 0 <? Z.of_nat (length (RetrieverConfig.Partitions conf))
       then milvusclient.q_WithPartitions (RetrieverConfig.Partitions conf) opt
       else opt in
     if 0 <? RetrieverConfig.ConsistencyLevel conf
     then milvusclient.q_WithConsistencyLevel (RetrieverConfig.ConsistencyLevel conf) opt
     else opt) = expr.
Proof.
  simpl.
  destruct (0 <? Z.of_nat (length (RetrieverConfig.Partitions conf)));
    destruct (0 <? RetrieverConfig.ConsistencyLevel conf); reflexivity.
Qed.

Lemma GetImplSpecificOptions_app {T} (base : T) (opts1 opts2 : list (retriever.Option T)) :
  retriever.GetImplSpecificOptions base (opts1 ++ opts2)
  = retriever.GetImplSpecificOptions (retriever.GetImplSpecificOptions base opts1) opts2.
Proof. unfold retriever.GetImplSpecificOptions. apply fold_left_app. Qed.

(** The filter of the call options is that of the last [WithFilter]. *)
Lemma WithFilter_last (opts : list Option) (f : string) :
  Filter (retriever.GetImplSpecificOptions emptyImplOptions (opts ++ [WithFilter f])) = f.
Proof.
  by rewrite (GetImplSpecificOptions_app emptyImplOptions opts [WithFilter f]).
Qed.

(** C4. The filter of the query request that Scalar mode builds from a
    query string [q] and the call-option filter [f]: [f] when [q] is
    empty, [q] when [f] is empty, ["(q) and (f)"] when neither is, and
    the empty string when both are. *)
Theorem scalar_filter_expression :
  forall (conf : RetrieverConfig.t) (q : string) (opts : list Option),
    let f := Filter (retriever.GetImplSpecificOptions emptyImplOptions opts) in
    exists opt,
      Scalar.BuildQueryOption conf q opts = Ok opt
      /\ (q = "" -> milvusclient.q_expr opt = f)
      /\ (f = "" -> milvusclient.q_expr opt = q)
      /\ (q <> "" -> f <> "" ->
          milvusclient.q_expr opt = "(" +:+ q +:+ ") and (" +:+ f +:+ ")")
      /\ (q = "" -> f = "" -> milvusclient.q_expr opt = "").
Proof.
  intros conf q opts f. eexists. split; [reflexivity|].
  rewrite q_expr_of_build. fold f.
  destruct (String.eqb_spec f "") as [Hf|Hf];
    destruct (String.eqb_spec q "") as [Hq|Hq]; simpl;
    repeat split; intros; subst; congruence.
Qed.

(** The query [id > 10] with the call filter [category == 'A'], as in
    the tests of the mode. *)
Lemma scalar_filter_expression_witness :
  exists opt,
    Scalar.BuildQueryOption (Fixtures.testConfig None) "id > 10"
      [WithFilter "category == 'A'"] = Ok opt
    /\ milvusclient.q_expr opt = "(id > 10) and (category == 'A')".
Proof.
  destruct (scalar_filter_expression (Fixtures.testConfig None) "id > 10"
              [WithFilter "category == 'A'"]) as (opt & Hbuild & _ & _ & Hboth & _).
  exists opt. split; [exact Hbuild|].
  apply Hboth; discriminate.
Defined.

(** An empty query leaves the call filter alone, and an empty call
    filter leaves the query alone. *)
Example scalar_filter_one_side :
  (exists opt,
     Scalar.BuildQueryOption (Fixtures.testConfig None) ""
       [WithFilter "status == 'active'"] = Ok opt
     /\ milvusclient.q_expr opt = "status == 'active'")
  /\ (exists opt,
        Scalar.BuildQueryOption (Fixtures.testConfig None) "id > 10" [] = Ok opt
        /\ milvusclient.q_expr opt = "id > 10").
Proof. split; eexists; split; reflexivity. Qed.

(** ** Hybrid mode: the generic builder *)

(** C8. Whatever the configuration, the query vector and the call
    options, the single-shot builder of Hybrid mode returns an error and
    no request, which names the builder to use instead; so does the mode
    seen through the [SearchMode] interface. *)
Theorem hybrid_generic_builder_errors :
  forall (E : Externals) (h : Hybrid.t) (conf : RetrieverConfig.t)
         (queryVector : list float32) (opts : list Option),
    Hybrid.BuildSearchOption h conf queryVector opts
    = Err "Hybrid search mode requires BuildHybridSearchOption"
    /\ SearchMode.BuildSearchOption (Hybrid.mode h) conf queryVector opts
       = Err "Hybrid search mode requires BuildHybridSearchOption"
    /\ isErr (SearchMode.BuildSearchOption (Hybrid.mode h) conf queryVector opts) = true.
Proof. intros. repeat split. Qed.

(** ** Hybrid mode: the overall top-K *)

(** The top-K a call option supplies: that of the last [WithTopK]. *)
Definition callTopK (opts : list Option) : option Z :=
  fold_left (fun acc opt =>
               match opt with
               | retriever.WithTopK k => Some k
               | _ => acc
               end) opts None.

Lemma TopK_GetCommonOptions (opts : list Option) (base : retriever.Options) :
  retriever.TopK (retriever.GetCommonOptions base opts)
  = fold_left (fun acc opt =>
                 match opt with
                 | retriever.WithTopK k => Some k
                 | _ => acc
                 end) opts (retriever.TopK base).
Proof.
  unfold retriever.GetCommonOptions. revert base.
  induction opts as [|opt opts IH]; intros base; simpl; [done|].
  rewrite IH. by destruct opt.
Qed.

Lemma fold_TopK_default (opts : list Option) (d : Z) :
  fold_left (fun acc opt =>
               match opt with
               | retriever.WithTopK k => Some k
               | _ => acc
               end) opts (Some d)
  = Some (default d (callTopK opts)).
Proof.
  unfold callTopK.
  induction opts as [|opt opts IH] using rev_ind; [done|].
  rewrite !fold_left_app. simpl. by destruct opt.
Qed.

Lemma hybrid_finalTopK_eq (h : Hybrid.t) (conf : RetrieverConfig.t) (opts : list Option) :
  Hybrid.finalTopK h conf opts = default (RetrieverConfig.TopK conf) (callTopK opts).
Proof.
  unfold Hybrid.finalTopK. rewrite TopK_GetCommonOptions. simpl.
  by rewrite fold_TopK_default.
Qed.

(** The hybrid mode of the test "custom TopK override": one dense
    sub-request, and a mode-level top-K of 50. *)
Definition hybridTop50 : Hybrid.t :=
  {| Hybrid.SubRequests :=
       [ {| SubRequest.VectorField := "vector";
            SubRequest.MetricType := L2;
            SubRequest.TopK := 10;
            SubRequest.SearchParams := ∅;
            SubRequest.VectorType := "" |} ];
     Hybrid.Reranker := Some milvusclient.RRFReranker;
     Hybrid.TopK := 50 |}.

(** C1. The top-K of the hybrid request is the call option's when one
    is supplied and the configuration's otherwise: the common options
    start from the configuration's top-K, so the mode-level top-K is
    always overwritten.  With a configuration top-K of 10, a mode-level
    top-K of 50 and no call option the request asks for 10 results. *)
Theorem hybrid_topk_ignores_mode_override :
  (forall (h : Hybrid.t) (conf : RetrieverConfig.t) (opts : list Option),
     Hybrid.finalTopK h conf opts
     = default (RetrieverConfig.TopK conf) (callTopK opts))
  /\ (forall (E : Externals) h conf queryVector querySparseVector opts opt,
        Hybrid.BuildHybridSearchOption h conf queryVector querySparseVector opts = Ok opt ->
        milvusclient.hs_limit opt = Hybrid.finalTopK h conf opts)
  /\ Hybrid.finalTopK hybridTop50 (Fixtures.testConfig None) [] = 10
  /\ (exists opt,
        @Hybrid.BuildHybridSearchOption Fixtures.fixtureExternals hybridTop50
          (Fixtures.testConfig None) [float32_of_float64 0.1%float] ∅ [] = Ok opt
        /\ milvusclient.hs_limit opt = 10).
Proof.
  split; [exact hybrid_finalTopK_eq|]. split; [|split].
  - intros E h conf qv qsv opts opt. unfold Hybrid.BuildHybridSearchOption.
    destruct (Hybrid.annLoop _ _ _ _ _ _) as [reqs|msg]; simpl; [|discriminate].
    intros [= <-].
    by destruct (0 <? Z.of_nat (length (RetrieverConfig.Partitions conf))).
  - reflexivity.
  - eexists. split; [vm_compute; reflexivity|reflexivity].
Qed.

(** ** Dense embedding of the query *)

Lemma narrowFrom_app (pre : list float32) (vs : list float64) (z : float32) :
  narrowFrom (length pre) vs (pre ++ replicate (length vs) z)
  = pre ++ map float32_of_float64 vs.
Proof.
  revert pre. induction vs as [|v rest IH]; intros pre; simpl.
  - done.
  - rewrite insert_app_r_alt by lia. rewrite Nat.sub_diag. simpl.
    specialize (IH (pre ++ [float32_of_float64 v])).
    rewrite length_app in IH. simpl in IH. rewrite Nat.add_1_r in IH.
    rewrite <- !app_assoc in IH. simpl in IH. exact IH.
Qed.

Lemma narrowFrom_map (vs : list float64) (z : float32) :
  narrowFrom 0 vs (replicate (length vs) z) = map float32_of_float64 vs.
Proof. exact (narrowFrom_app [] vs z). Qed.

(** C6. [embedQuery] fails exactly when no embedder is provided, or the
    provider fails, or the provider does not return exactly one vector
    for the one text; otherwise it returns the provider's vector with
    every element narrowed, on its own, from double to single
    precision. *)
Theorem embedQuery_contract :
  forall (emb : option Embedder) (query : string),
    (isErr (embedQuery emb query) = true <->
       emb = None
       \/ exists e, emb = Some e
                    /\ (isErr (e [query]) = true
                        \/ exists vectors, e [query] = Ok vectors
                                           /\ length vectors <> 1%nat))
    /\ (forall e v, emb = Some e -> e [query] = Ok [v] ->
          embedQuery emb query = Ok (map float32_of_float64 v)).
Proof.
  intros emb query. split; [split|].
  - destruct emb as [e|]; [|by left]. intros Herr. right. exists e.
    split; [done|]. simpl in Herr.
    destruct (e [query]) as [vectors|msg]; [|by left]. right.
    exists vectors. split; [done|]. simpl in Herr.
    destruct (Nat.eqb_spec (length vectors) 1) as [Heq|Hne]; [|done].
    discriminate.
  - intros [->|(e & -> & [Herr|(vectors & Hv & Hlen)])]; simpl.
    + done.
    + by destruct (e [query]).
    + rewrite Hv. simpl.
      by destruct (Nat.eqb_spec (length vectors) 1).
  - intros e v -> Hv. simpl. rewrite Hv. simpl.
    by rewrite narrowFrom_map.
Qed.

(** The embedder of the tests, of dimension 3: each 0.1 is narrowed to
    the single-precision number nearest to it. *)
Lemma embedQuery_contract_witness :
  embedQuery (Some (Fixtures.mockEmbedding 3)) "test query"
  = Ok (map float32_of_float64 [0.1%float; 0.1%float; 0.1%float])
  /\ float32_of_float64 0.1%float = S754_finite false 13421773 (-27).
Proof.
  split; [|reflexivity].
  apply (proj2 (embedQuery_contract (Some (Fixtures.mockEmbedding 3)) "test query")
           (Fixtures.mockEmbedding 3) [0.1%float; 0.1%float; 0.1%float]);
    reflexivity.
Defined.

(** Without an embedder, with a failing provider, and with a provider
    that returns two vectors, the embedding fails. *)
Example embedQuery_failures :
  embedQuery None "q" = Err "[Retriever] embedding not provided"
  /\ embedQuery (Some (fun _ => Err "embedding failed")) "q"
     = Err "[Retriever] failed to embed query: embedding failed"
  /\ embedQuery (Some (fun _ => Ok [[0.1%float]; [0.2%float]])) "q"
     = Err "[Retriever] invalid embedding result: expected 1, got 2".
Proof. repeat split; vm_compute; reflexivity. Qed.

(** ** Hybrid mode: sub-requests without their vector *)

(** The vector kind a sub-request needs was not supplied: the sparse
    vector is empty for a sparse sub-request, the dense vector is empty
    for any other. *)
Definition vectorNotSupplied (queryVector : list float32)
    (querySparseVector : gmap Z float64) (req : SubRequest.t) : bool :=
  if String.eqb (SubRequest.VectorType req) SparseVector
  then Nat.eqb (size querySparseVector) 0
  else Nat.eqb (length queryVector) 0.

Section HybridSkips.
Context `{Externals}.
Variables (conf : RetrieverConfig.t) (io : ImplOptions).
Variables (queryVector : list float32) (querySparseVector : gmap Z float64).

Lemma buildAnnRequest_skips (req : SubRequest.t) :
  vectorNotSupplied queryVector querySparseVector req = true ->
  Hybrid.buildAnnRequest conf io queryVector querySparseVector req = Ok None.
Proof.
  unfold vectorNotSupplied, Hybrid.buildAnnRequest.
  destruct (String.eqb (SubRequest.VectorType req) SparseVector);
    intros ->; reflexivity.
Qed.

Lemma buildAnnRequest_builds (req : SubRequest.t) :
  (size querySparseVector = 0%nat
   \/ exists emb, NewSliceSparseEmbedding (Hybrid.sparseIndices querySparseVector)
                    (Hybrid.sparseValues querySparseVector) = Ok emb) ->
  vectorNotSupplied queryVector querySparseVector req = false ->
  exists annReq,
    Hybrid.buildAnnRequest conf io queryVector querySparseVector req = Ok (Some annReq).
Proof.
  unfold vectorNotSupplied, Hybrid.buildAnnRequest. intros Hsparse.
  destruct (String.eqb (SubRequest.VectorType req) SparseVector); intros Hsup;
    rewrite Hsup.
  - destruct Hsparse as [Hzero|(emb & Hemb)].
    + rewrite Hzero in Hsup. discriminate.
    + rewrite Hemb. simpl. eexists. reflexivity.
  - simpl. eexists. reflexivity.
Qed.

Lemma annLoop_builds (reqs : list SubRequest.t)
    (annRequests : list milvusclient.annRequest) :
  (size querySparseVector = 0%nat
   \/ exists emb, NewSliceSparseEmbedding (Hybrid.sparseIndices querySparseVector)
                    (Hybrid.sparseValues querySparseVector) = Ok emb) ->
  exists built,
    Hybrid.annLoop conf io queryVector querySparseVector reqs annRequests
    = Ok (annRequests ++ built)
    /\ Forall2
         (fun req annReq =>
            Hybrid.buildAnnRequest conf io queryVector querySparseVector req
            = Ok (Some annReq))
         (List.filter
            (fun req => negb (vectorNotSupplied queryVector querySparseVector req))
            reqs)
         built.
Proof.
  intros Hsparse. revert annRequests.
  induction reqs as [|req rest IH]; intros annRequests; simpl.
  - exists []. split; [by rewrite app_nil_r|constructor].
  - destruct (vectorNotSupplied queryVector querySparseVector req) eqn:Hsup; simpl.
    + rewrite (buildAnnRequest_skips req Hsup). apply IH.
    + destruct (buildAnnRequest_builds req Hsparse Hsup) as (annReq & Hreq).
      rewrite Hreq.
      destruct (IH (annRequests ++ [annReq])) as (built & Hloop & Hall).
      exists (annReq :: built). split.
      * rewrite Hloop. by rewrite <- app_assoc.
      * by constructor.
Qed.

End HybridSkips.

(** C5. A sub-request whose vector kind was not supplied is passed over
    without an error, and the build succeeds with the requests of the
    other sub-requests, one for each, in order, when the sparse
    embedding, if one is needed, can be constructed. *)
Theorem hybrid_skips_unsupplied :
  forall (E : Externals) (h : Hybrid.t) (conf : RetrieverConfig.t)
         (queryVector : list float32) (querySparseVector : gmap Z float64)
         (opts : list Option),
    (size querySparseVector = 0%nat
     \/ exists emb, NewSliceSparseEmbedding (Hybrid.sparseIndices querySparseVector)
                      (Hybrid.sparseValues querySparseVector) = Ok emb) ->
    let io := retriever.GetImplSpecificOptions emptyImplOptions opts in
    (forall req,
       vectorNotSupplied queryVector querySparseVector req = true ->
       Hybrid.buildAnnRequest conf io queryVector querySparseVector req = Ok None)
    /\ exists opt,
         Hybrid.BuildHybridSearchOption h conf queryVector querySparseVector opts = Ok opt
         /\ Forall2
              (fun req annReq =>
                 Hybrid.buildAnnRequest conf io queryVector querySparseVector req
                 = Ok (Some annReq))
              (List.filter
                 (fun req => negb (vectorNotSupplied queryVector querySparseVector req))
                 (Hybrid.SubRequests h))
              (milvusclient.hs_reqs opt).
Proof.
  intros E h conf qv qsv opts Hsparse io. split.
  - intros req. apply buildAnnRequest_skips.
  - destruct (annLoop_builds conf io qv qsv (Hybrid.SubRequests h) [] Hsparse)
      as (built & Hloop & Hall).
    unfold Hybrid.BuildHybridSearchOption. fold io. rewrite Hloop. simpl.
    eexists. split; [reflexivity|].
    by destruct (0 <? Z.of_nat (length (RetrieverConfig.Partitions conf))).
Qed.

(** The hybrid mode of a dense and a sparse sub-request. *)
Definition hybridDenseSparse : Hybrid.t :=
  {| Hybrid.SubRequests :=
       [ {| SubRequest.VectorField := "sparse_vector";
            SubRequest.MetricType := IP;
            SubRequest.TopK := 10;
            SubRequest.SearchParams := ∅;
            SubRequest.VectorType := SparseVector |};
         {| SubRequest.VectorField := "vector";
            SubRequest.MetricType := L2;
            SubRequest.TopK := 0;
            SubRequest.SearchParams := ∅;
            SubRequest.VectorType := DenseVector |} ];
     Hybrid.Reranker := Some milvusclient.RRFReranker;
     Hybrid.TopK := 0 |}.

(** With a dense vector and no sparse vector, the sparse sub-request is
    left out and the dense one is built. *)
Lemma hybrid_skips_unsupplied_witness :
  let io := retriever.GetImplSpecificOptions emptyImplOptions [] in
  let queryVector := [float32_of_float64 0.1%float] in
  size (∅ : gmap Z float64) = 0%nat
  /\ (forall req,
     vectorNotSupplied queryVector ∅ req = true ->
     @Hybrid.buildAnnRequest Fixtures.fixtureExternals (Fixtures.testConfig None)
       io queryVector ∅ req = Ok None)
  /\ exists opt,
       @Hybrid.BuildHybridSearchOption Fixtures.fixtureExternals hybridDenseSparse
         (Fixtures.testConfig None) queryVector ∅ [] = Ok opt
       /\ Forall2
            (fun req annReq =>
               @Hybrid.buildAnnRequest Fixtures.fixtureExternals
                 (Fixtures.testConfig None) io queryVector ∅ req
               = Ok (Some annReq))
            (List.filter (fun req => negb (vectorNotSupplied queryVector ∅ req))
               (Hybrid.SubRequests hybridDenseSparse))
            (milvusclient.hs_reqs opt).
Proof.
  split; [reflexivity|].
  apply (hybrid_skips_unsupplied Fixtures.fixtureExternals hybridDenseSparse
           (Fixtures.testConfig None) [float32_of_float64 0.1%float] ∅ []).
  left. reflexivity.
Defined.

(** The request built there holds the dense sub-request alone, with the
    default limit of 10. *)
Example hybrid_dense_only :
  exists opt,
    @Hybrid.BuildHybridSearchOption Fixtures.fixtureExternals hybridDenseSparse
      (Fixtures.testConfig None) [float32_of_float64 0.1%float] ∅ [] = Ok opt
    /\ map (fun a => (milvusclient.ann_field a, milvusclient.ann_limit a))
          (milvusclient.hs_reqs opt) = [("vector", 10)].
Proof. eexists. split; [vm_compute; reflexivity|reflexivity]. Qed.

(** ** Iterator mode: the batches *)

Lemma iteratorLoop_batches (converter : ResultSet -> result (list Document))
    (iterator : milvusclient.SearchIterator) (batches : list ResultSet) :
  forall (docs : list (list Document)) (fuel calls : nat) (allDocs : list Document),
    Forall2 (fun res batchDocs =>
               ResultCount res <> 0 /\ converter res = Ok batchDocs) batches docs ->
    (forall k res, batches !! k = Some res -> iterator (calls + k)%nat = Ok res) ->
    (iterator (calls + length batches)%nat = Err "EOF"
     \/ exists res, iterator (calls + length batches)%nat = Ok res
                    /\ ResultCount res = 0) ->
    (length batches < fuel)%nat ->
    iteratorLoop fuel converter iterator calls allDocs
    = Some (Ok (allDocs ++ concat docs)).
Proof.
  induction batches as [|res batches IH];
    intros docs fuel calls allDocs Hall Hnext Hend Hfuel.
  - apply Forall2_nil_inv_l in Hall as ->. simpl in *.
    rewrite Nat.add_0_r in Hend. rewrite app_nil_r.
    destruct fuel as [|fuel]; [lia|]. simpl.
    destruct Hend as [->|(res & -> & Hzero)]; simpl.
    + done.
    + by rewrite Hzero.
  - apply Forall2_cons_inv_l in Hall as (batchDocs & docs' & (Hcount & Hconv) & Hall & ->).
    destruct fuel as [|fuel]; [simpl in Hfuel; lia|]. simpl.
    pose proof (Hnext 0%nat res eq_refl) as Hres.
    rewrite Nat.add_0_r in Hres. rewrite Hres.
    destruct (Z.eqb_spec (ResultCount res) 0) as [?|_]; [done|].
    rewrite Hconv.
    rewrite (IH docs' fuel (S calls) (allDocs ++ batchDocs)).
    + by rewrite <- app_assoc.
    + done.
    + intros k res' Hk. specialize (Hnext (S k) res' Hk).
      by rewrite Nat.add_succ_r in Hnext.
    + simpl in Hend. by rewrite Nat.add_succ_r in Hend.
    + simpl in Hfuel. lia.
Qed.

(** C7. In Iterator mode, when the query is embedded and the iterator
    created, and the iterator hands out the batches [batches], none of
    them empty, before a batch of zero rows or the error [EOF], the
    retrieval returns the converted documents of the batches,
    concatenated in the order of arrival, provided it is given more
    turns than there are batches; the end of the results is no error. *)
Theorem retrieveIterator_accumulates :
  forall (fuel : nat) (r : Retriever)
         (mode : RetrieverConfig.t -> list float32 -> list Option
                 -> result milvusclient.searchIteratorOption)
         (co : retriever.Options) (query : string) (opts : list Option)
         (queryVector : list float32) (iterOpt : milvusclient.searchIteratorOption)
         (iterator : milvusclient.SearchIterator)
         (batches : list ResultSet) (docs : list (list Document)),
    embedQuery (retriever.Embedding co) query = Ok queryVector ->
    mode (config r) queryVector opts = Ok iterOpt ->
    Client.SearchIterator (client r) iterOpt = Ok iterator ->
    Forall2 (fun res batchDocs =>
               ResultCount res <> 0
               /\ RetrieverConfig.DocumentConverter (config r) res = Ok batchDocs)
      batches docs ->
    (forall k res, batches !! k = Some res -> iterator k = Ok res) ->
    (iterator (length batches) = Err "EOF"
     \/ exists res, iterator (length batches) = Ok res /\ ResultCount res = 0) ->
    (length batches < fuel)%nat ->
    retrieveIterator fuel r mode co query opts = Some (Ok (concat docs)).
Proof.
  intros fuel r mode co query opts qv iterOpt iterator batches docs
    Hemb Hbuild Hiter Hall Hnext Hend Hfuel.
  unfold retrieveIterator. rewrite Hemb, Hbuild. simpl. rewrite Hiter. simpl.
  by rewrite (iteratorLoop_batches _ iterator batches docs fuel 0%nat []).
Qed.

(** The batches [[id "1"]] then [[id "2"]], followed by an empty batch,
    yield the documents ["1"] and ["2"], in this order. *)
Lemma retrieveIterator_accumulates_witness :
  let r := Fixtures.iteratorRetriever
             (Fixtures.mockSearchIterator [Fixtures.batch1; Fixtures.batch2]) in
  let d1 := @convertRow Fixtures.fixtureExternals Fixtures.batch1 0 in
  let d2 := @convertRow Fixtures.fixtureExternals Fixtures.batch2 0 in
  retrieveIterator 3 r
    Fixtures.mockBuildSearchIteratorOption (commonOptions r []) "test query" []
  = Some (Ok [d1; d2])
  /\ map ID [d1; d2] = ["1"; "2"].
Proof.
  intros r d1 d2. split; [|reflexivity].
  apply (retrieveIterator_accumulates 3 r
           Fixtures.mockBuildSearchIteratorOption (commonOptions r []) "test query" []
           (replicate 3 (float32_of_float64 0.1%float))
           {| milvusclient.si_collection := "test_collection";
              milvusclient.si_vector :=
                FloatVector (replicate 3 (float32_of_float64 0.1%float));
              milvusclient.si_batchSize := 3;
              milvusclient.si_annsField := "";
              milvusclient.si_filter := "";
              milvusclient.si_outputFields := [];
              milvusclient.si_partitions := [];
              milvusclient.si_searchParam := ∅;
              milvusclient.si_grouping := None |}
           (Fixtures.mockSearchIterator [Fixtures.batch1; Fixtures.batch2])
           [Fixtures.batch1; Fixtures.batch2] [[d1]; [d2]]).
  - reflexivity.
  - reflexivity.
  - reflexivity.
  - repeat constructor; try discriminate; reflexivity.
  - intros [|[|k]] res; simpl; intros Hk; try (by inversion Hk).
  - right. eexists. split; reflexivity.
  - simpl. lia.
Defined.

(** The same batches followed by the error [EOF]: the loop ends without
    an error, with the same documents. *)
Example retrieveIterator_eof :
  let r := Fixtures.iteratorRetriever
             (Fixtures.eofSearchIterator [Fixtures.batch1; Fixtures.batch2]) in
  option_map (fun res => match res with
                         | Ok docs => Ok (map ID docs)
                         | Err msg => Err msg
                         end)
    (@Retrieve Fixtures.fixtureExternals 3 r "test query" [])
  = Some (Ok ["1"; "2"]).
Proof. vm_compute. reflexivity. Qed.

(** ** Rows without an id *)

Lemma fold_left_snoc {A B} (g : B -> A) (l : list B) (acc : list A) :
  fold_left (fun docs i => docs ++ [g i]) l acc = acc ++ map g l.
Proof.
  revert acc. induction l as [|i l IH]; intros acc; simpl.
  - by rewrite app_nil_r.
  - rewrite IH. by rewrite <- app_assoc.
Qed.

Section RowFacts.
Context `{Externals}.

(** The documents row [i] adds to the result of the query path. *)
Definition queryRowDocs (resultSet : ResultSet) (i : nat) : list Document :=
  match getField resultSet defaultIDField i with
  | (_, false) => []
  | (idVal, true) => [queryRowDoc resultSet i idVal]
  end.

Lemma fold_left_queryRowStep (resultSet : ResultSet) (l : list nat)
    (docs : list Document) :
  fold_left (queryRowStep resultSet) l docs
  = docs ++ flat_map (queryRowDocs resultSet) l.
Proof.
  revert docs. induction l as [|i l IH]; intros docs; simpl.
  - by rewrite app_nil_r.
  - rewrite IH. unfold queryRowStep, queryRowDocs.
    destruct (getField resultSet defaultIDField i) as [idVal [|]]; simpl.
    + by rewrite <- app_assoc.
    + done.
Qed.

Lemma queryResultSetToDocuments_rows (resultSet : ResultSet) :
  queryResultSetToDocuments resultSet
  = Ok (flat_map (queryRowDocs resultSet) (rows (ResultCount resultSet))).
Proof.
  unfold queryResultSetToDocuments. by rewrite fold_left_queryRowStep.
Qed.

Lemma defaultDocumentConverter_rows (resultSet : ResultSet) :
  defaultDocumentConverter resultSet
  = Ok (map (convertRow resultSet) (rows (ResultCount resultSet))).
Proof.
  unfold defaultDocumentConverter. by rewrite fold_left_snoc.
Qed.

End RowFacts.

(** A result set of one row with a content column and no id column. *)
Definition noIdResult : ResultSet :=
  {| ResultCount := 1;
     Scores := [];
     Fields := [ Fixtures.NewColumnVarChar "content" ["doc1"] ] |}.

(** C2, as stated, fails on the default converter: the row of a result
    set without an id column still yields a document, with an empty
    ID. *)
Lemma defaultDocumentConverter_keeps_row_without_id :
  GetColumn noIdResult defaultIDField = None
  /\ @defaultDocumentConverter Fixtures.fixtureExternals noIdResult
     = Ok [ {| ID := ""; Content := "doc1"; MetaData := ∅ |} ].
Proof. split; reflexivity. Qed.

(** C2, amended. The converter of the query path passes over every row
    whose id field is absent (no column of that name, or no value at
    that row): the result is the list of the documents of the other
    rows, in order, and no error.  The default converter yields one
    document for each row, whether or not the row has an id, and no
    error either. *)
Theorem converters_on_rows_without_id :
  forall (E : Externals) (resultSet : ResultSet),
    queryResultSetToDocuments resultSet
    = Ok (flat_map
            (fun i =>
               match getField resultSet defaultIDField i with
               | (_, false) => []
               | (idVal, true) => [queryRowDoc resultSet i idVal]
               end)
            (rows (ResultCount resultSet)))
    /\ (exists docs,
          defaultDocumentConverter resultSet = Ok docs
          /\ docs = map (convertRow resultSet) (rows (ResultCount resultSet))
          /\ length docs = Z.to_nat (ResultCount resultSet)).
Proof.
  intros E resultSet. split.
  - apply queryResultSetToDocuments_rows.
  - eexists. split; [apply defaultDocumentConverter_rows|]. split; [done|].
    unfold rows. by rewrite length_map, length_seq.
Qed.

(** On the result set without an id column the query path returns no
    document at all. *)
Example queryResultSetToDocuments_without_id :
  @queryResultSetToDocuments Fixtures.fixtureExternals noIdResult = Ok [].
Proof. reflexivity. Qed.

(** ** Scalar mode and the score threshold *)

Lemma mergeInto_lookup (m meta : gmap string any) (k : string) :
  mergeInto m meta !! k
  = match m !! k with
    | Some v => Some v
    | None => meta !! k
    end.
Proof.
  unfold mergeInto. revert k.
  apply (map_fold_weak_ind
           (fun r m' => forall k, r !! k = match m' !! k with
                                           | Some v => Some v
                                           | None => meta !! k
                                           end)).
  - intros k. by rewrite lookup_empty.
  - intros i x m' r Hi IH k. destruct (decide (i = k)) as [->|Hne].
    + by rewrite !lookup_insert_eq.
    + rewrite !lookup_insert_ne by done. apply IH.
Qed.

Section ScalarFacts.
Context `{Externals}.

(** The metadata of a document of the query path holds an entry only
    where the decoded JSON blob of the row does. *)
Lemma queryRowMeta_lookup (resultSet : ResultSet) (i : nat) (k : string) (v : any) :
  queryRowMeta resultSet i !! k = Some v ->
  exists b m, getField resultSet defaultMetadataField i = (ABytes b, true)
              /\ Unmarshal b = Ok m /\ m !! k = Some v.
Proof.
  unfold queryRowMeta.
  destruct (getField resultSet defaultMetadataField i) as [[] [|]];
    try (rewrite lookup_empty; discriminate).
  destruct (Unmarshal b) as [m|msg] eqn:Hdec;
    [|rewrite lookup_empty; discriminate].
  rewrite mergeInto_lookup, lookup_empty.
  destruct (m !! k) as [v'|] eqn:Hk; [|discriminate].
  intros [= ->]. by exists b, m.
Qed.

Lemma queryRowDocs_no_score (resultSet : ResultSet) (l : list nat) (d : Document) :
  (forall i b m,
     getField resultSet defaultMetadataField i = (ABytes b, true) ->
     Unmarshal b = Ok m -> m !! "score" = None) ->
  In d (flat_map (queryRowDocs resultSet) l) ->
  MetaData d !! "score" = None.
Proof.
  intros Hmeta Hin. apply in_flat_map in Hin as (i & _ & Hd).
  unfold queryRowDocs in Hd.
  destruct (getField resultSet defaultIDField i) as [idVal [|]]; [|done].
  destruct Hd as [<-|[]]. simpl.
  destruct (queryRowMeta resultSet i !! "score") as [v|] eqn:Hscore; [|done].
  apply queryRowMeta_lookup in Hscore as (b & m & Hfield & Hdec & Hm).
  by rewrite (Hmeta i b m Hfield Hdec) in Hm.
Qed.

End ScalarFacts.

(** The first-class score of a document is not read by the filter. *)
Lemma passesThreshold_WithScore (t score : float64) (d : Document) :
  passesThreshold t (WithScore score d) = passesThreshold t d.
Proof.
  unfold passesThreshold, WithScore. simpl.
  by rewrite lookup_insert_ne.
Qed.

(** The scalar retriever of the tests over a query result, with a score
    threshold. *)
Definition scalarRetriever (threshold : float64) (resultSet : ResultSet) : Retriever :=
  {| client := Fixtures.queryClient resultSet;
     config := Fixtures.testConfig (Some threshold);
     searchMode := Scalar.mode |}.

(** C10, as stated, fails: a row whose JSON metadata has a ["score"] key
    yields a document with that metadata entry, which passes the
    threshold; the retrieval is not empty. *)
Lemma scalar_threshold_keeps_metadata_score :
  @Retrieve Fixtures.fixtureExternals 1
    (scalarRetriever 0.5%float
       (Fixtures.createMockQueryResult ["1"; "2"] ["doc1"; "doc2"]
          [Fixtures.emptyObject; Fixtures.scoreObject]))
    "id > 0" []
  = Some (Ok [ {| ID := "2"; Content := "doc2";
                  MetaData := {[ "score" := AFloat64 0.9%float ]} |} ]).
Proof. vm_compute. reflexivity. Qed.

(** C10, amended. A document of the Scalar path carries a ["score"]
    metadata entry only when the JSON metadata of its row has that key,
    and the filter reads that entry alone, not the first-class score.
    So when a threshold is in force and no row has a ["score"] key in
    its metadata, a Scalar retrieval whose query runs returns the empty
    list, however many rows the engine returned. *)
Theorem scalar_threshold_without_score :
  forall (E : Externals) (fuel : nat) (r : Retriever)
         (sm : RetrieverConfig.t -> string -> list Option
               -> result milvusclient.queryOption)
         (query : string) (opts : list Option) (t : float64)
         (queryOpt : milvusclient.queryOption) (resultSet : ResultSet),
    SearchMode.BuildQueryOption (searchMode r) = Some sm ->
    retriever.ScoreThreshold (commonOptions r opts) = Some t ->
    sm (config r) query opts = Ok queryOpt ->
    Client.Query (client r) queryOpt = Ok resultSet ->
    (forall i b m,
       getField resultSet defaultMetadataField i = (ABytes b, true) ->
       Unmarshal b = Ok m -> m !! "score" = None) ->
    (exists docs,
       queryResultSetToDocuments resultSet = Ok docs
       /\ Forall (fun d => MetaData d !! "score" = None) docs)
    /\ (forall score d, passesThreshold t (WithScore score d) = passesThreshold t d)
    /\ Retrieve fuel r query opts = Some (Ok []).
Proof.
  intros E fuel r sm query opts t queryOpt resultSet Hmode Hthr Hbuild Hquery Hmeta.
  assert (Hdocs : Forall (fun d => MetaData d !! "score" = None)
                    (flat_map (queryRowDocs resultSet) (rows (ResultCount resultSet)))).
  { apply List.Forall_forall. intros d Hd.
    exact (queryRowDocs_no_score resultSet _ d Hmeta Hd). }
  split; [|split].
  - eexists. split; [apply queryResultSetToDocuments_rows|exact Hdocs].
  - intros score d. apply passesThreshold_WithScore.
  - unfold Retrieve, dispatch, retrieveQuery. rewrite Hmode, Hthr, Hbuild.
    cbn [bind wrapErr]. rewrite Hquery. cbn [bind wrapErr].
    rewrite queryResultSetToDocuments_rows. cbn [applyScoreThreshold].
    rewrite thresholdLoop_filter. cbn [app].
    rewrite filter_none; [done|].
    intros d Hd. unfold passesThreshold.
    rewrite List.Forall_forall in Hdocs. by rewrite (Hdocs d Hd).
Qed.

(** Two rows with empty JSON metadata and a threshold of 0.5: nothing
    is returned. *)
Lemma scalar_threshold_without_score_witness :
  let resultSet :=
    Fixtures.createMockQueryResult ["1"; "2"] ["doc1"; "doc2"]
      [Fixtures.emptyObject; Fixtures.emptyObject] in
  (exists docs,
     @queryResultSetToDocuments Fixtures.fixtureExternals resultSet = Ok docs
     /\ Forall (fun d => MetaData d !! "score" = None) docs)
  /\ (forall score d,
        passesThreshold 0.5%float (WithScore score d) = passesThreshold 0.5%float d)
  /\ @Retrieve Fixtures.fixtureExternals 1 (scalarRetriever 0.5%float resultSet)
       "id > 0" [] = Some (Ok []).
Proof.
  intros resultSet.
  apply (scalar_threshold_without_score Fixtures.fixtureExternals 1
           (scalarRetriever 0.5%float resultSet) Scalar.BuildQueryOption
           "id > 0" [] 0.5%float
           {| milvusclient.q_collection := "test_collection";
              milvusclient.q_expr := "id > 0";
              milvusclient.q_outputFields := ["id"; "content"];
              milvusclient.q_limit := 10;
              milvusclient.q_partitions := [];
              milvusclient.q_consistencyLevel := None |}
           resultSet).
  - reflexivity.
  - reflexivity.
  - reflexivity.
  - reflexivity.
  - intros [|[|i]] b m; cbn.
    + intros [= <-]. cbn. intros [= <-]. apply lookup_empty.
    + intros [= <-]. cbn. intros [= <-]. apply lookup_empty.
    + destruct i; cbn; discriminate.
Defined.

(** * Further properties of the search modes and of the retriever *)

(** ** Call options: what is in force for a call *)

(** The threshold and the embedder a call option supplies: those of the
    last [WithScoreThreshold] and of the last [WithEmbedding]. *)
Definition callScoreThreshold (opts : list Option) : option float64 :=
  fold_left (fun acc opt =>
               match opt with
               | retriever.WithScoreThreshold t => Some t
               | _ => acc
               end) opts None.

Definition callEmbedding (opts : list Option) : option (option Embedder) :=
  fold_left (fun acc opt =>
               match opt with
               | retriever.WithEmbedding emb => Some emb
               | _ => acc
               end) opts None.

Lemma ScoreThreshold_GetCommonOptions (opts : list Option) (base : retriever.Options) :
  retriever.ScoreThreshold (retriever.GetCommonOptions base opts)
  = match callScoreThreshold opts with
    | Some t => Some t
    | None => retriever.ScoreThreshold base
    end.
Proof.
  unfold retriever.GetCommonOptions, callScoreThreshold. revert base.
  induction opts as [|opt opts IH] using rev_ind; intros base; [done|].
  rewrite !fold_left_app. simpl. destruct opt; simpl; try apply IH; done.
Qed.

Lemma Embedding_GetCommonOptions (opts : list Option) (base : retriever.Options) :
  retriever.Embedding (retriever.GetCommonOptions base opts)
  = match callEmbedding opts with
    | Some emb => emb
    | None => retriever.Embedding base
    end.
Proof.
  unfold retriever.GetCommonOptions, callEmbedding. revert base.
  induction opts as [|opt opts IH] using rev_ind; intros base; [done|].
  rewrite !fold_left_app. simpl. destruct opt; simpl; try apply IH; done.
Qed.

(** X1. The options in force for a call of [Retrieve]: the top-K, the
    score threshold and the embedder of the last call option that sets
    them, and the configuration's otherwise.  A call option cannot
    remove a configured threshold, but it can replace the embedder by
    none. *)
Theorem commonOptions_precedence :
  forall (r : Retriever) (opts : list Option),
    retriever.TopK (commonOptions r opts)
    = Some (default (RetrieverConfig.TopK (config r)) (callTopK opts))
    /\ retriever.ScoreThreshold (commonOptions r opts)
       = match callScoreThreshold opts with
         | Some t => Some t
         | None => RetrieverConfig.ScoreThreshold (config r)
         end
    /\ retriever.Embedding (commonOptions r opts)
       = match callEmbedding opts with
         | Some emb => emb
         | None => RetrieverConfig.Embedding (config r)
         end.
Proof.
  intros r opts. unfold commonOptions. split; [|split].
  - rewrite TopK_GetCommonOptions. simpl. apply fold_TopK_default.
  - by rewrite ScoreThreshold_GetCommonOptions.
  - by rewrite Embedding_GetCommonOptions.
Qed.

(** ** Scalar mode: the rest of the request *)

Lemma length_zero_nil {A} (l : list A) :
  (0 <? Z.of_nat (length l)) = false -> l = [].
Proof. destruct l; [done|]. simpl. intros Hl. apply Z.ltb_ge in Hl. lia. Qed.

(** X2. The query request of Scalar mode is always built: on the
    configured collection and output fields, limited to the call
    option's top-K when one is supplied and to the configuration's
    otherwise, on the configured partitions, and with the consistency
    level of the configuration when that level is positive (the engine's
    default is left in place otherwise). *)
Theorem scalar_request_fields :
  forall (conf : RetrieverConfig.t) (query : string) (opts : list Option),
    exists opt,
      Scalar.BuildQueryOption conf query opts = Ok opt
      /\ milvusclient.q_collection opt = RetrieverConfig.Collection conf
      /\ milvusclient.q_outputFields opt = RetrieverConfig.OutputFields conf
      /\ milvusclient.q_limit opt
         = default (RetrieverConfig.TopK conf) (callTopK opts)
      /\ milvusclient.q_partitions opt = RetrieverConfig.Partitions conf
      /\ milvusclient.q_consistencyLevel opt
         = (if 0 <? RetrieverConfig.ConsistencyLevel conf
            then Some (RetrieverConfig.ConsistencyLevel conf)
            else None).
Proof.
  intros conf query opts. eexists. split; [reflexivity|].
  cbn zeta. rewrite TopK_GetCommonOptions. cbn [retriever.TopK].
  rewrite fold_TopK_default.
  destruct (0 <? Z.of_nat (length (RetrieverConfig.Partitions conf))) eqn:Hp;
    destruct (0 <? RetrieverConfig.ConsistencyLevel conf); simpl;
    repeat split; try done; symmetry; by apply length_zero_nil.
Qed.

(** ** Hybrid mode: what a sub-request becomes *)

(** The loop [for k, v := range req.SearchParams] changes the search
    parameters alone, and binds every key of the map. *)
Lemma searchParams_fold (params : gmap string string) (r : milvusclient.annRequest) :
  let r' := map_fold (fun k v r => milvusclient.ann_WithSearchParam k v r) r params in
  milvusclient.ann_field r' = milvusclient.ann_field r
  /\ milvusclient.ann_limit r' = milvusclient.ann_limit r
  /\ milvusclient.ann_vectors r' = milvusclient.ann_vectors r
  /\ milvusclient.ann_filter r' = milvusclient.ann_filter r
  /\ milvusclient.ann_groupByField r' = milvusclient.ann_groupByField r
  /\ milvusclient.ann_groupSize r' = milvusclient.ann_groupSize r
  /\ milvusclient.ann_strictGroupSize r' = milvusclient.ann_strictGroupSize r
  /\ forall k, milvusclient.ann_searchParam r' !! k
               = match params !! k with
                 | Some v => Some v
                 | None => milvusclient.ann_searchParam r !! k
                 end.
Proof.
  cbv zeta.
  apply (map_fold_weak_ind
           (fun r' m =>
              milvusclient.ann_field r' = milvusclient.ann_field r
              /\ milvusclient.ann_limit r' = milvusclient.ann_limit r
              /\ milvusclient.ann_vectors r' = milvusclient.ann_vectors r
              /\ milvusclient.ann_filter r' = milvusclient.ann_filter r
              /\ milvusclient.ann_groupByField r' = milvusclient.ann_groupByField r
              /\ milvusclient.ann_groupSize r' = milvusclient.ann_groupSize r
              /\ milvusclient.ann_strictGroupSize r' = milvusclient.ann_strictGroupSize r
              /\ forall k, milvusclient.ann_searchParam r' !! k
                           = match m !! k with
                             | Some v => Some v
                             | None => milvusclient.ann_searchParam r !! k
                             end)).
  - repeat (split; [reflexivity|]). intros k. by rewrite lookup_empty.
  - intros i x m r' Hi (? & ? & ? & ? & ? & ? & ? & IH). simpl.
    repeat (split; [assumption|]). intros k.
    destruct (decide (i = k)) as [->|Hne].
    + by rewrite !lookup_insert_eq.
    + rewrite !lookup_insert_ne by done. apply IH.
Qed.

(** The vector of the request built for a sub-request: the sparse
    embedding of the sparse query vector for a sparse sub-request, the
    dense query vector for any other. *)
Definition requestVector `{Externals} (queryVector : list float32)
    (querySparseVector : gmap Z float64) (req : SubRequest.t) (v : Vector) : Prop :=
  if String.eqb (SubRequest.VectorType req) SparseVector
  then exists emb,
         NewSliceSparseEmbedding (Hybrid.sparseIndices querySparseVector)
           (Hybrid.sparseValues querySparseVector) = Ok emb
         /\ v = SparseVectorOf emb
  else v = FloatVector queryVector.

Section HybridRequest.
Context `{Externals}.
Variables (conf : RetrieverConfig.t) (io : ImplOptions).
Variables (queryVector : list float32) (querySparseVector : gmap Z float64).

(** What the loop body builds, once the vector [v] of the request is
    known. *)
Lemma buildAnnRequest_inv (req : SubRequest.t) (annReq : milvusclient.annRequest) :
  Hybrid.buildAnnRequest conf io queryVector querySparseVector req = Ok (Some annReq) ->
  vectorNotSupplied queryVector querySparseVector req = false
  /\ exists v,
       requestVector queryVector querySparseVector req v
       /\ milvusclient.ann_field annReq
          = (if String.eqb (SubRequest.VectorField req) ""
             then RetrieverConfig.VectorField conf
             else SubRequest.VectorField req)
       /\ milvusclient.ann_limit annReq
          = (if SubRequest.TopK req <=? 0 then 10 else SubRequest.TopK req)
       /\ milvusclient.ann_vectors annReq = [v]
       /\ milvusclient.ann_filter annReq = Filter io
       /\ (forall k,
             milvusclient.ann_searchParam annReq !! k
             = if String.eqb k "metric_type" && negb (String.eqb (SubRequest.MetricType req) "")
               then Some (SubRequest.MetricType req)
               else SubRequest.SearchParams req !! k)
       /\ (milvusclient.ann_groupByField annReq,
           milvusclient.ann_groupSize annReq,
           milvusclient.ann_strictGroupSize annReq)
          = match Grouping io with
            | Some g => (GroupByField g, GroupSize g, StrictGroupSize g)
            | None => ("", 0, false)
            end.
Proof.
  unfold Hybrid.buildAnnRequest, vectorNotSupplied, requestVector.
  set (field := if String.eqb (SubRequest.VectorField req) ""
                then RetrieverConfig.VectorField conf
                else SubRequest.VectorField req).
  set (limit := if SubRequest.TopK req <=? 0 then 10 else SubRequest.TopK req).
  assert (Hdecorate : forall v,
    let base := milvusclient.NewAnnRequest field limit [v] in
    forall a,
      Ok (Some
        (let annReq :=
           map_fold (fun k v r => milvusclient.ann_WithSearchParam k v r)
             base (SubRequest.SearchParams req) in
         let annReq :=
           if negb (String.eqb (SubRequest.MetricType req) "")
           then milvusclient.ann_WithSearchParam "metric_type" (SubRequest.MetricType req) annReq
           else annReq in
         let annReq :=
           if negb (String.eqb (Filter io) "")
           then milvusclient.ann_WithFilter (Filter io) annReq
           else annReq in
         match Grouping io with
         | Some g =>
             let annReq :=
               milvusclient.ann_WithGroupSize (GroupSize g)
                 (milvusclient.ann_WithGroupByField (GroupByField g) annReq) in
             if StrictGroupSize g
             then milvusclient.ann_WithStrictGroupSize true annReq
             else annReq
         | None => annReq
         end)) = Ok (Some a) ->
      milvusclient.ann_field a = field
      /\ milvusclient.ann_limit a = limit
      /\ milvusclient.ann_vectors a = [v]
      /\ milvusclient.ann_filter a = Filter io
      /\ (forall k,
            milvusclient.ann_searchParam a !! k
            = if String.eqb k "metric_type" && negb (String.eqb (SubRequest.MetricType req) "")
              then Some (SubRequest.MetricType req)
              else SubRequest.SearchParams req !! k)
      /\ (milvusclient.ann_groupByField a, milvusclient.ann_groupSize a,
          milvusclient.ann_strictGroupSize a)
         = match Grouping io with
           | Some g => (GroupByField g, GroupSize g, StrictGroupSize g)
           | None => ("", 0, false)
           end).
  { intros v base a.
    destruct (searchParams_fold (SubRequest.SearchParams req) base)
      as (Hf & Hl & Hv & Hfi & Hgf & Hgs & Hst & Hp).
    cbv zeta in *.
    set (folded := map_fold _ base (SubRequest.SearchParams req)) in *.
    intros [= <-].
    assert (Hparams : forall k,
      milvusclient.ann_searchParam
        (if negb (String.eqb (SubRequest.MetricType req) "")
         then milvusclient.ann_WithSearchParam "metric_type"
                (SubRequest.MetricType req) folded
         else folded) !! k
      = if String.eqb k "metric_type" && negb (String.eqb (SubRequest.MetricType req) "")
        then Some (SubRequest.MetricType req)
        else SubRequest.SearchParams req !! k).
    { intros k. destruct (String.eqb (SubRequest.MetricType req) ""); simpl.
      - rewrite andb_false_r. rewrite Hp. simpl. rewrite lookup_empty.
        by destruct (SubRequest.SearchParams req !! k).
      - rewrite andb_true_r. destruct (String.eqb_spec k "metric_type") as [->|Hne].
        + by rewrite lookup_insert_eq.
        + rewrite lookup_insert_ne by done. rewrite Hp. simpl. rewrite lookup_empty.
          by destruct (SubRequest.SearchParams req !! k). }
    destruct (String.eqb_spec (Filter io) "") as [Hfilter|Hfilter];
      destruct (Grouping io) as [g|]; try destruct (StrictGroupSize g) eqn:Hstrict;
      destruct (String.eqb (SubRequest.MetricType req) "") eqn:Hmetric;
      simpl in *; rewrite ?Hf, ?Hl, ?Hv, ?Hfi, ?Hgf, ?Hgs, ?Hst;
      repeat split; try done; try (intros k; apply Hparams). }
  destruct (String.eqb (SubRequest.VectorType req) SparseVector).
  - destruct (Nat.eqb (size querySparseVector) 0); [discriminate|].
    destruct (NewSliceSparseEmbedding _ _) as [emb|msg] eqn:Hemb; [|discriminate].
    cbn [wrapErr bind]. intros Hbuild. split; [done|].
    exists (SparseVectorOf emb). split; [by exists emb|].
    by apply (Hdecorate (SparseVectorOf emb)).
  - destruct (Nat.eqb (length queryVector) 0); [discriminate|].
    cbn [bind]. intros Hbuild. split; [done|].
    exists (FloatVector queryVector). split; [done|].
    by apply (Hdecorate (FloatVector queryVector)).
Qed.

End HybridRequest.

Section HybridLoop.
Context `{Externals}.
Variables (conf : RetrieverConfig.t) (io : ImplOptions).
Variables (queryVector : list float32) (querySparseVector : gmap Z float64).

Lemma buildAnnRequest_None (req : SubRequest.t) :
  Hybrid.buildAnnRequest conf io queryVector querySparseVector req = Ok None ->
  vectorNotSupplied queryVector querySparseVector req = true.
Proof.
  unfold Hybrid.buildAnnRequest, vectorNotSupplied.
  destruct (String.eqb (SubRequest.VectorType req) SparseVector).
  - destruct (Nat.eqb (size querySparseVector) 0); [done|].
    destruct (NewSliceSparseEmbedding _ _); discriminate.
  - destruct (Nat.eqb (length queryVector) 0); [done|discriminate].
Qed.

(** The requests the loop appends are those of the sub-requests whose
    vector was supplied, in order. *)
Lemma annLoop_inv (reqs : list SubRequest.t)
    (annRequests out : list milvusclient.annRequest) :
  Hybrid.annLoop conf io queryVector querySparseVector reqs annRequests = Ok out ->
  exists built,
    out = annRequests ++ built
    /\ Forall2
         (fun req annReq =>
            Hybrid.buildAnnRequest conf io queryVector querySparseVector req
            = Ok (Some annReq))
         (List.filter
            (fun req => negb (vectorNotSupplied queryVector querySparseVector req))
            reqs)
         built.
Proof.
  revert annRequests.
  induction reqs as [|req rest IH]; intros annRequests; simpl.
  - intros [= <-]. exists []. split; [by rewrite app_nil_r|constructor].
  - destruct (Hybrid.buildAnnRequest conf io queryVector querySparseVector req)
      as [[annReq|]|msg] eqn:Hreq; [| |discriminate].
    + destruct (buildAnnRequest_inv conf io queryVector querySparseVector req annReq Hreq)
        as (-> & _). simpl.
      intros Hloop. destruct (IH _ Hloop) as (built & -> & Hall).
      exists (annReq :: built). split; [by rewrite <- app_assoc|by constructor].
    + rewrite (buildAnnRequest_None req Hreq). simpl. apply IH.
Qed.

(** A sparse sub-request, once the sparse query vector is not empty and
    its embedding cannot be constructed, ends the loop with an error;
    the sub-requests before it cannot fail otherwise. *)
Lemma annLoop_sparse_failure (reqs : list SubRequest.t)
    (annRequests : list milvusclient.annRequest) (msg : string) :
  size querySparseVector <> 0%nat ->
  NewSliceSparseEmbedding (Hybrid.sparseIndices querySparseVector)
    (Hybrid.sparseValues querySparseVector) = Err msg ->
  Exists (fun req => String.eqb (SubRequest.VectorType req) SparseVector = true) reqs ->
  Hybrid.annLoop conf io queryVector querySparseVector reqs annRequests
  = Err ("failed to create sparse embedding: " +:+ msg).
Proof.
  intros Hsize Hemb Hex. revert annRequests.
  induction reqs as [|req rest IH]; intros annRequests; [by inversion Hex|].
  simpl. unfold Hybrid.buildAnnRequest at 1.
  destruct (String.eqb (SubRequest.VectorType req) SparseVector) eqn:Htype.
  - destruct (Nat.eqb_spec (size querySparseVector) 0) as [?|_]; [done|].
    by rewrite Hemb.
  - assert (Hrest : Exists
              (fun req => String.eqb (SubRequest.VectorType req) SparseVector = true)
              rest).
    { inversion Hex; subst; [congruence|done]. }
    destruct (Nat.eqb (length queryVector) 0); cbn [bind]; by apply IH.
Qed.

Lemma annLoop_nothing_supplied (reqs : list SubRequest.t)
    (annRequests : list milvusclient.annRequest) :
  Forall (fun req => vectorNotSupplied queryVector querySparseVector req = true) reqs ->
  Hybrid.annLoop conf io queryVector querySparseVector reqs annRequests = Ok annRequests.
Proof.
  revert annRequests. induction reqs as [|req rest IH]; intros annRequests Hall; [done|].
  apply Forall_cons in Hall as (Hreq & Hrest). simpl.
  rewrite (buildAnnRequest_skips conf io queryVector querySparseVector req Hreq).
  by apply IH.
Qed.

End HybridLoop.

(** The hybrid request is the aggregate of the requests of the loop. *)
Lemma BuildHybridSearchOption_inv `{Externals} (h : Hybrid.t) (conf : RetrieverConfig.t)
    (queryVector : list float32) (querySparseVector : gmap Z float64)
    (opts : list Option) (opt : milvusclient.hybridSearchOption) :
  Hybrid.BuildHybridSearchOption h conf queryVector querySparseVector opts = Ok opt ->
  Hybrid.annLoop conf (retriever.GetImplSpecificOptions emptyImplOptions opts)
    queryVector querySparseVector (Hybrid.SubRequests h) []
  = Ok (milvusclient.hs_reqs opt)
  /\ milvusclient.hs_collection opt = RetrieverConfig.Collection conf
  /\ milvusclient.hs_reranker opt = Hybrid.Reranker h
  /\ milvusclient.hs_outputFields opt = RetrieverConfig.OutputFields conf
  /\ milvusclient.hs_partitions opt = RetrieverConfig.Partitions conf.
Proof.
  unfold Hybrid.BuildHybridSearchOption.
  destruct (Hybrid.annLoop _ _ _ _ _ _) as [reqs|msg]; [|discriminate].
  cbn [bind].
  destruct (0 <? Z.of_nat (length (RetrieverConfig.Partitions conf))) eqn:Hp;
    intros [= <-]; simpl; repeat split; try done.
  symmetry. by apply length_zero_nil.
Qed.

(** X3. In a hybrid request that is built, the sub-requests whose
    vector was supplied each have their request, in order: on the
    sub-request's vector field, or on the configuration's when the
    sub-request names none; limited to the sub-request's top-K, or to 10
    when that is not positive; and searching with the one vector of the
    sub-request's kind. *)
Theorem hybrid_request_targets :
  forall (E : Externals) (h : Hybrid.t) (conf : RetrieverConfig.t)
         (queryVector : list float32) (querySparseVector : gmap Z float64)
         (opts : list Option) (opt : milvusclient.hybridSearchOption),
    Hybrid.BuildHybridSearchOption h conf queryVector querySparseVector opts = Ok opt ->
    Forall2
      (fun req annReq =>
         milvusclient.ann_field annReq
         = (if String.eqb (SubRequest.VectorField req) ""
            then RetrieverConfig.VectorField conf
            else SubRequest.VectorField req)
         /\ milvusclient.ann_limit annReq
            = (if SubRequest.TopK req <=? 0 then 10 else SubRequest.TopK req)
         /\ exists v, milvusclient.ann_vectors annReq = [v]
                      /\ requestVector queryVector querySparseVector req v)
      (List.filter
         (fun req => negb (vectorNotSupplied queryVector querySparseVector req))
         (Hybrid.SubRequests h))
      (milvusclient.hs_reqs opt).
Proof.
  intros E h conf qv qsv opts opt Hbuild.
  apply BuildHybridSearchOption_inv in Hbuild as (Hloop & _).
  apply annLoop_inv in Hloop as (built & -> & Hall). simpl.
  eapply Forall2_impl; [exact Hall|].
  intros req annReq Hreq. simpl in Hreq.
  apply buildAnnRequest_inv in Hreq as (_ & v & Hv & Hf & Hl & Hvec & _).
  split; [done|]. split; [done|]. by exists v.
Qed.

(** X4. Every request of a hybrid request carries the search
    parameters of its sub-request, with [metric_type] bound to the
    sub-request's metric type when it has one (whatever the search
    parameters say under that key), the filter of the call options, and
    their grouping (field, size, strictness) when they have one. *)
Theorem hybrid_request_parameters :
  forall (E : Externals) (h : Hybrid.t) (conf : RetrieverConfig.t)
         (queryVector : list float32) (querySparseVector : gmap Z float64)
         (opts : list Option) (opt : milvusclient.hybridSearchOption),
    Hybrid.BuildHybridSearchOption h conf queryVector querySparseVector opts = Ok opt ->
    let io := retriever.GetImplSpecificOptions emptyImplOptions opts in
    Forall2
      (fun req annReq =>
         (forall k,
            milvusclient.ann_searchParam annReq !! k
            = if String.eqb k "metric_type"
                 && negb (String.eqb (SubRequest.MetricType req) "")
              then Some (SubRequest.MetricType req)
              else SubRequest.SearchParams req !! k)
         /\ milvusclient.ann_filter annReq = Filter io
         /\ (milvusclient.ann_groupByField annReq,
             milvusclient.ann_groupSize annReq,
             milvusclient.ann_strictGroupSize annReq)
            = match Grouping io with
              | Some g => (GroupByField g, GroupSize g, StrictGroupSize g)
              | None => ("", 0, false)
              end)
      (List.filter
         (fun req => negb (vectorNotSupplied queryVector querySparseVector req))
         (Hybrid.SubRequests h))
      (milvusclient.hs_reqs opt).
Proof.
  intros E h conf qv qsv opts opt Hbuild io.
  apply BuildHybridSearchOption_inv in Hbuild as (Hloop & _).
  apply annLoop_inv in Hloop as (built & -> & Hall). simpl.
  eapply Forall2_impl; [exact Hall|].
  intros req annReq Hreq. simpl in Hreq.
  by apply buildAnnRequest_inv in Hreq as (_ & v & _ & _ & _ & _ & Hfilter & Hp & Hg).
Qed.

(** X5. A hybrid request that is built is on the configured
    collection, output fields and partitions, and under the reranker of
    the mode. *)
Theorem hybrid_request_header :
  forall (E : Externals) (h : Hybrid.t) (conf : RetrieverConfig.t)
         (queryVector : list float32) (querySparseVector : gmap Z float64)
         (opts : list Option) (opt : milvusclient.hybridSearchOption),
    Hybrid.BuildHybridSearchOption h conf queryVector querySparseVector opts = Ok opt ->
    milvusclient.hs_collection opt = RetrieverConfig.Collection conf
    /\ milvusclient.hs_reranker opt = Hybrid.Reranker h
    /\ milvusclient.hs_outputFields opt = RetrieverConfig.OutputFields conf
    /\ milvusclient.hs_partitions opt = RetrieverConfig.Partitions conf.
Proof.
  intros E h conf qv qsv opts opt Hbuild.
  by apply BuildHybridSearchOption_inv in Hbuild as (_ & Hrest).
Qed.

(** X6. When the mode has a sparse sub-request, the sparse query vector
    is not empty and its embedding cannot be constructed, the build of
    the hybrid request fails, with the constructor's error under the
    prefix of the builder, whatever the other sub-requests are. *)
Theorem hybrid_sparse_construction_failure :
  forall (E : Externals) (h : Hybrid.t) (conf : RetrieverConfig.t)
         (queryVector : list float32) (querySparseVector : gmap Z float64)
         (opts : list Option) (msg : string),
    size querySparseVector <> 0%nat ->
    NewSliceSparseEmbedding (Hybrid.sparseIndices querySparseVector)
      (Hybrid.sparseValues querySparseVector) = Err msg ->
    Exists (fun req => String.eqb (SubRequest.VectorType req) SparseVector = true)
      (Hybrid.SubRequests h) ->
    Hybrid.BuildHybridSearchOption h conf queryVector querySparseVector opts
    = Err ("failed to create sparse embedding: " +:+ msg).
Proof.
  intros E h conf qv qsv opts msg Hsize Hemb Hex.
  unfold Hybrid.BuildHybridSearchOption.
  by rewrite (annLoop_sparse_failure conf _ qv qsv _ [] msg Hsize Hemb Hex).
Qed.

(** X7. With neither a dense nor a sparse query vector, every
    sub-request is passed over and the build still succeeds: the hybrid
    request holds no request at all. *)
Theorem hybrid_without_vectors :
  forall (E : Externals) (h : Hybrid.t) (conf : RetrieverConfig.t) (opts : list Option),
    exists opt,
      Hybrid.BuildHybridSearchOption h conf [] ∅ opts = Ok opt
      /\ milvusclient.hs_reqs opt = [].
Proof.
  intros E h conf opts. unfold Hybrid.BuildHybridSearchOption.
  rewrite annLoop_nothing_supplied.
  - cbn [bind]. eexists. split; [reflexivity|].
    by destruct (0 <? Z.of_nat (length (RetrieverConfig.Partitions conf))).
  - apply List.Forall_forall. intros req _. unfold vectorNotSupplied.
    by destruct (String.eqb (SubRequest.VectorType req) SparseVector).
Qed.

(** A hybrid mode of one dense sub-request with defaults to fill in and
    a [metric_type] among its search parameters, and one sparse
    sub-request. *)
Definition hybridWithParams : Hybrid.t :=
  {| Hybrid.SubRequests :=
       [ {| SubRequest.VectorField := "";
            SubRequest.MetricType := L2;
            SubRequest.TopK := 0;
            SubRequest.SearchParams := {[ "nprobe" := "16"; "metric_type" := "IP" ]};
            SubRequest.VectorType := DenseVector |};
         {| SubRequest.VectorField := "sparse_vector";
            SubRequest.MetricType := "";
            SubRequest.TopK := 7;
            SubRequest.SearchParams := ∅;
            SubRequest.VectorType := SparseVector |} ];
     Hybrid.Reranker := Some milvusclient.RRFReranker;
     Hybrid.TopK := 0 |}.

(** The dense and sparse query vectors, and the call options, of the
    examples below. *)
Definition denseQuery : list float32 := [float32_of_float64 0.1%float].
Definition sparseQuery : gmap Z float64 := {[ 1 := 0.5%float; 2 := 0.8%float ]}.
Definition filterAndGrouping : list Option :=
  [WithFilter "id > 10"; WithGrouping "category" 3 true].

(** Both sub-requests are built: the dense one on the configured field
    ["vector"] with the limit 10, the sparse one on its own field with
    the limit 7. *)
Lemma hybrid_request_targets_witness :
  exists opt,
    @Hybrid.BuildHybridSearchOption Fixtures.fixtureExternals hybridWithParams
      (Fixtures.testConfig None) denseQuery sparseQuery filterAndGrouping = Ok opt
    /\ map (fun a => (milvusclient.ann_field a, milvusclient.ann_limit a))
         (milvusclient.hs_reqs opt) = [("vector", 10); ("sparse_vector", 7)]
    /\ Forall2
         (fun req annReq =>
            milvusclient.ann_field annReq
            = (if String.eqb (SubRequest.VectorField req) ""
               then RetrieverConfig.VectorField (Fixtures.testConfig None)
               else SubRequest.VectorField req)
            /\ milvusclient.ann_limit annReq
               = (if SubRequest.TopK req <=? 0 then 10 else SubRequest.TopK req)
            /\ exists v, milvusclient.ann_vectors annReq = [v]
                         /\ @requestVector Fixtures.fixtureExternals
                              denseQuery sparseQuery req v)
         (List.filter
            (fun req => negb (vectorNotSupplied denseQuery sparseQuery req))
            (Hybrid.SubRequests hybridWithParams))
         (milvusclient.hs_reqs opt).
Proof.
  eexists. split; [vm_compute; reflexivity|]. split; [reflexivity|].
  apply (hybrid_request_targets Fixtures.fixtureExternals hybridWithParams
           (Fixtures.testConfig None) denseQuery sparseQuery filterAndGrouping).
  vm_compute. reflexivity.
Defined.

(** The dense request searches with [nprobe] 16 and the metric type L2
    of the sub-request, not the IP of its search parameters; both
    requests carry the filter and the grouping of the call. *)
Lemma hybrid_request_parameters_witness :
  exists opt,
    @Hybrid.BuildHybridSearchOption Fixtures.fixtureExternals hybridWithParams
      (Fixtures.testConfig None) denseQuery sparseQuery filterAndGrouping = Ok opt
    /\ map (fun a => (milvusclient.ann_searchParam a !! "metric_type",
                      milvusclient.ann_searchParam a !! "nprobe",
                      milvusclient.ann_filter a,
                      milvusclient.ann_groupByField a))
         (milvusclient.hs_reqs opt)
       = [ (Some "L2", Some "16", "id > 10", "category");
           (None, None, "id > 10", "category") ]
    /\ let io := retriever.GetImplSpecificOptions emptyImplOptions filterAndGrouping in
       Forall2
         (fun req annReq =>
            (forall k,
               milvusclient.ann_searchParam annReq !! k
               = if String.eqb k "metric_type"
                    && negb (String.eqb (SubRequest.MetricType req) "")
                 then Some (SubRequest.MetricType req)
                 else SubRequest.SearchParams req !! k)
            /\ milvusclient.ann_filter annReq = Filter io
            /\ (milvusclient.ann_groupByField annReq,
                milvusclient.ann_groupSize annReq,
                milvusclient.ann_strictGroupSize annReq)
               = match Grouping io with
                 | Some g => (GroupByField g, GroupSize g, StrictGroupSize g)
                 | None => ("", 0, false)
                 end)
         (List.filter
            (fun req => negb (vectorNotSupplied denseQuery sparseQuery req))
            (Hybrid.SubRequests hybridWithParams))
         (milvusclient.hs_reqs opt).
Proof.
  eexists. split; [vm_compute; reflexivity|]. split; [vm_compute; reflexivity|].
  apply (hybrid_request_parameters Fixtures.fixtureExternals hybridWithParams
           (Fixtures.testConfig None) denseQuery sparseQuery filterAndGrouping).
  vm_compute. reflexivity.
Defined.

Lemma hybrid_request_header_witness :
  exists opt,
    @Hybrid.BuildHybridSearchOption Fixtures.fixtureExternals hybridWithParams
      (Fixtures.testConfig None) denseQuery sparseQuery filterAndGrouping = Ok opt
    /\ milvusclient.hs_collection opt = "test_collection"
    /\ milvusclient.hs_reranker opt = Some milvusclient.RRFReranker
    /\ milvusclient.hs_outputFields opt = ["id"; "content"]
    /\ milvusclient.hs_partitions opt = [].
Proof.
  eexists. split; [vm_compute; reflexivity|].
  apply (hybrid_request_header Fixtures.fixtureExternals hybridWithParams
           (Fixtures.testConfig None) denseQuery sparseQuery filterAndGrouping).
  vm_compute. reflexivity.
Defined.

(** Externals whose constructor of sparse embeddings rejects the
    position [2^32 - 1], the image of the index [-1]. *)
Definition strictSparseExternals : Externals :=
  {| Sprintf_v := @Sprintf_v Fixtures.fixtureExternals;
     Unmarshal := @Unmarshal Fixtures.fixtureExternals;
     NewSliceSparseEmbedding := fun ps vs =>
       if existsb (Z.eqb (2 ^ 32 - 1)) ps
       then Err "position MaxUint32 is not allowed"
       else @NewSliceSparseEmbedding Fixtures.fixtureExternals ps vs |}.

(** A sparse query vector with a weight at the index [-1] makes the
    build fail, although the dense sub-request could be built. *)
Lemma hybrid_sparse_construction_failure_witness :
  size ({[ (-1) := 0.5%float ]} : gmap Z float64) <> 0%nat
  /\ @Hybrid.BuildHybridSearchOption strictSparseExternals hybridWithParams
       (Fixtures.testConfig None) denseQuery {[ (-1) := 0.5%float ]} []
     = Err "failed to create sparse embedding: position MaxUint32 is not allowed".
Proof.
  split; [vm_compute; discriminate|].
  apply (hybrid_sparse_construction_failure strictSparseExternals hybridWithParams
           (Fixtures.testConfig None) denseQuery {[ (-1) := 0.5%float ]} []
           "position MaxUint32 is not allowed").
  - vm_compute. discriminate.
  - vm_compute. reflexivity.
  - apply Exists_cons_tl, Exists_cons_hd. reflexivity.
Defined.

(** ** The default converter: which field writes what *)

(** The field [field] leaves the metadata key [k] of row [i] alone: it
    is not a column of that name, and if it is the metadata column its
    JSON blob at the row has no such key. *)
Definition keepsKey `{Externals} (i : nat) (k : string) (field : Column) : Prop :=
  Name field <> k
  /\ (Name field = defaultMetadataField ->
      forall b m, Get field i = (ABytes b, None) -> Unmarshal b = Ok m -> m !! k = None).

Section DefaultConverter.
Context `{Externals}.

Lemma convertField_keeps (i : nat) (k : string) (doc : Document) (field : Column) :
  keepsKey i k field ->
  MetaData (convertField i doc field) !! k = MetaData doc !! k.
Proof.
  intros (Hname & Hmeta). unfold convertField.
  destruct (Get field i) as [val [err|]] eqn:Hget; [done|].
  destruct (String.eqb (Name field) "id").
  { destruct val; try done; by destruct (GetAsString field i). }
  destruct (String.eqb (Name field) defaultContentField).
  { destruct val; try done; by destruct (GetAsString field i). }
  destruct (String.eqb_spec (Name field) defaultMetadataField) as [Hm|_].
  - destruct val; try done.
    destruct (Unmarshal b) as [m|msg] eqn:Hdec; [|done]. simpl.
    rewrite mergeInto_lookup. by rewrite (Hmeta Hm b m eq_refl Hdec).
  - simpl. by rewrite lookup_insert_ne.
Qed.

Lemma fold_convertField_keeps (i : nat) (k : string) (fields : list Column)
    (doc : Document) :
  Forall (keepsKey i k) fields ->
  MetaData (fold_left (convertField i) fields doc) !! k = MetaData doc !! k.
Proof.
  revert doc. induction fields as [|field fields IH]; intros doc Hall; [done|].
  apply Forall_cons in Hall as (Hfield & Hrest). simpl.
  rewrite IH by done. by apply convertField_keeps.
Qed.

Lemma convertRow_split (resultSet : ResultSet) (i : nat)
    (pre post : list Column) (col : Column) :
  Fields resultSet = pre ++ col :: post ->
  exists doc,
    convertRow resultSet i = fold_left (convertField i) post (convertField i doc col).
Proof.
  intros Hfields. unfold convertRow. rewrite Hfields, fold_left_app. simpl.
  eexists. reflexivity.
Qed.

Lemma convertField_id (i : nat) (doc : Document) (field : Column) :
  Name field <> "id" -> ID (convertField i doc field) = ID doc.
Proof.
  intros Hname. unfold convertField.
  destruct (Get field i) as [val [err|]]; [done|].
  destruct (String.eqb_spec (Name field) "id") as [?|_]; [done|].
  destruct (String.eqb (Name field) defaultContentField).
  { destruct val; try done; by destruct (GetAsString field i). }
  destruct (String.eqb (Name field) defaultMetadataField); [|done].
  destruct val; try done. by destruct (Unmarshal b).
Qed.

Lemma convertField_content (i : nat) (doc : Document) (field : Column) :
  Name field <> defaultContentField -> Content (convertField i doc field) = Content doc.
Proof.
  intros Hname. unfold convertField.
  destruct (Get field i) as [val [err|]]; [done|].
  destruct (String.eqb (Name field) "id").
  { destruct val; try done; by destruct (GetAsString field i). }
  destruct (String.eqb_spec (Name field) defaultContentField) as [?|_]; [done|].
  destruct (String.eqb (Name field) defaultMetadataField); [|done].
  destruct val; try done. by destruct (Unmarshal b).
Qed.

Lemma fold_convertField_id (i : nat) (fields : list Column) (doc : Document) :
  Forall (fun field => Name field <> "id") fields ->
  ID (fold_left (convertField i) fields doc) = ID doc.
Proof.
  revert doc. induction fields as [|field fields IH]; intros doc Hall; [done|].
  apply Forall_cons in Hall as (Hfield & Hrest). simpl.
  rewrite IH by done. by apply convertField_id.
Qed.

Lemma fold_convertField_content (i : nat) (fields : list Column) (doc : Document) :
  Forall (fun field => Name field <> defaultContentField) fields ->
  Content (fold_left (convertField i) fields doc) = Content doc.
Proof.
  revert doc. induction fields as [|field fields IH]; intros doc Hall; [done|].
  apply Forall_cons in Hall as (Hfield & Hrest). simpl.
  rewrite IH by done. by apply convertField_content.
Qed.

End DefaultConverter.

(** X8. In the default converter, when no field of the result set
    writes the keys ["score"] and ["_score"] at a row (no column of
    these names, no such key in the JSON metadata of the row), the
    document of the row carries the engine's score of the row, widened
    to double precision, under both keys, and carries neither key when
    the result set has no score for the row; the score filter then
    keeps the document exactly when that score is at least the
    threshold. *)
Theorem default_converter_score :
  forall (E : Externals) (resultSet : ResultSet) (i : nat) (t : float64),
    Forall (keepsKey i "score") (Fields resultSet) ->
    Forall (keepsKey i docMetaDataKeyScore) (Fields resultSet) ->
    let score := float64_of_float32 <$> nth_error (Scores resultSet) i in
    MetaData (convertRow resultSet i) !! "score" = AFloat64 <$> score
    /\ MetaData (convertRow resultSet i) !! docMetaDataKeyScore = AFloat64 <$> score
    /\ passesThreshold t (convertRow resultSet i)
       = match score with
         | Some s => PrimFloat.leb t s
         | None => false
         end.
Proof.
  intros E resultSet i t Hscore Hfirst score.
  assert (Hs : MetaData (convertRow resultSet i) !! "score" = AFloat64 <$> score).
  { unfold convertRow. rewrite fold_convertField_keeps by done.
    subst score. destruct (nth_error (Scores resultSet) i); simpl; [|done].
    by rewrite lookup_insert_ne, lookup_insert_eq. }
  split; [exact Hs|]. split.
  - unfold convertRow. rewrite fold_convertField_keeps by done.
    subst score. destruct (nth_error (Scores resultSet) i); simpl; [|done].
    by rewrite lookup_insert_eq.
  - unfold passesThreshold. rewrite Hs. by destruct score.
Qed.

(** X9. In the default converter the fields are applied in order, and
    a key of the JSON metadata of a row replaces what came under that
    key before (the engine's score under ["score"], an earlier dynamic
    column): the document has the JSON value, unless a later field
    writes the key again. *)
Theorem default_converter_metadata_wins :
  forall (E : Externals) (resultSet : ResultSet) (i : nat)
         (pre post : list Column) (col : Column)
         (b : list Byte.byte) (m : gmap string any) (k : string) (v : any),
    Fields resultSet = pre ++ col :: post ->
    Name col = defaultMetadataField ->
    Get col i = (ABytes b, None) ->
    Unmarshal b = Ok m ->
    m !! k = Some v ->
    Forall (keepsKey i k) post ->
    MetaData (convertRow resultSet i) !! k = Some v.
Proof.
  intros E resultSet i pre post col b m k v Hfields Hname Hget Hdec Hk Hpost.
  destruct (convertRow_split resultSet i pre post col Hfields) as (doc & ->).
  rewrite fold_convertField_keeps by done.
  unfold convertField. rewrite Hget, Hname. simpl. rewrite Hdec. simpl.
  by rewrite mergeInto_lookup, Hk.
Qed.

(** X10. In the default converter a column that is none of the id,
    content and metadata columns becomes the metadata entry of its name,
    with the value of the row as it is, replacing what came under that
    name before, unless a later field writes the key again. *)
Theorem default_converter_dynamic_column :
  forall (E : Externals) (resultSet : ResultSet) (i : nat)
         (pre post : list Column) (col : Column) (v : any),
    Fields resultSet = pre ++ col :: post ->
    Name col <> "id" ->
    Name col <> defaultContentField ->
    Name col <> defaultMetadataField ->
    Get col i = (v, None) ->
    Forall (keepsKey i (Name col)) post ->
    MetaData (convertRow resultSet i) !! Name col = Some v.
Proof.
  intros E resultSet i pre post col v Hfields Hid Hcontent Hmeta Hget Hpost.
  destruct (convertRow_split resultSet i pre post col Hfields) as (doc & ->).
  rewrite fold_convertField_keeps by done.
  unfold convertField. rewrite Hget.
  destruct (String.eqb_spec (Name col) "id") as [?|_]; [done|].
  destruct (String.eqb_spec (Name col) defaultContentField) as [?|_]; [done|].
  destruct (String.eqb_spec (Name col) defaultMetadataField) as [?|_]; [done|].
  simpl. by rewrite lookup_insert_eq.
Qed.

(** X11. In the default converter the ID of a document is the empty
    string when the result set has no id column, and the value at the
    row of the last id column when that value is a string; likewise the
    content, for the content column. *)
Theorem default_converter_id_content :
  forall (E : Externals) (resultSet : ResultSet) (i : nat),
    (Forall (fun field => Name field <> "id") (Fields resultSet) ->
     ID (convertRow resultSet i) = "")
    /\ (Forall (fun field => Name field <> defaultContentField) (Fields resultSet) ->
        Content (convertRow resultSet i) = "")
    /\ (forall pre post col s,
          Fields resultSet = pre ++ col :: post ->
          Name col = "id" ->
          Get col i = (AString s, None) ->
          Forall (fun field => Name field <> "id") post ->
          ID (convertRow resultSet i) = s)
    /\ (forall pre post col s,
          Fields resultSet = pre ++ col :: post ->
          Name col = defaultContentField ->
          Get col i = (AString s, None) ->
          Forall (fun field => Name field <> defaultContentField) post ->
          Content (convertRow resultSet i) = s).
Proof.
  intros E resultSet i. split; [|split; [|split]].
  - intros Hall. unfold convertRow. rewrite fold_convertField_id by done.
    by destruct (nth_error (Scores resultSet) i).
  - intros Hall. unfold convertRow. rewrite fold_convertField_content by done.
    by destruct (nth_error (Scores resultSet) i).
  - intros pre post col s Hfields Hname Hget Hpost.
    destruct (convertRow_split resultSet i pre post col Hfields) as (doc & ->).
    rewrite fold_convertField_id by done.
    unfold convertField. by rewrite Hget, Hname.
  - intros pre post col s Hfields Hname Hget Hpost.
    destruct (convertRow_split resultSet i pre post col Hfields) as (doc & ->).
    rewrite fold_convertField_content by done.
    unfold convertField. by rewrite Hget, Hname.
Qed.

(** Result sets of one row: with a score of 0.9 and empty JSON
    metadata; with a score of 0.8 and a JSON metadata that has its own
    ["score"]; with a dynamic column ["category"]. *)
Definition scoredResult : ResultSet :=
  Fixtures.createMockResultSet ["1"] ["doc1"] [float32_of_float64 0.9%float]
    [Fixtures.emptyObject].

Definition rescoredResult : ResultSet :=
  Fixtures.createMockResultSet ["2"] ["doc2"] [float32_of_float64 0.8%float]
    [Fixtures.scoreObject].

Definition categoryResult : ResultSet :=
  {| ResultCount := 1;
     Scores := [];
     Fields := [ Fixtures.NewColumnVarChar "id" ["3"];
                 Fixtures.NewColumnVarChar "category" ["A"] ] |}.

Lemma default_converter_score_witness :
  let score := Some (float64_of_float32 (float32_of_float64 0.9%float)) in
  Forall (@keepsKey Fixtures.fixtureExternals 0 "score") (Fields scoredResult)
  /\ MetaData (@convertRow Fixtures.fixtureExternals scoredResult 0) !! "score"
     = AFloat64 <$> score
  /\ MetaData (@convertRow Fixtures.fixtureExternals scoredResult 0) !! docMetaDataKeyScore
     = AFloat64 <$> score
  /\ passesThreshold 0.6%float (@convertRow Fixtures.fixtureExternals scoredResult 0)
     = true.
Proof.
  assert (Hkeeps : forall k, k <> "id" -> k <> "content" -> k <> "metadata" ->
            Forall (@keepsKey Fixtures.fixtureExternals 0 k) (Fields scoredResult)).
  { intros k Hid Hcontent Hmeta.
    repeat constructor; try (intros Hname; by symmetry in Hname);
      try (cbn; discriminate).
    cbn. intros _ b m [= <-]. cbn. intros [= <-]. apply lookup_empty. }
  intros score. split; [by apply Hkeeps|].
  apply (default_converter_score Fixtures.fixtureExternals scoredResult 0 0.6%float);
    by apply Hkeeps.
Defined.

(** The JSON metadata of the row has the score 0.9: the document has
    it under ["score"], in place of the engine's 0.8. *)
Lemma default_converter_metadata_wins_witness :
  nth_error (Scores rescoredResult) 0 = Some (float32_of_float64 0.8%float)
  /\ MetaData (@convertRow Fixtures.fixtureExternals rescoredResult 0) !! "score"
     = Some (AFloat64 0.9%float).
Proof.
  split; [reflexivity|].
  apply (default_converter_metadata_wins Fixtures.fixtureExternals rescoredResult 0
           [Fixtures.NewColumnVarChar "id" ["2"];
            Fixtures.NewColumnVarChar "content" ["doc2"]]
           []
           (Fixtures.NewColumnJSONBytes "metadata" [Fixtures.scoreObject])
           Fixtures.scoreObject {[ "score" := AFloat64 0.9%float ]}
           "score" (AFloat64 0.9%float)).
  - reflexivity.
  - reflexivity.
  - reflexivity.
  - vm_compute. reflexivity.
  - vm_compute. reflexivity.
  - constructor.
Defined.

Lemma default_converter_dynamic_column_witness :
  MetaData (@convertRow Fixtures.fixtureExternals categoryResult 0) !! "category"
  = Some (AString "A").
Proof.
  apply (default_converter_dynamic_column Fixtures.fixtureExternals categoryResult 0
           [Fixtures.NewColumnVarChar "id" ["3"]] []
           (Fixtures.NewColumnVarChar "category" ["A"]) (AString "A"));
    try reflexivity; try discriminate.
  constructor.
Defined.

Lemma default_converter_id_content_witness :
  ID (@convertRow Fixtures.fixtureExternals categoryResult 0) = "3"
  /\ Content (@convertRow Fixtures.fixtureExternals categoryResult 0) = "".
Proof.
  destruct (default_converter_id_content Fixtures.fixtureExternals categoryResult 0)
    as (_ & Hnone & Hid & _).
  split.
  - apply (Hid [] [Fixtures.NewColumnVarChar "category" ["A"]]
             (Fixtures.NewColumnVarChar "id" ["3"]) "3"); try reflexivity.
    repeat constructor. discriminate.
  - apply Hnone. repeat constructor; discriminate.
Defined.

(** ** Approximate mode ([search_mode/approximate.go]) *)

Module SearchOptions.

(** The builder of the one-shot search request.  The grouping of the
    request (field, size, strictness) is kept as one record, absent
    until a group-by field is set. *)
Definition NewSearchOption (collectionName : string) (limit : Z)
    (vectors : list Vector) : milvusclient.searchOption :=
  {| milvusclient.so_collection := collectionName;
     milvusclient.so_limit := limit;
     milvusclient.so_vectors := vectors;
     milvusclient.so_annsField := "";
     milvusclient.so_outputFields := [];
     milvusclient.so_partitions := [];
     milvusclient.so_filter := "";
     milvusclient.so_grouping := None |}.

Definition WithANNSField (annsField : string) (o : milvusclient.searchOption)
  : milvusclient.searchOption :=
  {| milvusclient.so_collection := milvusclient.so_collection o;
     milvusclient.so_limit := milvusclient.so_limit o;
     milvusclient.so_vectors := milvusclient.so_vectors o;
     milvusclient.so_annsField := annsField;
     milvusclient.so_outputFields := milvusclient.so_outputFields o;
     milvusclient.so_partitions := milvusclient.so_partitions o;
     milvusclient.so_filter := milvusclient.so_filter o;
     milvusclient.so_grouping := milvusclient.so_grouping o |}.

Definition WithOutputFields (fs : list string) (o : milvusclient.searchOption)
  : milvusclient.searchOption :=
  {| milvusclient.so_collection := milvusclient.so_collection o;
     milvusclient.so_limit := milvusclient.so_limit o;
     milvusclient.so_vectors := milvusclient.so_vectors o;
     milvusclient.so_annsField := milvusclient.so_annsField o;
     milvusclient.so_outputFields := fs;
     milvusclient.so_partitions := milvusclient.so_partitions o;
     milvusclient.so_filter := milvusclient.so_filter o;
     milvusclient.so_grouping := milvusclient.so_grouping o |}.

Definition WithPartitions (ps : list string) (o : milvusclient.searchOption)
  : milvusclient.searchOption :=
  {| milvusclient.so_collection := milvusclient.so_collection o;
     milvusclient.so_limit := milvusclient.so_limit o;
     milvusclient.so_vectors := milvusclient.so_vectors o;
     milvusclient.so_annsField := milvusclient.so_annsField o;
     milvusclient.so_outputFields := milvusclient.so_outputFields o;
     milvusclient.so_partitions := ps;
     milvusclient.so_filter := milvusclient.so_filter o;
     milvusclient.so_grouping := milvusclient.so_grouping o |}.

Definition WithFilter (expr : string) (o : milvusclient.searchOption)
  : milvusclient.searchOption :=
  {| milvusclient.so_collection := milvusclient.so_collection o;
     milvusclient.so_limit := milvusclient.so_limit o;
     milvusclient.so_vectors := milvusclient.so_vectors o;
     milvusclient.so_annsField := milvusclient.so_annsField o;
     milvusclient.so_outputFields := milvusclient.so_outputFields o;
     milvusclient.so_partitions := milvusclient.so_partitions o;
     milvusclient.so_filter := expr;
     milvusclient.so_grouping := milvusclient.so_grouping o |}.

Definition groupingOf (o : milvusclient.searchOption) : GroupingConfig :=
  default {| GroupByField := ""; GroupSize := 0; StrictGroupSize := false |}
    (milvusclient.so_grouping o).

Definition withGrouping (g : GroupingConfig) (o : milvusclient.searchOption)
  : milvusclient.searchOption :=
  {| milvusclient.so_collection := milvusclient.so_collection o;
     milvusclient.so_limit := milvusclient.so_limit o;
     milvusclient.so_vectors := milvusclient.so_vectors o;
     milvusclient.so_annsField := milvusclient.so_annsField o;
     milvusclient.so_outputFields := milvusclient.so_outputFields o;
     milvusclient.so_partitions := milvusclient.so_partitions o;
     milvusclient.so_filter := milvusclient.so_filter o;
     milvusclient.so_grouping := Some g |}.

Definition WithGroupByField (f : string) (o : milvusclient.searchOption)
  : milvusclient.searchOption :=
  withGrouping {| GroupByField := f;
                  GroupSize := GroupSize (groupingOf o);
                  StrictGroupSize := StrictGroupSize (groupingOf o) |} o.

Definition WithGroupSize (n : Z) (o : milvusclient.searchOption)
  : milvusclient.searchOption :=
  withGrouping {| GroupByField := GroupByField (groupingOf o);
                  GroupSize := n;
                  StrictGroupSize := StrictGroupSize (groupingOf o) |} o.

Definition WithStrictGroupSize (b : bool) (o : milvusclient.searchOption)
  : milvusclient.searchOption :=
  withGrouping {| GroupByField := GroupByField (groupingOf o);
                  GroupSize := GroupSize (groupingOf o);
                  StrictGroupSize := b |} o.

End SearchOptions.

Module Approximate.

Record t : Type := {
  MetricType : MetricType
}.

Definition NewApproximate (metricType : string) : t :=
  let metricType := if String.eqb metricType "" then L2 else metricType in
  {| MetricType := metricType |}.

Definition BuildSearchOption (a : t) (conf : RetrieverConfig.t)
    (queryVector : list float32) (opts : list Option)
  : result milvusclient.SearchOption :=
  let io := retriever.GetImplSpecificOptions emptyImplOptions opts in
  let co := retriever.GetCommonOptions
              {| retriever.Index := None; retriever.SubIndex := None;
                 retriever.TopK := Some (RetrieverConfig.TopK conf);
                 retriever.ScoreThreshold := None;
                 retriever.Embedding := None |} opts in
  let searchOpt :=
    SearchOptions.WithOutputFields (RetrieverConfig.OutputFields conf)
      (SearchOptions.WithANNSField (RetrieverConfig.VectorField conf)
         (SearchOptions.NewSearchOption (RetrieverConfig.Collection conf)
            (RetrieverConfig.TopK conf) [FloatVector queryVector])) in
  let searchOpt :=
    match retriever.TopK co with
    | Some k =>
        if negb (k =? RetrieverConfig.TopK conf) then
          SearchOptions.WithOutputFields (RetrieverConfig.OutputFields conf)
            (SearchOptions.WithANNSField (RetrieverConfig.VectorField conf)
               (SearchOptions.NewSearchOption (RetrieverConfig.Collection conf)
                  k [FloatVector queryVector]))
        else searchOpt
    | None => searchOpt
    end in
  let searchOpt :=
    if 0 <? Z.of_nat (length (RetrieverConfig.Partitions conf))
    then SearchOptions.WithPartitions (RetrieverConfig.Partitions conf) searchOpt
    else searchOpt in
  let searchOpt :=
    if negb (String.eqb (Filter io) "")
    then SearchOptions.WithFilter (Filter io) searchOpt
    else searchOpt in
  let searchOpt :=
    match Grouping io with
    | Some g =>
        let searchOpt :=
          SearchOptions.WithGroupSize (GroupSize g)
            (SearchOptions.WithGroupByField (GroupByField g) searchOpt) in
        if StrictGroupSize g
        then SearchOptions.WithStrictGroupSize true searchOpt
        else searchOpt
    | None => searchOpt
    end in
  Ok (Some searchOpt).

Definition mode (a : t) : SearchMode.t :=
  {| SearchMode.BuildSearchOption := BuildSearchOption a;
     SearchMode.BuildQueryOption := None;
     SearchMode.BuildHybridSearchOption := None;
     SearchMode.BuildSearchIteratorOption := None |}.

End Approximate.

(** X12. The search request of Approximate mode is always built, also
    for an empty query vector: on the configured collection, vector
    field, output fields and partitions, with the one query vector,
    limited to the call option's top-K when one is supplied and to the
    configuration's otherwise, with the filter and the grouping of the
    call options; the metric type of the mode is not part of it. *)
Theorem approximate_request :
  forall (a : Approximate.t) (conf : RetrieverConfig.t)
         (queryVector : list float32) (opts : list Option),
    let io := retriever.GetImplSpecificOptions emptyImplOptions opts in
    exists o,
      Approximate.BuildSearchOption a conf queryVector opts = Ok (Some o)
      /\ milvusclient.so_collection o = RetrieverConfig.Collection conf
      /\ milvusclient.so_limit o
         = default (RetrieverConfig.TopK conf) (callTopK opts)
      /\ milvusclient.so_vectors o = [FloatVector queryVector]
      /\ milvusclient.so_annsField o = RetrieverConfig.VectorField conf
      /\ milvusclient.so_outputFields o = RetrieverConfig.OutputFields conf
      /\ milvusclient.so_partitions o = RetrieverConfig.Partitions conf
      /\ milvusclient.so_filter o = Filter io
      /\ milvusclient.so_grouping o = Grouping io.
Proof.
  intros a conf qv opts io. eexists. split; [reflexivity|].
  cbn zeta. fold io. rewrite TopK_GetCommonOptions. cbn [retriever.TopK].
  rewrite fold_TopK_default. cbn [default].
  destruct (callTopK opts) as [k|]; cbn [default from_option id];
    [destruct (Z.eqb_spec k (RetrieverConfig.TopK conf)) as [Hk|Hk]|];
    rewrite ?Z.eqb_refl; cbn [negb];
    destruct (0 <? Z.of_nat (length (RetrieverConfig.Partitions conf))) eqn:Hp;
    try (apply length_zero_nil in Hp);
    destruct (String.eqb_spec (Filter io) "") as [Hf|Hf]; cbn [negb];
    destruct (Grouping io) as [[f n [|]]|]; simpl;
    repeat split; congruence.
Qed.

(** ** The converter of the query path: how many documents, and their
    metadata *)

Lemma mergeInto_empty (m : gmap string any) : mergeInto m ∅ = m.
Proof.
  apply map_eq. intros k. rewrite mergeInto_lookup, lookup_empty.
  by destruct (m !! k).
Qed.

Section QueryConverter.
Context `{Externals}.


Lemma length_filter_le {A} (f : A -> bool) (l : list A) :
  (length (List.filter f l) <= length l)%nat.
Proof.
  induction l as [|x l IH]; simpl; [lia|]. destruct (f x); simpl; lia.
Qed.

End QueryConverter.


(** X14. The metadata of a document of the query path is exactly the
    map decoded from the JSON metadata of its row; it is empty when the
    row has no metadata value, when the value is not a byte string, and
    when the JSON does not decode, which is no error. *)
Theorem query_converter_metadata :
  forall (E : Externals) (resultSet : ResultSet) (docs : list Document),
    queryResultSetToDocuments resultSet = Ok docs ->
    Forall
      (fun d =>
         exists i idVal,
           (i < Z.to_nat (ResultCount resultSet))%nat
           /\ getField resultSet defaultIDField i = (idVal, true)
           /\ ID d = Sprintf_v idVal
           /\ MetaData d
              = match getField resultSet defaultMetadataField i with
                | (ABytes b, true) =>
                    match Unmarshal b with
                    | Ok m => m
                    | Err _ => ∅
                    end
                | _ => ∅
                end)
      docs.
Proof.
  intros E resultSet docs. rewrite queryResultSetToDocuments_rows. intros [= <-].
  apply List.Forall_forall. intros d Hd.
  apply in_flat_map in Hd as (i & Hi & Hd).
  unfold rows in Hi. apply in_seq in Hi.
  unfold queryRowDocs in Hd.
  destruct (getField resultSet defaultIDField i) as [idVal [|]] eqn:Hid; [|done].
  destruct Hd as [<-|[]]. exists i, idVal.
  split; [lia|]. split; [done|]. split; [done|]. simpl.
  unfold queryRowMeta.
  destruct (getField resultSet defaultMetadataField i) as [[] [|]]; try done.
  destruct (Unmarshal b); [apply mergeInto_empty|done].
Qed.

(** The rows ["1"] and ["2"] with an empty and a one-key JSON
    metadata. *)
Lemma query_converter_metadata_witness :
  exists docs,
    @queryResultSetToDocuments Fixtures.fixtureExternals
      (Fixtures.createMockQueryResult ["1"; "2"] ["doc1"; "doc2"]
         [Fixtures.emptyObject; Fixtures.scoreObject]) = Ok docs
    /\ map (fun d => (ID d, MetaData d)) docs
       = [("1", ∅); ("2", {[ "score" := AFloat64 0.9%float ]})]
    /\ Forall
         (fun d =>
            exists i idVal,
              (i < 2)%nat
              /\ @getField
                   (Fixtures.createMockQueryResult ["1"; "2"] ["doc1"; "doc2"]
                      [Fixtures.emptyObject; Fixtures.scoreObject])
                   defaultIDField i = (idVal, true)
              /\ ID d = @Sprintf_v Fixtures.fixtureExternals idVal
              /\ MetaData d
                 = match @getField
                           (Fixtures.createMockQueryResult ["1"; "2"] ["doc1"; "doc2"]
                              [Fixtures.emptyObject; Fixtures.scoreObject])
                           defaultMetadataField i with
                   | (ABytes b, true) =>
                       match @Unmarshal Fixtures.fixtureExternals b with
                       | Ok m => m
                       | Err _ => ∅
                       end
                   | _ => ∅
                   end)
         docs.
Proof.
  eexists. split; [vm_compute; reflexivity|]. split; [vm_compute; reflexivity|].
  apply (query_converter_metadata Fixtures.fixtureExternals
           (Fixtures.createMockQueryResult ["1"; "2"] ["doc1"; "doc2"]
              [Fixtures.emptyObject; Fixtures.scoreObject])).
  vm_compute. reflexivity.
Defined.

(** ** Sparse embedding of the query *)

(** X15. [embedSparseQuery] fails exactly when no sparse embedder is
    given, or the provider fails, or the provider does not return
    exactly one sparse vector for the one text; otherwise it returns
    that sparse vector as it is. *)
Theorem embedSparseQuery_contract :
  forall (emb : option SparseEmbedder) (query : string),
    (isErr (embedSparseQuery emb query) = true <->
       emb = None
       \/ exists e, emb = Some e
                    /\ (isErr (e [query]) = true
                        \/ exists vectors, e [query] = Ok vectors
                                           /\ length vectors <> 1%nat))
    /\ (forall e v, emb = Some e -> e [query] = Ok [v] ->
          embedSparseQuery emb query = Ok v).
Proof.
  intros emb query. split; [split|].
  - destruct emb as [e|]; [|by left]. intros Herr. right. exists e.
    split; [done|]. simpl in Herr.
    destruct (e [query]) as [vectors|msg]; [|by left]. right.
    exists vectors. split; [done|]. simpl in Herr.
    destruct (Nat.eqb_spec (length vectors) 1) as [Heq|Hne]; [|done].
    discriminate.
  - intros [->|(e & -> & [Herr|(vectors & Hv & Hlen)])]; simpl.
    + done.
    + by destruct (e [query]).
    + rewrite Hv. simpl.
      by destruct (Nat.eqb_spec (length vectors) 1).
  - intros e v -> Hv. simpl. by rewrite Hv.
Qed.

(** [mockSparseEmbedder] of the tests. *)
Definition mockSparseEmbedder (vectors : list (gmap Z float64)) : SparseEmbedder :=
  fun texts =>
    if negb (Nat.eqb (length texts) 1)
    then Err ("expected 1 text, got " +:+ pretty (length texts))
    else Ok vectors.

Lemma embedSparseQuery_contract_witness :
  embedSparseQuery (Some (mockSparseEmbedder [sparseQuery])) "test query"
  = Ok sparseQuery.
Proof.
  apply (proj2 (embedSparseQuery_contract
                  (Some (mockSparseEmbedder [sparseQuery])) "test query")
           (mockSparseEmbedder [sparseQuery]) sparseQuery); reflexivity.
Defined.

(** ** Iterator mode: failures *)

(** The loop after a prefix of batches that are not empty and are
    converted. *)
Lemma iteratorLoop_prefix (converter : ResultSet -> result (list Document))
    (iterator : milvusclient.SearchIterator) (batches : list ResultSet) :
  forall (docs : list (list Document)) (fuel calls : nat) (allDocs : list Document),
    Forall2 (fun res batchDocs =>
               ResultCount res <> 0 /\ converter res = Ok batchDocs) batches docs ->
    (forall k res, batches !! k = Some res -> iterator (calls + k)%nat = Ok res) ->
    iteratorLoop (length batches + fuel) converter iterator calls allDocs
    = iteratorLoop fuel converter iterator (calls + length batches)
        (allDocs ++ concat docs).
Proof.
  induction batches as [|res batches IH];
    intros docs fuel calls allDocs Hall Hnext.
  - apply Forall2_nil_inv_l in Hall as ->. simpl.
    by rewrite Nat.add_0_r, app_nil_r.
  - apply Forall2_cons_inv_l in Hall as (batchDocs & docs' & (Hcount & Hconv) & Hall & ->).
    simpl.
    pose proof (Hnext 0%nat res eq_refl) as Hres.
    rewrite Nat.add_0_r in Hres. rewrite Hres.
    destruct (Z.eqb_spec (ResultCount res) 0) as [?|_]; [done|].
    rewrite Hconv.
    rewrite (IH docs' fuel (S calls) (allDocs ++ batchDocs)).
    + by rewrite Nat.add_succ_r, <- app_assoc.
    + done.
    + intros k res' Hk. specialize (Hnext (S k) res' Hk).
      by rewrite Nat.add_succ_r in Hnext.
Qed.

(** X16. In Iterator mode an error of [Next] other than [EOF] fails
    the whole retrieval, under the prefix of the loop: the documents of
    the batches received before it are not returned. *)
Theorem retrieveIterator_next_error :
  forall (fuel : nat) (r : Retriever)
         (mode : RetrieverConfig.t -> list float32 -> list Option
                 -> result milvusclient.searchIteratorOption)
         (co : retriever.Options) (query : string) (opts : list Option)
         (queryVector : list float32) (iterOpt : milvusclient.searchIteratorOption)
         (iterator : milvusclient.SearchIterator)
         (batches : list ResultSet) (docs : list (list Document)) (msg : string),
    embedQuery (retriever.Embedding co) query = Ok queryVector ->
    mode (config r) queryVector opts = Ok iterOpt ->
    Client.SearchIterator (client r) iterOpt = Ok iterator ->
    Forall2 (fun res batchDocs =>
               ResultCount res <> 0
               /\ RetrieverConfig.DocumentConverter (config r) res = Ok batchDocs)
      batches docs ->
    (forall k res, batches !! k = Some res -> iterator k = Ok res) ->
    iterator (length batches) = Err msg ->
    msg <> "EOF" ->
    (length batches < fuel)%nat ->
    retrieveIterator fuel r mode co query opts
    = Some (Err ("[Retriever] iterator next failed: " +:+ msg)).
Proof.
  intros fuel r mode co query opts qv iterOpt iterator batches docs msg
    Hemb Hbuild Hiter Hall Hnext Herr Hmsg Hfuel.
  unfold retrieveIterator. rewrite Hemb, Hbuild. simpl. rewrite Hiter. simpl.
  replace fuel with (length batches + S (fuel - length batches - 1))%nat by lia.
  rewrite (iteratorLoop_prefix _ iterator batches docs _ 0%nat [] Hall Hnext).
  simpl. rewrite Herr.
  by destruct (String.eqb_spec msg "EOF").
Qed.

(** X17. In Iterator mode a batch that is not empty and that the
    converter rejects fails the whole retrieval, under the prefix of the
    conversion: the documents of the batches before it are not
    returned. *)
Theorem retrieveIterator_conversion_error :
  forall (fuel : nat) (r : Retriever)
         (mode : RetrieverConfig.t -> list float32 -> list Option
                 -> result milvusclient.searchIteratorOption)
         (co : retriever.Options) (query : string) (opts : list Option)
         (queryVector : list float32) (iterOpt : milvusclient.searchIteratorOption)
         (iterator : milvusclient.SearchIterator)
         (batches : list ResultSet) (docs : list (list Document))
         (res : ResultSet) (msg : string),
    embedQuery (retriever.Embedding co) query = Ok queryVector ->
    mode (config r) queryVector opts = Ok iterOpt ->
    Client.SearchIterator (client r) iterOpt = Ok iterator ->
    Forall2 (fun res batchDocs =>
               ResultCount res <> 0
               /\ RetrieverConfig.DocumentConverter (config r) res = Ok batchDocs)
      batches docs ->
    (forall k res, batches !! k = Some res -> iterator k = Ok res) ->
    iterator (length batches) = Ok res ->
    ResultCount res <> 0 ->
    RetrieverConfig.DocumentConverter (config r) res = Err msg ->
    (length batches < fuel)%nat ->
    retrieveIterator fuel r mode co query opts
    = Some (Err ("[Retriever] failed to convert batch results: " +:+ msg)).
Proof.
  intros fuel r mode co query opts qv iterOpt iterator batches docs res msg
    Hemb Hbuild Hiter Hall Hnext Hres Hcount Hconv Hfuel.
  unfold retrieveIterator. rewrite Hemb, Hbuild. simpl. rewrite Hiter. simpl.
  replace fuel with (length batches + S (fuel - length batches - 1))%nat by lia.
  rewrite (iteratorLoop_prefix _ iterator batches docs _ 0%nat [] Hall Hnext).
  simpl. rewrite Hres.
  destruct (Z.eqb_spec (ResultCount res) 0) as [?|_]; [done|].
  by rewrite Hconv.
Qed.

(** An iterator that hands out the batches and then fails with [msg];
    a converter that rejects the result sets without scores; and the
    retriever of the iterator tests with that converter. *)
Definition failingSearchIterator (results : list ResultSet) (msg : string)
  : milvusclient.SearchIterator :=
  fun k =>
    match nth_error results k with
    | Some res => Ok res
    | None => Err msg
    end.

Definition scoresOnlyConverter (resultSet : ResultSet) : result (list Document) :=
  if Nat.eqb (length (Scores resultSet)) 0
  then Err "result set without scores"
  else @defaultDocumentConverter Fixtures.fixtureExternals resultSet.

Definition unscoredBatch : ResultSet :=
  Fixtures.createMockResultSet ["2"] ["doc2"] [] [].

Definition scoresOnlyRetriever (iterator : milvusclient.SearchIterator) : Retriever :=
  {| client := Fixtures.iteratorClient iterator;
     config :=
       {| RetrieverConfig.Collection := "test_collection";
          RetrieverConfig.Partitions := [];
          RetrieverConfig.VectorField := "vector";
          RetrieverConfig.OutputFields := ["id"; "content"];
          RetrieverConfig.TopK := 10;
          RetrieverConfig.ScoreThreshold := None;
          RetrieverConfig.ConsistencyLevel := 0;
          RetrieverConfig.DocumentConverter := scoresOnlyConverter;
          RetrieverConfig.Embedding := Some (Fixtures.mockEmbedding 3);
          RetrieverConfig.SparseEmbedding := None |};
     searchMode := Fixtures.mockIteratorSearchMode |}.

Definition testIteratorOption : milvusclient.searchIteratorOption :=
  {| milvusclient.si_collection := "test_collection";
     milvusclient.si_vector :=
       FloatVector (replicate 3 (float32_of_float64 0.1%float));
     milvusclient.si_batchSize := 3;
     milvusclient.si_annsField := "";
     milvusclient.si_filter := "";
     milvusclient.si_outputFields := [];
     milvusclient.si_partitions := [];
     milvusclient.si_searchParam := ∅;
     milvusclient.si_grouping := None |}.

(** One batch, then a broken connection: the retrieval fails and the
    document of the batch is lost. *)
Lemma retrieveIterator_next_error_witness :
  let r := Fixtures.iteratorRetriever
             (failingSearchIterator [Fixtures.batch1] "connection reset") in
  "connection reset" <> "EOF"
  /\ retrieveIterator 2 r Fixtures.mockBuildSearchIteratorOption
       (commonOptions r []) "test query" []
     = Some (Err "[Retriever] iterator next failed: connection reset").
Proof.
  intros r. split; [discriminate|].
  apply (retrieveIterator_next_error 2 r
           Fixtures.mockBuildSearchIteratorOption (commonOptions r []) "test query" []
           (replicate 3 (float32_of_float64 0.1%float)) testIteratorOption
           (failingSearchIterator [Fixtures.batch1] "connection reset")
           [Fixtures.batch1]
           [[@convertRow Fixtures.fixtureExternals Fixtures.batch1 0]]
           "connection reset").
  - reflexivity.
  - reflexivity.
  - reflexivity.
  - repeat constructor; try discriminate; reflexivity.
  - intros [|k] res; simpl; intros Hk; by inversion Hk.
  - reflexivity.
  - discriminate.
  - simpl. lia.
Defined.

(** One batch that converts, then one that the converter rejects. *)
Lemma retrieveIterator_conversion_error_witness :
  let r := scoresOnlyRetriever
             (Fixtures.mockSearchIterator [Fixtures.batch1; unscoredBatch]) in
  retrieveIterator 3 r Fixtures.mockBuildSearchIteratorOption
    (commonOptions r []) "test query" []
  = Some (Err "[Retriever] failed to convert batch results: result set without scores").
Proof.
  intros r.
  apply (retrieveIterator_conversion_error 3 r
           Fixtures.mockBuildSearchIteratorOption (commonOptions r []) "test query" []
           (replicate 3 (float32_of_float64 0.1%float)) testIteratorOption
           (Fixtures.mockSearchIterator [Fixtures.batch1; unscoredBatch])
           [Fixtures.batch1]
           [[@convertRow Fixtures.fixtureExternals Fixtures.batch1 0]]
           unscoredBatch "result set without scores").
  - reflexivity.
  - reflexivity.
  - reflexivity.
  - repeat constructor; try discriminate; reflexivity.
  - intros [|k] res; simpl; intros Hk; by inversion Hk.
  - reflexivity.
  - discriminate.
  - reflexivity.
  - simpl. lia.
Defined.

(** ** The retrieval, mode by mode *)

(** X18. A mode that is a query mode is run as one, whatever else it
    implements, and without any embedding: [Retrieve] builds the query
    request from the query text, runs it, converts the rows and filters
    them by the threshold in force; a failure of the builder or of the
    engine is returned under the prefix of its step. *)
Theorem query_retrieval :
  forall (E : Externals) (fuel : nat) (r : Retriever)
         (sm : RetrieverConfig.t -> string -> list Option
               -> result milvusclient.queryOption)
         (query : string) (opts : list Option),
    SearchMode.BuildQueryOption (searchMode r) = Some sm ->
    Retrieve fuel r query opts
    = Some
        match sm (config r) query opts with
        | Err msg => Err ("[Retriever] failed to build query option: " +:+ msg)
        | Ok queryOpt =>
            match Client.Query (client r) queryOpt with
            | Err msg => Err ("[Retriever] failed to execute query: " +:+ msg)
            | Ok resultSet =>
                Ok (applyScoreThreshold
                      (flat_map (queryRowDocs resultSet) (rows (ResultCount resultSet)))
                      (retriever.ScoreThreshold (commonOptions r opts)))
            end
        end.
Proof.
  intros E fuel r sm query opts Hmode.
  unfold Retrieve, dispatch, retrieveQuery. rewrite Hmode.
  destruct (sm (config r) query opts) as [queryOpt|msg]; [|done].
  cbn [bind wrapErr].
  destruct (Client.Query (client r) queryOpt) as [resultSet|msg]; [|done].
  cbn [bind wrapErr]. by rewrite queryResultSetToDocuments_rows.
Qed.

(** A client whose [Query] fails, and the scalar retrieval over it:
    no embedder is configured. *)
Definition brokenQueryRetriever : Retriever :=
  {| client :=
       {| Client.Query := fun _ => Err "query fail";
          Client.Search := fun _ => Fixtures.notMocked;
          Client.HybridSearch := fun _ => Fixtures.notMocked;
          Client.SearchIterator := fun _ => Fixtures.notMocked |};
     config :=
       {| RetrieverConfig.Collection := "test_collection";
          RetrieverConfig.Partitions := [];
          RetrieverConfig.VectorField := "vector";
          RetrieverConfig.OutputFields := ["id"; "content"];
          RetrieverConfig.TopK := 10;
          RetrieverConfig.ScoreThreshold := None;
          RetrieverConfig.ConsistencyLevel := 0;
          RetrieverConfig.DocumentConverter :=
            @defaultDocumentConverter Fixtures.fixtureExternals;
          RetrieverConfig.Embedding := None;
          RetrieverConfig.SparseEmbedding := None |};
     searchMode := Scalar.mode |}.

Lemma query_retrieval_witness :
  @Retrieve Fixtures.fixtureExternals 0 brokenQueryRetriever "id > 0" []
  = Some (Err "[Retriever] failed to execute query: query fail").
Proof.
  apply (query_retrieval Fixtures.fixtureExternals 0 brokenQueryRetriever
           Scalar.BuildQueryOption "id > 0" []).
  reflexivity.
Defined.

(** X19. A mode that is none of the query, hybrid and iterator modes
    is run through the generic builder: when the query is embedded, the
    request built and the search answered, [Retrieve] converts the first
    result set alone and filters its documents by the threshold in
    force; an empty answer is an empty list, not an error. *)
Theorem standard_retrieval :
  forall (E : Externals) (fuel : nat) (r : Retriever) (query : string)
         (opts : list Option) (queryVector : list float32)
         (searchOpt : milvusclient.SearchOption) (results : list ResultSet),
    SearchMode.BuildQueryOption (searchMode r) = None ->
    SearchMode.BuildHybridSearchOption (searchMode r) = None ->
    SearchMode.BuildSearchIteratorOption (searchMode r) = None ->
    embedQuery (retriever.Embedding (commonOptions r opts)) query = Ok queryVector ->
    SearchMode.BuildSearchOption (searchMode r) (config r) queryVector opts
    = Ok searchOpt ->
    Client.Search (client r) searchOpt = Ok results ->
    Retrieve fuel r query opts
    = Some
        match results with
        | [] => Ok []
        | first :: _ =>
            match RetrieverConfig.DocumentConverter (config r) first with
            | Ok docs =>
                Ok (applyScoreThreshold docs
                      (retriever.ScoreThreshold (commonOptions r opts)))
            | Err msg => Err msg
            end
        end.
Proof.
  intros E fuel r query opts qv searchOpt results Hq Hh Hi Hemb Hbuild Hsearch.
  unfold Retrieve, dispatch, retrieveStandard. rewrite Hq, Hh, Hi, Hemb.
  cbn [bind]. rewrite Hbuild. cbn [bind wrapErr]. rewrite Hsearch.
  cbn [bind wrapErr].
  destruct results as [|first rest].
  - by destruct (retriever.ScoreThreshold (commonOptions r opts)).
  - by destruct (RetrieverConfig.DocumentConverter (config r) first).
Qed.

(** A client whose [Search] answers with [results], and the retriever
    of Approximate mode over it, with a threshold of 0.85. *)
Definition searchClient (results : list ResultSet) : Client.t :=
  {| Client.Query := fun _ => Fixtures.notMocked;
     Client.Search := fun _ => Ok results;
     Client.HybridSearch := fun _ => Fixtures.notMocked;
     Client.SearchIterator := fun _ => Fixtures.notMocked |}.

Definition approximateRetriever (results : list ResultSet) : Retriever :=
  {| client := searchClient results;
     config := Fixtures.testConfig (Some 0.85%float);
     searchMode := Approximate.mode (Approximate.NewApproximate "") |}.

(** Two result sets are answered: the documents ["1"] (0.9) and ["2"]
    (0.8) of the first are converted, ["1"] passes the threshold; the
    second result set is not looked at. *)
Lemma standard_retrieval_witness :
  let first :=
    Fixtures.createMockResultSet ["1"; "2"] ["doc1"; "doc2"]
      [float32_of_float64 0.9%float; float32_of_float64 0.8%float]
      [Fixtures.emptyObject; Fixtures.emptyObject] in
  option_map (fun res => match res with
                         | Ok docs => Ok (map ID docs)
                         | Err msg => Err msg
                         end)
    (@Retrieve Fixtures.fixtureExternals 0
       (approximateRetriever [first; Fixtures.batch2]) "test query" [])
  = Some (Ok ["1"]).
Proof.
  intros first.
  rewrite (standard_retrieval Fixtures.fixtureExternals 0
             (approximateRetriever [first; Fixtures.batch2]) "test query" []
             (replicate 3 (float32_of_float64 0.1%float))
             (Some
                {| milvusclient.so_collection := "test_collection";
                   milvusclient.so_limit := 10;
                   milvusclient.so_vectors :=
                     [FloatVector (replicate 3 (float32_of_float64 0.1%float))];
                   milvusclient.so_annsField := "vector";
                   milvusclient.so_outputFields := ["id"; "content"];
                   milvusclient.so_partitions := [];
                   milvusclient.so_filter := "";
                   milvusclient.so_grouping := None |})
             [first; Fixtures.batch2]);
    reflexivity.
Defined.

(** X20. A hybrid mode is given the dense vector of the embedder in
    force for the call when the configuration has an embedder, and the
    empty dense vector when it has none, whatever the call options
    supply; and the sparse vector of the configuration's sparse embedder,
    or the empty one without it.  With these vectors [Retrieve] builds
    the hybrid request, runs it, converts the first result set alone and
    filters its documents; an empty answer is an empty list. *)
Theorem hybrid_retrieval :
  forall (E : Externals) (fuel : nat) (r : Retriever)
         (sm : RetrieverConfig.t -> list float32 -> gmap Z float64 -> list Option
               -> result milvusclient.hybridSearchOption)
         (query : string) (opts : list Option)
         (queryVector : list float32) (querySparseVector : gmap Z float64),
    SearchMode.BuildQueryOption (searchMode r) = None ->
    SearchMode.BuildHybridSearchOption (searchMode r) = Some sm ->
    match RetrieverConfig.Embedding (config r) with
    | Some _ =>
        embedQuery (retriever.Embedding (commonOptions r opts)) query = Ok queryVector
    | None => queryVector = []
    end ->
    match RetrieverConfig.SparseEmbedding (config r) with
    | Some _ =>
        embedSparseQuery (RetrieverConfig.SparseEmbedding (config r)) query
        = Ok querySparseVector
    | None => querySparseVector = ∅
    end ->
    Retrieve fuel r query opts
    = Some
        match sm (config r) queryVector querySparseVector opts with
        | Err msg => Err ("[Retriever] failed to build hybrid search option: " +:+ msg)
        | Ok searchOpt =>
            match Client.HybridSearch (client r) searchOpt with
            | Err msg => Err ("[Retriever] hybrid search failed: " +:+ msg)
            | Ok [] => Ok []
            | Ok (first :: _) =>
                match RetrieverConfig.DocumentConverter (config r) first with
                | Ok docs =>
                    Ok (applyScoreThreshold docs
                          (retriever.ScoreThreshold (commonOptions r opts)))
                | Err msg => Err msg
                end
            end
        end.
Proof.
  intros E fuel r sm query opts qv qsv Hq Hh Hdense Hsparse.
  unfold Retrieve, dispatch, retrieveHybrid. rewrite Hq, Hh.
  assert (Hqv : match RetrieverConfig.Embedding (config r) with
                | Some _ => embedQuery (retriever.Embedding (commonOptions r opts)) query
                | None => Ok []
                end = Ok qv).
  { destruct (RetrieverConfig.Embedding (config r)); [done|by subst]. }
  assert (Hqsv : match RetrieverConfig.SparseEmbedding (config r) with
                 | Some _ =>
                     embedSparseQuery (RetrieverConfig.SparseEmbedding (config r)) query
                 | None => Ok ∅
                 end = Ok qsv).
  { destruct (RetrieverConfig.SparseEmbedding (config r)); [done|by subst]. }
  rewrite Hqv. cbn [bind]. rewrite Hqsv. cbn [bind].
  destruct (sm (config r) qv qsv opts) as [searchOpt|msg]; [|done].
  cbn [bind wrapErr].
  destruct (Client.HybridSearch (client r) searchOpt) as [[|first rest]|msg];
    cbn [bind wrapErr]; [| |done].
  - by destruct (retriever.ScoreThreshold (commonOptions r opts)).
  - by destruct (RetrieverConfig.DocumentConverter (config r) first).
Qed.

(** X21. In Hybrid mode a failure of either embedding fails the whole
    retrieval with the error of the embedding step: of the dense
    embedding when the configuration has an embedder, and otherwise, or
    after it succeeded, of the sparse embedding when the configuration
    has a sparse embedder. *)
Theorem hybrid_retrieval_embedding_failure :
  forall (E : Externals) (fuel : nat) (r : Retriever)
         (sm : RetrieverConfig.t -> list float32 -> gmap Z float64 -> list Option
               -> result milvusclient.hybridSearchOption)
         (query : string) (opts : list Option) (msg : string),
    SearchMode.BuildQueryOption (searchMode r) = None ->
    SearchMode.BuildHybridSearchOption (searchMode r) = Some sm ->
    (RetrieverConfig.Embedding (config r) <> None
     /\ embedQuery (retriever.Embedding (commonOptions r opts)) query = Err msg)
    \/ ((RetrieverConfig.Embedding (config r) = None
         \/ isErr (embedQuery (retriever.Embedding (commonOptions r opts)) query) = false)
        /\ RetrieverConfig.SparseEmbedding (config r) <> None
        /\ embedSparseQuery (RetrieverConfig.SparseEmbedding (config r)) query
           = Err msg) ->
    Retrieve fuel r query opts = Some (Err msg).
Proof.
  intros E fuel r sm query opts msg Hq Hh Hfail.
  unfold Retrieve, dispatch, retrieveHybrid. rewrite Hq, Hh.
  destruct Hfail as [(Hconf & Hdense)|(Hdense & Hconf & Hsparse)].
  - destruct (RetrieverConfig.Embedding (config r)); [|done].
    by rewrite Hdense.
  - destruct (RetrieverConfig.SparseEmbedding (config r)) as [se|] eqn:Hse; [|done].
    rewrite Hsparse.
    destruct (RetrieverConfig.Embedding (config r)); [|done].
    destruct Hdense as [?|Hdense]; [done|].
    by destruct (embedQuery (retriever.Embedding (commonOptions r opts)) query).
Qed.

(** A client whose [HybridSearch] answers with [results], and the
    hybrid retriever over it, with the sparse embedder [sparse]. *)
Definition hybridClient (results : list ResultSet) : Client.t :=
  {| Client.Query := fun _ => Fixtures.notMocked;
     Client.Search := fun _ => Fixtures.notMocked;
     Client.HybridSearch := fun _ => Ok results;
     Client.SearchIterator := fun _ => Fixtures.notMocked |}.

Definition hybridRetriever (sparse : option SparseEmbedder) (results : list ResultSet)
  : Retriever :=
  {| client := hybridClient results;
     config :=
       {| RetrieverConfig.Collection := "test_collection";
          RetrieverConfig.Partitions := [];
          RetrieverConfig.VectorField := "vector";
          RetrieverConfig.OutputFields := ["id"; "content"];
          RetrieverConfig.TopK := 10;
          RetrieverConfig.ScoreThreshold := None;
          RetrieverConfig.ConsistencyLevel := 0;
          RetrieverConfig.DocumentConverter :=
            @defaultDocumentConverter Fixtures.fixtureExternals;
          RetrieverConfig.Embedding := Some (Fixtures.mockEmbedding 1);
          RetrieverConfig.SparseEmbedding := sparse |};
     searchMode := @Hybrid.mode Fixtures.fixtureExternals hybridWithParams |}.

(** The hybrid search of the tests, with a sparse embedder: the one
    document of the answer is returned. *)
Lemma hybrid_retrieval_witness :
  option_map (fun res => match res with
                         | Ok docs => Ok (map ID docs)
                         | Err msg => Err msg
                         end)
    (@Retrieve Fixtures.fixtureExternals 0
       (hybridRetriever (Some (mockSparseEmbedder [sparseQuery])) [Fixtures.batch1])
       "test query" [])
  = Some (Ok ["1"]).
Proof.
  rewrite (hybrid_retrieval Fixtures.fixtureExternals 0
             (hybridRetriever (Some (mockSparseEmbedder [sparseQuery])) [Fixtures.batch1])
             (@Hybrid.BuildHybridSearchOption Fixtures.fixtureExternals hybridWithParams)
             "test query" [] denseQuery sparseQuery);
    reflexivity.
Defined.

(** The dense embedding succeeds and the sparse embedder fails: the
    retrieval fails with the error of the sparse embedding. *)
Lemma hybrid_retrieval_embedding_failure_witness :
  @Retrieve Fixtures.fixtureExternals 0
    (hybridRetriever (Some (fun _ => Err "sparse model unavailable")) [Fixtures.batch1])
    "test query" []
  = Some (Err "[Retriever] failed to embed sparse query: sparse model unavailable").
Proof.
  apply (hybrid_retrieval_embedding_failure Fixtures.fixtureExternals 0
           (hybridRetriever (Some (fun _ => Err "sparse model unavailable"))
              [Fixtures.batch1])
           (@Hybrid.BuildHybridSearchOption Fixtures.fixtureExternals hybridWithParams)
           "test query" []); try reflexivity.
  right. split; [by right|]. split; [discriminate|reflexivity].
Defined.

(** ** Score-threshold filtering: composition and NaN *)

Lemma filter_swap {A} (f g : A -> bool) (l : list A) :
  List.filter f (List.filter g l) = List.filter g (List.filter f l).
Proof.
  induction l as [|x l IH]; [done|]. simpl.
  destruct (f x) eqn:Hf, (g x) eqn:Hg; simpl; rewrite ?Hf, ?Hg, IH; done.
Qed.

(** X22. Filtering by a score threshold goes through concatenation:
    filtering the documents accumulated over several batches is
    filtering each batch; it never adds a document; and filtering by two
    thresholds gives the same list in either order. *)
Theorem applyScoreThreshold_composes :
  (forall (docs1 docs2 : list Document) (threshold : option float64),
     applyScoreThreshold (docs1 ++ docs2) threshold
     = applyScoreThreshold docs1 threshold ++ applyScoreThreshold docs2 threshold)
  /\ (forall (docs : list Document) (threshold : option float64),
        (length (applyScoreThreshold docs threshold) <= length docs)%nat)
  /\ (forall (docs : list Document) (t1 t2 : float64),
        applyScoreThreshold (applyScoreThreshold docs (Some t1)) (Some t2)
        = applyScoreThreshold (applyScoreThreshold docs (Some t2)) (Some t1)).
Proof.
  split; [|split].
  - intros docs1 docs2 [t|]; simpl; [|done].
    rewrite !thresholdLoop_filter. simpl. apply List.filter_app.
  - intros docs [t|]; simpl; [|lia].
    rewrite thresholdLoop_filter. simpl. apply length_filter_le.
  - intros docs t1 t2. simpl. rewrite !thresholdLoop_filter. simpl.
    apply filter_swap.
Qed.

Lemma Prim2SF_nan (x : float64) : PrimFloat.is_nan x = true -> Prim2SF x = S754_nan.
Proof. intros Hnan. unfold Prim2SF. by rewrite Hnan. Qed.

Lemma leb_nan (t s : float64) :
  PrimFloat.is_nan t = true \/ PrimFloat.is_nan s = true ->
  PrimFloat.leb t s = false.
Proof.
  rewrite leb_spec. intros [Hnan|Hnan]; rewrite (Prim2SF_nan _ Hnan).
  - done.
  - unfold SFleb, SFcompare. by destruct (Prim2SF t).
Qed.

(** X23. A threshold that is not a number drops every document, and a
    document whose score is not a number is dropped by every
    threshold. *)
Theorem applyScoreThreshold_nan :
  (forall (docs : list Document) (t : float64),
     PrimFloat.is_nan t = true -> applyScoreThreshold docs (Some t) = [])
  /\ (forall (t s : float64) (d : Document),
        MetaData d !! "score" = Some (AFloat64 s) ->
        PrimFloat.is_nan s = true ->
        passesThreshold t d = false).
Proof.
  split.
  - intros docs t Hnan. simpl. rewrite thresholdLoop_filter. simpl.
    apply filter_none. intros d _. unfold passesThreshold.
    destruct (MetaData d !! "score") as [[]|]; try done.
    apply leb_nan. by left.
  - intros t s d Hs Hnan. unfold passesThreshold. rewrite Hs.
    apply leb_nan. by right.
Qed.

Lemma applyScoreThreshold_nan_witness :
  PrimFloat.is_nan PrimFloat.nan = true
  /\ applyScoreThreshold Fixtures.fourDocs (Some PrimFloat.nan) = []
  /\ passesThreshold 0.1%float (Fixtures.scored "doc5" PrimFloat.nan) = false.
Proof.
  split; [reflexivity|]. split.
  - apply (proj1 applyScoreThreshold_nan). reflexivity.
  - apply (proj2 applyScoreThreshold_nan 0.1%float PrimFloat.nan); reflexivity.
Defined.

(** ** Construction of the retriever ([validate], [NewRetriever]) *)

(** The configuration of a connection, and the load state of a
    collection, of the client package. *)
Record ClientConfig : Type := {
  Address : string;
  APIKey : string
}.

Inductive LoadState : Type :=
| LoadStateNotExist
| LoadStateNotLoad
| LoadStateLoading
| LoadStateLoaded.

Definition isLoaded (s : LoadState) : bool :=
  match s with LoadStateLoaded => true | _ => false end.

(** The client as [NewRetriever] uses it, beside the calls of the
    retrieval: a load task is the result of awaiting it. *)
Module Connection.
Record t : Type := {
  retrieval : Client.t;
  HasCollection : string -> result bool;
  GetLoadState : string -> result LoadState;
  LoadCollection : string -> result (result unit)
}.
End Connection.

(** [RetrieverConfig] as the caller fills it in: the client, the search
    mode and the converter may be missing. *)
Module UserConfig.
Record t : Type := {
  Client : option Connection.t;
  ClientConfig : option ClientConfig;
  Collection : string;
  Partitions : list string;
  VectorField : string;
  OutputFields : list string;
  TopK : Z;
  ScoreThreshold : option float64;
  ConsistencyLevel : ConsistencyLevel;
  SearchMode : option SearchMode.t;
  DocumentConverter : option (ResultSet -> result (list Document));
  Embedding : option Embedder;
  SparseEmbedding : option SparseEmbedder
}.
End UserConfig.

(** Modelled from the spec: the defaults of the configuration (the
    constants of [consts.go]), at the values the comments of
    [RetrieverConfig] document. *)
Definition defaultCollection : string := "eino_collection".
Definition defaultVectorField : string := "vector".
Definition defaultTopK : Z := 5.

Definition isNone {A} (o : option A) : bool :=
  match o with None => true | Some _ => false end.

Section Construction.
Context `{Externals}.

(** [validate]: the checks, then the configuration with its defaults
    filled in. *)
Definition validate (c : UserConfig.t) : result UserConfig.t :=
  if isNone (UserConfig.Client c) && isNone (UserConfig.ClientConfig c) then
    Err "[NewRetriever] milvus client or client config not provided"
  else
    match UserConfig.SearchMode c with
    | None => Err "[NewRetriever] search mode not provided"
    | Some sm =>
        if isNone (UserConfig.Embedding c) && isNone (SearchMode.BuildQueryOption sm) then
          Err ("[NewRetriever] embedding not provided; it is required for vector search modes. "
               +:+ "Please provide an Embedding or use QuerySearchMode for metadata-only filtering")
        else
          Ok {| UserConfig.Client := UserConfig.Client c;
                UserConfig.ClientConfig := UserConfig.ClientConfig c;
                UserConfig.Collection :=
                  if String.eqb (UserConfig.Collection c) ""
                  then defaultCollection else UserConfig.Collection c;
                UserConfig.Partitions := UserConfig.Partitions c;
                UserConfig.VectorField :=
                  if String.eqb (UserConfig.VectorField c) ""
                  then defaultVectorField else UserConfig.VectorField c;
                UserConfig.OutputFields := UserConfig.OutputFields c;
                UserConfig.TopK :=
                  if UserConfig.TopK c <=? 0 then defaultTopK else UserConfig.TopK c;
                UserConfig.ScoreThreshold := UserConfig.ScoreThreshold c;
                UserConfig.ConsistencyLevel := UserConfig.ConsistencyLevel c;
                UserConfig.SearchMode := UserConfig.SearchMode c;
                UserConfig.DocumentConverter :=
                  match UserConfig.DocumentConverter c with
                  | None => Some defaultDocumentConverter
                  | Some converter => Some converter
                  end;
                UserConfig.Embedding := UserConfig.Embedding c;
                UserConfig.SparseEmbedding := UserConfig.SparseEmbedding c |}
    end.

(** The constructor of a client and the verb [%q] belong to other
    packages. *)
Variable New : ClientConfig -> result Connection.t.
Variable Sprintf_q : string -> string.

(** [NewRetriever]: the retriever is the client and the validated
    configuration. *)
Definition NewRetriever (conf : UserConfig.t)
  : result (Connection.t * UserConfig.t) :=
  do conf <- validate conf ;
  do cli <-
    (match UserConfig.Client conf with
     | Some cli => Ok cli
     | None =>
         match UserConfig.ClientConfig conf with
         | None => Err "[NewRetriever] either Client or ClientConfig must be provided"
         | Some clientConfig =>
             wrapErr "[NewRetriever] failed to create milvus client" (New clientConfig)
         end
     end) ;
  do hasCollection <- wrapErr "[NewRetriever] failed to check collection"
                        (Connection.HasCollection cli (UserConfig.Collection conf)) ;
  if negb hasCollection then
    Err ("[NewRetriever] collection " +:+ Sprintf_q (UserConfig.Collection conf)
         +:+ " not found")
  else
    do loadState <- wrapErr "[NewRetriever] failed to get load state"
                      (Connection.GetLoadState cli (UserConfig.Collection conf)) ;
    do loaded <-
      (if negb (isLoaded loadState) then
         do loadTask <- wrapErr "[NewRetriever] failed to load collection"
                          (Connection.LoadCollection cli (UserConfig.Collection conf)) ;
         wrapErr "[NewRetriever] failed to await collection load" loadTask
       else Ok tt) ;
    Ok (cli, conf).

End Construction.

(** The retriever as [Retrieve] reads it, when the configuration has a
    search mode and a converter. *)
Definition retrieverOf (cli : Connection.t) (conf : UserConfig.t) : option Retriever :=
  match UserConfig.SearchMode conf, UserConfig.DocumentConverter conf with
  | Some sm, Some converter =>
      Some {| client := Connection.retrieval cli;
              config :=
                {| RetrieverConfig.Collection := UserConfig.Collection conf;
                   RetrieverConfig.Partitions := UserConfig.Partitions conf;
                   RetrieverConfig.VectorField := UserConfig.VectorField conf;
                   RetrieverConfig.OutputFields := UserConfig.OutputFields conf;
                   RetrieverConfig.TopK := UserConfig.TopK conf;
                   RetrieverConfig.ScoreThreshold := UserConfig.ScoreThreshold conf;
                   RetrieverConfig.ConsistencyLevel := UserConfig.ConsistencyLevel conf;
                   RetrieverConfig.DocumentConverter := converter;
                   RetrieverConfig.Embedding := UserConfig.Embedding conf;
                   RetrieverConfig.SparseEmbedding := UserConfig.SparseEmbedding conf |};
              searchMode := sm |}
  | _, _ => None
  end.

(** X24. [validate] rejects a configuration exactly when it has
    neither a client nor a client configuration, or no search mode, or
    no embedder while its search mode is not a query mode; a query mode
    needs no embedder. *)
Theorem validate_errors :
  forall (E : Externals) (c : UserConfig.t),
    isErr (validate c) = true <->
    (UserConfig.Client c = None /\ UserConfig.ClientConfig c = None)
    \/ UserConfig.SearchMode c = None
    \/ (exists sm, UserConfig.SearchMode c = Some sm
                   /\ UserConfig.Embedding c = None
                   /\ SearchMode.BuildQueryOption sm = None).
Proof.
  intros E c. unfold validate.
  destruct (UserConfig.Client c) as [cli|] eqn:Hcli,
           (UserConfig.ClientConfig c) as [cc|] eqn:Hcc; simpl.
  4: { split; [intros _; left; done|done]. }
  all: destruct (UserConfig.SearchMode c) as [sm|] eqn:Hsm; simpl;
    [|split; [intros _; right; left; done|done]].
  all: destruct (UserConfig.Embedding c) as [emb|] eqn:Hemb,
                (SearchMode.BuildQueryOption sm) as [q|] eqn:Hq; simpl.
  all: split;
    [ try discriminate; intros _; right; right; exists sm; done
    | intros [[? ?]|[?|(sm' & Hsm' & ? & ?)]]; try discriminate; try done;
      try (injection Hsm' as <-; congruence) ].
Qed.

(** X25. A configuration that [validate] accepts comes out with a
    collection name, a vector field name, a positive top-K, a converter
    and a search mode; what the caller set is kept (a collection or
    vector field name that is not empty, a positive top-K, a converter),
    an empty name or a top-K that is not positive is replaced by the
    default; and validating the result again changes nothing. *)
Theorem validate_defaults :
  forall (E : Externals) (c c' : UserConfig.t),
    validate c = Ok c' ->
    UserConfig.Collection c' <> ""
    /\ UserConfig.VectorField c' <> ""
    /\ 0 < UserConfig.TopK c'
    /\ UserConfig.DocumentConverter c' <> None
    /\ UserConfig.SearchMode c' <> None
    /\ (UserConfig.Collection c <> "" -> UserConfig.Collection c' = UserConfig.Collection c)
    /\ (UserConfig.Collection c = "" -> UserConfig.Collection c' = defaultCollection)
    /\ (UserConfig.VectorField c <> "" ->
        UserConfig.VectorField c' = UserConfig.VectorField c)
    /\ (UserConfig.VectorField c = "" -> UserConfig.VectorField c' = defaultVectorField)
    /\ (0 < UserConfig.TopK c -> UserConfig.TopK c' = UserConfig.TopK c)
    /\ (UserConfig.TopK c <= 0 -> UserConfig.TopK c' = defaultTopK)
    /\ (forall converter,
          UserConfig.DocumentConverter c = Some converter ->
          UserConfig.DocumentConverter c' = Some converter)
    /\ (UserConfig.DocumentConverter c = None ->
        UserConfig.DocumentConverter c' = Some defaultDocumentConverter)
    /\ validate c' = Ok c'.
Proof.
  intros E c c'. unfold validate at 1.
  destruct (isNone (UserConfig.Client c) && isNone (UserConfig.ClientConfig c))
    eqn:Hclient; [discriminate|].
  destruct (UserConfig.SearchMode c) as [sm|] eqn:Hmode; [|discriminate].
  destruct (isNone (UserConfig.Embedding c) && isNone (SearchMode.BuildQueryOption sm))
    eqn:Hemb; [discriminate|].
  intros [= <-]. simpl.
  assert (Hcoll : (if String.eqb (UserConfig.Collection c) ""
                   then defaultCollection else UserConfig.Collection c) <> "").
  { by destruct (String.eqb_spec (UserConfig.Collection c) ""). }
  assert (Hfield : (if String.eqb (UserConfig.VectorField c) ""
                    then defaultVectorField else UserConfig.VectorField c) <> "").
  { by destruct (String.eqb_spec (UserConfig.VectorField c) ""). }
  assert (Htop : 0 < (if UserConfig.TopK c <=? 0
                      then defaultTopK else UserConfig.TopK c)).
  { destruct (Z.leb_spec (UserConfig.TopK c) 0); [done|lia]. }
  repeat (split; [try done|]).
  - by destruct (UserConfig.DocumentConverter c).
  - intros Hne. by destruct (String.eqb_spec (UserConfig.Collection c) "").
  - by intros ->.
  - intros Hne. by destruct (String.eqb_spec (UserConfig.VectorField c) "").
  - by intros ->.
  - intros Hpos. destruct (Z.leb_spec (UserConfig.TopK c) 0); [lia|done].
  - intros Hle. destruct (Z.leb_spec (UserConfig.TopK c) 0); [done|lia].
  - by intros converter ->.
  - by intros ->.
  - unfold validate. simpl. rewrite Hclient, Hemb.
    destruct (String.eqb_spec
                (if String.eqb (UserConfig.Collection c) ""
                 then defaultCollection else UserConfig.Collection c) "") as [?|_];
      [done|].
    destruct (String.eqb_spec
                (if String.eqb (UserConfig.VectorField c) ""
                 then defaultVectorField else UserConfig.VectorField c) "") as [?|_];
      [done|].
    destruct (Z.leb_spec
                (if UserConfig.TopK c <=? 0 then defaultTopK else UserConfig.TopK c) 0);
      [lia|].
    by destruct (UserConfig.DocumentConverter c).
Qed.

(** A connection whose collection exists or not, in a given load state;
    loading succeeds. *)
Definition mockConnection (has : bool) (state : LoadState) : Connection.t :=
  {| Connection.retrieval :=
       Fixtures.queryClient
         (Fixtures.createMockQueryResult ["1"] ["doc"] [Fixtures.emptyObject]);
     Connection.HasCollection := fun _ => Ok has;
     Connection.GetLoadState := fun _ => Ok state;
     Connection.LoadCollection := fun _ => Ok (Ok tt) |}.

(** A configuration that leaves the names, the top-K and the converter
    to the defaults, with the scalar mode and no embedder. *)
Definition bareConfig (cli : option Connection.t) (cc : option ClientConfig)
  : UserConfig.t :=
  {| UserConfig.Client := cli;
     UserConfig.ClientConfig := cc;
     UserConfig.Collection := "";
     UserConfig.Partitions := [];
     UserConfig.VectorField := "";
     UserConfig.OutputFields := [];
     UserConfig.TopK := 0;
     UserConfig.ScoreThreshold := None;
     UserConfig.ConsistencyLevel := 0;
     UserConfig.SearchMode := Some Scalar.mode;
     UserConfig.DocumentConverter := None;
     UserConfig.Embedding := None;
     UserConfig.SparseEmbedding := None |}.

(** What [validate] makes of it. *)
Definition bareConfigValidated (cli : option Connection.t) (cc : option ClientConfig)
  : UserConfig.t :=
  {| UserConfig.Client := cli;
     UserConfig.ClientConfig := cc;
     UserConfig.Collection := "eino_collection";
     UserConfig.Partitions := [];
     UserConfig.VectorField := "vector";
     UserConfig.OutputFields := [];
     UserConfig.TopK := 5;
     UserConfig.ScoreThreshold := None;
     UserConfig.ConsistencyLevel := 0;
     UserConfig.SearchMode := Some Scalar.mode;
     UserConfig.DocumentConverter :=
       Some (@defaultDocumentConverter Fixtures.fixtureExternals);
     UserConfig.Embedding := None;
     UserConfig.SparseEmbedding := None |}.

Definition localhost : ClientConfig :=
  {| Address := "localhost:19530"; APIKey := "" |}.

(** [%q] of a string without characters to escape. *)
Definition quoted (s : string) : string :=
  Fixtures.quote +:+ s +:+ Fixtures.quote.

Lemma validate_bareConfig :
  forall cc,
    @validate Fixtures.fixtureExternals (bareConfig None (Some cc))
    = Ok (bareConfigValidated None (Some cc)).
Proof. reflexivity. Qed.

Lemma validate_defaults_witness :
  @validate Fixtures.fixtureExternals (bareConfig None (Some localhost))
  = Ok (bareConfigValidated None (Some localhost))
  /\ UserConfig.Collection (bareConfigValidated None (Some localhost)) = defaultCollection
  /\ UserConfig.VectorField (bareConfigValidated None (Some localhost)) = defaultVectorField
  /\ UserConfig.TopK (bareConfigValidated None (Some localhost)) = defaultTopK
  /\ @validate Fixtures.fixtureExternals (bareConfigValidated None (Some localhost))
     = Ok (bareConfigValidated None (Some localhost)).
Proof.
  pose proof (validate_defaults Fixtures.fixtureExternals
                (bareConfig None (Some localhost))
                (bareConfigValidated None (Some localhost))
                (validate_bareConfig localhost))
    as (_ & _ & _ & _ & _ & _ & Hcoll & _ & Hfield & _ & Htop & _ & _ & Hagain).
  split; [reflexivity|].
  split; [apply Hcoll; reflexivity|].
  split; [apply Hfield; reflexivity|].
  split; [apply Htop; simpl; lia|].
  exact Hagain.
Defined.

Section NewRetrieverFacts.
Context (E : Externals).
Variable New : ClientConfig -> result Connection.t.
Variable Sprintf_q : string -> string.

(** The connection [NewRetriever] works with: the client of the
    configuration when there is one, else a new one. *)
Definition connects (conf : UserConfig.t) (cli : Connection.t) : Prop :=
  UserConfig.Client conf = Some cli
  \/ (UserConfig.Client conf = None
      /\ exists clientConfig,
           UserConfig.ClientConfig conf = Some clientConfig
           /\ New clientConfig = Ok cli).

(** X26. [NewRetriever] succeeds exactly when the configuration is
    valid, the connection is the configured client or, without one, [New]
    of the client configuration succeeds, the collection of the validated
    configuration (the default name when none was given) exists, and the
    collection is loaded or loading it and awaiting the load succeed.  It
    then returns that connection and the validated configuration; a
    loaded collection is not loaded again. *)
Theorem NewRetriever_success :
  forall (conf conf' : UserConfig.t) (cli : Connection.t),
    NewRetriever New Sprintf_q conf = Ok (cli, conf') <->
    validate conf = Ok conf'
    /\ connects conf cli
    /\ Connection.HasCollection cli (UserConfig.Collection conf') = Ok true
    /\ exists state,
         Connection.GetLoadState cli (UserConfig.Collection conf') = Ok state
         /\ (isLoaded state = true
             \/ (isLoaded state = false
                 /\ Connection.LoadCollection cli (UserConfig.Collection conf')
                    = Ok (Ok tt))).
Proof.
  intros conf conf' cli. unfold NewRetriever, connects.
  assert (Hclient : forall c c', validate c = Ok c' ->
            UserConfig.Client c' = UserConfig.Client c
            /\ UserConfig.ClientConfig c' = UserConfig.ClientConfig c).
  { intros c c'. unfold validate.
    destruct (isNone (UserConfig.Client c) && isNone (UserConfig.ClientConfig c));
      [discriminate|].
    destruct (UserConfig.SearchMode c) as [sm|]; [|discriminate].
    destruct (isNone (UserConfig.Embedding c) && isNone (SearchMode.BuildQueryOption sm));
      [discriminate|].
    by intros [= <-]. }
  split.
  - destruct (validate conf) as [v|msg] eqn:Hvalid; simpl; [|discriminate].
    destruct (Hclient _ _ Hvalid) as [Hcli Hcc]. rewrite Hcli, Hcc.
    destruct (UserConfig.Client conf) as [cli0|] eqn:Hc; simpl.
    + destruct (Connection.HasCollection cli0 (UserConfig.Collection v))
        as [[|]|] eqn:Hhas; simpl; try discriminate.
      destruct (Connection.GetLoadState cli0 (UserConfig.Collection v))
        as [state|] eqn:Hstate; simpl; [|discriminate].
      destruct (isLoaded state) eqn:Hloaded; simpl.
      * intros [= <- <-]. repeat (split; [auto; fail|]). exists state. auto.
      * destruct (Connection.LoadCollection cli0 (UserConfig.Collection v))
          as [[[]|]|] eqn:Hload; simpl; try discriminate.
        intros [= <- <-]. repeat (split; [auto; fail|]). exists state. auto.
    + destruct (UserConfig.ClientConfig conf) as [cc|] eqn:Hcfg; simpl; [|discriminate].
      destruct (New cc) as [cli0|] eqn:Hnew; simpl; [|discriminate].
      destruct (Connection.HasCollection cli0 (UserConfig.Collection v))
        as [[|]|] eqn:Hhas; simpl; try discriminate.
      destruct (Connection.GetLoadState cli0 (UserConfig.Collection v))
        as [state|] eqn:Hstate; simpl; [|discriminate].
      destruct (isLoaded state) eqn:Hloaded; simpl.
      * intros [= <- <-]. split; [done|]. split; [right; eauto|].
        split; [done|]. exists state. auto.
      * destruct (Connection.LoadCollection cli0 (UserConfig.Collection v))
          as [[[]|]|] eqn:Hload; simpl; try discriminate.
        intros [= <- <-]. split; [done|]. split; [right; eauto|].
        split; [done|]. exists state. auto.
  - intros (Hvalid & Hconn & Hhas & state & Hstate & Hload).
    rewrite Hvalid. simpl.
    destruct (Hclient _ _ Hvalid) as [Hcli Hcc]. rewrite Hcli, Hcc.
    assert (Hrest :
      (do hasCollection <- wrapErr "[NewRetriever] failed to check collection"
                             (Connection.HasCollection cli (UserConfig.Collection conf')) ;
       if negb hasCollection then
         Err ("[NewRetriever] collection " +:+ Sprintf_q (UserConfig.Collection conf')
              +:+ " not found")
       else
         do loadState <- wrapErr "[NewRetriever] failed to get load state"
                           (Connection.GetLoadState cli (UserConfig.Collection conf')) ;
         do loaded <-
           (if negb (isLoaded loadState) then
              do loadTask <- wrapErr "[NewRetriever] failed to load collection"
                               (Connection.LoadCollection cli
                                  (UserConfig.Collection conf')) ;
              wrapErr "[NewRetriever] failed to await collection load" loadTask
            else Ok tt) ;
         Ok (cli, conf')) = Ok (cli, conf')).
    { rewrite Hhas. simpl. rewrite Hstate. simpl.
      destruct Hload as [->|[-> ->]]; reflexivity. }
    destruct Hconn as [->|(-> & cc & -> & ->)]; simpl; exact Hrest.
Qed.

(** X27. The error "either Client or ClientConfig must be provided" of
    [NewRetriever] is never returned: a configuration with neither is
    rejected by [validate] before, with its own message, and every other
    error differs from it. *)
Theorem NewRetriever_client_check_unreachable :
  forall (conf : UserConfig.t) (msg : string),
    NewRetriever New Sprintf_q conf = Err msg ->
    msg <> "[NewRetriever] either Client or ClientConfig must be provided".
Proof.
  intros conf msg. unfold NewRetriever, validate.
  destruct (UserConfig.Client conf) as [cli0|] eqn:Hc,
           (UserConfig.ClientConfig conf) as [cc|] eqn:Hcfg; simpl.
  4: { intros [= <-]. discriminate. }
  all: destruct (UserConfig.SearchMode conf) as [sm|]; simpl;
    [|intros [= <-]; discriminate].
  all: destruct (isNone (UserConfig.Embedding conf)
                 && isNone (SearchMode.BuildQueryOption sm)); simpl;
    [intros [= <-]; discriminate|].
  all: try (destruct (New cc) as [cli0|]; simpl; [|intros [= <-]; discriminate]).
  all: destruct (Connection.HasCollection cli0 _) as [[|]|]; simpl;
    try (intros [= <-]; discriminate).
  all: destruct (Connection.GetLoadState cli0 _) as [state|]; simpl;
    try (intros [= <-]; discriminate).
  all: destruct (isLoaded state); simpl; try discriminate.
  all: destruct (Connection.LoadCollection cli0 _) as [[[]|]|]; simpl;
    try discriminate; intros [= <-]; discriminate.
Qed.

(** X28. A retriever that [NewRetriever] built from a configuration
    without an embedder has a query mode: [Retrieve] takes the query path
    whatever the call options, and so never needs the embedder. *)
Theorem NewRetriever_without_embedder :
  forall (conf conf' : UserConfig.t) (cli : Connection.t),
    NewRetriever New Sprintf_q conf = Ok (cli, conf') ->
    UserConfig.Embedding conf = None ->
    exists r sm,
      retrieverOf cli conf' = Some r
      /\ client r = Connection.retrieval cli
      /\ 0 < RetrieverConfig.TopK (config r)
      /\ SearchMode.BuildQueryOption (searchMode r) = Some sm
      /\ forall fuel co query opts,
           dispatch fuel r co query opts = Some (retrieveQuery r sm query opts).
Proof.
  intros conf conf' cli Hnew Hemb.
  assert (Hvalid : validate conf = Ok conf').
  { revert Hnew. unfold NewRetriever.
    destruct (validate conf) as [v|]; simpl; [|discriminate].
    destruct (match UserConfig.Client v with
              | Some c => Ok c
              | None => _
              end) as [cli0|]; simpl; [|discriminate].
    destruct (wrapErr _ (Connection.HasCollection cli0 _)) as [[|]|]; simpl;
      try discriminate.
    destruct (wrapErr _ (Connection.GetLoadState cli0 _)) as [state|]; simpl;
      [|discriminate].
    destruct (if negb (isLoaded state) then _ else _); simpl; [|discriminate].
    by intros [= _ <-]. }
  revert Hvalid. unfold validate.
  destruct (isNone (UserConfig.Client conf) && isNone (UserConfig.ClientConfig conf));
    [discriminate|].
  destruct (UserConfig.SearchMode conf) as [mode|] eqn:Hmode; [|discriminate].
  rewrite Hemb. simpl.
  destruct (SearchMode.BuildQueryOption mode) as [sm|] eqn:Hquery; simpl;
    [|discriminate].
  intros [= <-]. unfold retrieverOf. simpl.
  destruct (UserConfig.DocumentConverter conf) as [converter|];
    (eexists; exists sm; split; [reflexivity|]; simpl;
     split; [reflexivity|];
     split; [destruct (Z.leb_spec (UserConfig.TopK conf) 0); [done|lia]|];
     split; [exact Hquery|];
     intros fuel co query opts; unfold dispatch; simpl; by rewrite Hquery).
Qed.

End NewRetrieverFacts.

Lemma NewRetriever_client_check_unreachable_witness :
  @NewRetriever Fixtures.fixtureExternals (fun _ => Fixtures.notMocked) quoted
    (bareConfig (Some (mockConnection false LoadStateLoaded)) None)
  = Err ("[NewRetriever] collection " +:+ quoted "eino_collection" +:+ " not found")
  /\ "[NewRetriever] collection " +:+ quoted "eino_collection" +:+ " not found"
     <> "[NewRetriever] either Client or ClientConfig must be provided".
Proof.
  split; [reflexivity|].
  apply (NewRetriever_client_check_unreachable Fixtures.fixtureExternals
           (fun _ => Fixtures.notMocked) quoted
           (bareConfig (Some (mockConnection false LoadStateLoaded)) None)).
  reflexivity.
Defined.

Lemma NewRetriever_without_embedder_witness :
  exists r sm,
    retrieverOf (mockConnection true LoadStateNotLoad)
      (bareConfigValidated (Some (mockConnection true LoadStateNotLoad)) None) = Some r
    /\ client r = Connection.retrieval (mockConnection true LoadStateNotLoad)
    /\ 0 < RetrieverConfig.TopK (config r)
    /\ SearchMode.BuildQueryOption (searchMode r) = Some sm
    /\ forall fuel co query opts,
         @dispatch Fixtures.fixtureExternals fuel r co query opts
         = Some (@retrieveQuery Fixtures.fixtureExternals r sm query opts).
Proof.
  apply (NewRetriever_without_embedder Fixtures.fixtureExternals
           (fun _ => Fixtures.notMocked) quoted
           (bareConfig (Some (mockConnection true LoadStateNotLoad)) None)
           (bareConfigValidated (Some (mockConnection true LoadStateNotLoad)) None)
           (mockConnection true LoadStateNotLoad)); reflexivity.
Defined.
